(** * gau2grid: the collocation-kernel generators

    A shallow embedding of [gau2grid/np_generator.py] and
    [gau2grid/c_generator.py].  Both files are code generators: they drive a
    [codegen.CodeGen] object with a sequence of calls ([write], [indent],
    [start_c_block], ...) whose arguments are the lines of the kernel being
    produced.  The embedding keeps that shape: a generator is a function to the
    list of emitter calls it performs, in order, with the exact strings the
    Python code builds.

    The collaborators that live in other files of the package ([order],
    [RSH], [codegen]) are parameters of the sections below. *)

From Stdlib Require Import ZArith Lia Ascii DecimalString DecimalZ.
From stdpp Require Import base gmap strings list.

Open Scope Z_scope.

(** ** Python primitives used by the generators *)

(** ["%d" % z] for a Python int. *)
Definition fmt_d (z : Z) : string := NilZero.string_of_int (Z.to_int z).

(** [s * z] on a string: the empty string when [z <= 0]. *)
Fixpoint str_repeat (s : string) (k : nat) : string :=
  match k with
  | O => ""
  | S k' => s +:+ str_repeat s k'
  end.

Definition py_str_mul (s : string) (z : Z) : string := str_repeat s (Z.to_nat z).

(** [x is not None]. *)
Definition is_not_none {A : Type} (x : option A) : bool :=
  match x with
  | Some _ => true
  | None => false
  end.

(** [s.startswith(p)]. *)
Fixpoint starts_with (p s : string) : bool :=
  match p with
  | EmptyString => true
  | String a p' =>
      match s with
      | String b s' => Ascii.eqb a b && starts_with p' s'
      | EmptyString => false
      end
  end.

(** [s.split(sep)] for a non-empty separator: non-overlapping occurrences,
    scanned from the left.  [skip] counts the characters of a separator that
    was just matched and is still to be consumed. *)
Fixpoint py_split_go (sep : string) (skip : nat) (cur : string) (s : string)
  : list string :=
  match s with
  | EmptyString => [cur]
  | String c s' =>
      match skip with
      | S k => py_split_go sep k cur s'
      | O =>
          if starts_with sep s
          then cur :: py_split_go sep (String.length sep - 1) "" s'
          else py_split_go sep 0 (cur +:+ String c "") s'
      end
  end.

Definition py_split (sep s : string) : list string := py_split_go sep 0 "" s.

(** [xs[-1]] on the result of a split (never the empty list). *)
Definition py_last (xs : list string) : string := List.last xs "".

(** [range(a, b)] as the list of its values. *)
Definition py_range (a b : Z) : list Z :=
  List.map (fun k => a + Z.of_nat k) (List.seq 0 (Z.to_nat (b - a))).

(** ** The emitter interface

    One constructor per [CodeGen] method the generators call.  [cg_write]
    records the argument as it is passed: [_build_xyz_pow] may return [None],
    and [cg.write(_build_xyz_pow(...))] hands that value on unchanged. *)
Inductive cg_op : Type :=
| cg_write (line : option string)
| cg_blankline
| cg_indent
| cg_dedent (levels : nat)
| cg_start_c_block (header : string)
| cg_close_c_block.

Abbreviation W s := (cg_write (Some s%string)).

(** ** Terms as data (the reading of the specification)

    A term is a prefactor and an ordered list of references into the per-axis
    power tables. *)
Inductive axis : Type := AxX | AxY | AxZ.

Definition table_name (a : axis) : string :=
  match a with
  | AxX => "xc_pow"
  | AxY => "yc_pow"
  | AxZ => "zc_pow"
  end.

Record term : Type := MkTerm {
  term_pref : Z;
  term_factors : list (axis * Z)
}.

(** The factor an axis contributes: none when its shifted exponent is not
    positive, otherwise table entry [shifted exponent - 1]. *)
Definition axis_factor (a : axis) (e : Z) : list (axis * Z) :=
  if 0 <? e then [(a, e - 1)] else [].

(** The specification's [synthesize]: absent when the prefactor is [<= 0] or a
    shifted exponent is negative. *)
Definition synthesize (pref px py pz : Z) : option term :=
  let l := px - 2 in
  let m := py - 2 in
  let n := pz - 2 in
  if (pref <=? 0) || (l <? 0) || (m <? 0) || (n <? 0) then None
  else Some (MkTerm pref (axis_factor AxX l ++ axis_factor AxY m ++ axis_factor AxZ n)).

Fixpoint join_mul (tokens : list string) : string :=
  match tokens with
  | [] => ""
  | [t] => t
  | t :: rest => t +:+ " * " +:+ join_mul rest
  end.

Section TermText.
(** ["%2.1f" % float(pref)]: Python's float formatting, kept abstract. *)
Variable float_fmt : Z -> string.

Definition factor_text (f : axis * Z) : string :=
  table_name (fst f) +:+ "[" +:+ fmt_d (snd f) +:+ "]".

(** The tokens of a term: the prefactor unless it is 1, then the factors. *)
Definition term_tokens (t : term) : list string :=
  (if term_pref t =? 1 then [] else [float_fmt (term_pref t)])
    ++ List.map factor_text (term_factors t).

(** The right-hand side: the product of the tokens, or the constant 1 when
    there is none. *)
Definition term_rhs (t : term) : string :=
  match term_tokens t with
  | [] => "1"
  | toks => join_mul toks
  end.

Definition render_term (name : string) (t : term) : string :=
  name +:+ " = " +:+ term_rhs t.
End TermText.

(** ** Python values the generators handle *)
Inductive py_exn : Type :=
| ValueError (msg : string)
| KeyError (msg : string)
| TypeError (msg : string).

(** What the module-level dictionary [__built_npcoll_functions] can hold: it is
    passed to [exec] as the globals of the generated source, so next to the
    functions the generated [def]s bind, it receives Python's [__builtins__]
    entry on the first [exec]. *)
Inductive py_obj : Type :=
| PyBuiltins
| PyFunction (source : string).

(** What a call of [compute_collocation] does besides returning, in order. *)
Inductive event : Type :=
| EvGenerate (L : Z) (function_name cart_order : string)
| EvExec (source : string)
| EvCall (name : string) (grad : Z) (spherical : bool).

(** What [generate_c_gau2grid] does besides building sources, in order: the
    [print], and each [repr(filename=..., clang_format=...)] with the calls
    the emitter had received when it was written out. *)
Inductive io_event : Type :=
| IoPrint (text : string)
| IoRepr (filename : string) (clang_format : bool) (cg : list cg_op).

(** ** np_generator.py *)
Module np_generator.
Section Generator.
Variable float_fmt : Z -> string.

(** [_build_xyz_pow(name, pref, l, m, n, shift=2)].  The Python code
    rebinds [ret] and [mul] statement by statement; each rebinding is a
    [let] here. *)
Definition _build_xyz_pow (name : string) (pref l m n : Z) (shift : Z)
  : option string :=
  let l := l - shift in
  let m := m - shift in
  let n := n - shift in
  if (pref <=? 0) || (l <? 0) || (n <? 0) || (m <? 0) then None
  else
    let mul := " "%string in
    let '(ret, mul) :=
      if pref =? 1 then (name +:+ " =", mul)
      else (name +:+ " = " +:+ float_fmt pref, " * "%string) in
    let '(ret, mul) :=
      if 0 <? l then (ret +:+ mul +:+ "xc_pow[" +:+ fmt_d (l - 1) +:+ "]", " * "%string)
      else (ret, mul) in
    let '(ret, mul) :=
      if 0 <? m then (ret +:+ mul +:+ "yc_pow[" +:+ fmt_d (m - 1) +:+ "]", " * "%string)
      else (ret, mul) in
    let '(ret, mul) :=
      if 0 <? n then (ret +:+ mul +:+ "zc_pow[" +:+ fmt_d (n - 1) +:+ "]", " * "%string)
      else (ret, mul) in
    let ret := if String.eqb mul " " then ret +:+ " 1" else ret in
    Some ret.

(** The [order] module: [cartesian_order_factory(L, cart_order)] yields the
    tuples [(idx, l, m, n)] of a shell. *)
Variable cartesian_order_factory : Z -> string -> list (Z * Z * Z * Z).

(** One iteration of the [for idx, l, m, n in ...] loop of
    [_numpy_am_build(cg, L, cart_order)]: the emitter calls it makes. *)
Definition _numpy_am_build_body (L : Z) (c : Z * Z * Z * Z) : list cg_op :=
  let '(idx, l, m, n) := c in
  let l := l + 2 in
  let m := m + 2 in
  let n := n + 2 in
  let ld1 := l - 1 in
  let ld2 := l - 2 in
  let md1 := m - 1 in
  let md2 := m - 2 in
  let nd1 := n - 1 in
  let nd2 := n - 2 in
  let name := py_str_mul "X" ld2 +:+ py_str_mul "Y" md2 +:+ py_str_mul "Z" nd2 in
  let name := if String.eqb name "" then "0"%string else name in
  let AX := _build_xyz_pow "AX" ld2 ld1 m n 2 in
  let x_grad := is_not_none AX in
  let AY := _build_xyz_pow "AY" md2 l md1 n 2 in
  let y_grad := is_not_none AY in
  let AZ := _build_xyz_pow "AZ" nd2 l m nd1 2 in
  let z_grad := is_not_none AZ in
  let AXX := _build_xyz_pow "AXX" (ld2 * (ld2 - 1)) ld2 m n 2 in
  let AYY := _build_xyz_pow "AYY" (md2 * (md2 - 1)) l md2 n 2 in
  let AZZ := _build_xyz_pow "AZZ" (nd2 * (nd2 - 1)) l m nd2 2 in
  let AXY := _build_xyz_pow "AXY" (ld2 * md2) ld1 md1 n 2 in
  let AXZ := _build_xyz_pow "AXZ" (ld2 * nd2) ld1 m nd1 2 in
  let AYZ := _build_xyz_pow "AYZ" (md2 * nd2) l md1 nd1 2 in
  let rhs_of (t : string) := py_last (py_split " = " t) in
  (* Density *)
  [ W ("# Density AM=" +:+ fmt_d L +:+ " Component=" +:+ name);
    cg_write (_build_xyz_pow "A" 1 l m n 2);
    W ("output['PHI'][" +:+ fmt_d idx +:+ "] = S0 * A");
    W ("# Gradient AM=" +:+ fmt_d L +:+ " Component=" +:+ name);
    W "if grad > 0:";
    cg_indent;
    (* Gradient *)
    W ("output['PHI_X'][" +:+ fmt_d idx +:+ "] = SX * A");
    W ("output['PHI_Y'][" +:+ fmt_d idx +:+ "] = SY * A");
    W ("output['PHI_Z'][" +:+ fmt_d idx +:+ "] = SZ * A") ]
  ++ (if x_grad then
        [ cg_write AX; W ("output['PHI_X'][" +:+ fmt_d idx +:+ "] += S0 * AX") ]
      else [])
  ++ (if y_grad then
        [ cg_write AY; W ("output['PHI_Y'][" +:+ fmt_d idx +:+ "] += S0 * AY") ]
      else [])
  ++ (if z_grad then
        [ cg_write AZ; W ("output['PHI_Z'][" +:+ fmt_d idx +:+ "] += S0 * AZ") ]
      else [])
  ++ [ cg_dedent 1;
       (* Hessian temporaries *)
       W ("# Hessian AM=" +:+ fmt_d L +:+ " Component=" +:+ name);
       W "if grad > 1:";
       cg_indent;
       (* XX *)
       W ("output['PHI_XX'][" +:+ fmt_d idx +:+ "] = SXX * A") ]
  ++ (if x_grad then
        [ W ("output['PHI_XX'][" +:+ fmt_d idx +:+ "] += SX * AX");
          W ("output['PHI_XX'][" +:+ fmt_d idx +:+ "] += SX * AX") ]
      else [])
  ++ match AXX with
     | Some t => [ W ("output['PHI_XX'][" +:+ fmt_d idx +:+ "] += " +:+ rhs_of t +:+ " * S0") ]
     | None => []
     end
  (* YY *)
  ++ [ W ("output['PHI_YY'][" +:+ fmt_d idx +:+ "] = SYY * A") ]
  ++ (if y_grad then
        [ W ("output['PHI_YY'][" +:+ fmt_d idx +:+ "] += SY * AY");
          W ("output['PHI_YY'][" +:+ fmt_d idx +:+ "] += SY * AY") ]
      else [])
  ++ match AYY with
     | Some t => [ W ("output['PHI_YY'][" +:+ fmt_d idx +:+ "] += " +:+ rhs_of t +:+ " * S0") ]
     | None => []
     end
  (* ZZ *)
  ++ [ W ("output['PHI_ZZ'][" +:+ fmt_d idx +:+ "] = SZZ * A") ]
  ++ (if z_grad then
        [ W ("output['PHI_ZZ'][" +:+ fmt_d idx +:+ "] += SZ * AZ");
          W ("output['PHI_ZZ'][" +:+ fmt_d idx +:+ "] += SZ * AZ") ]
      else [])
  ++ match AZZ with
     | Some t => [ W ("output['PHI_ZZ'][" +:+ fmt_d idx +:+ "] += " +:+ rhs_of t +:+ " * S0") ]
     | None => []
     end
  (* XY *)
  ++ [ W ("output['PHI_XY'][" +:+ fmt_d idx +:+ "] = SXY * A") ]
  ++ (if y_grad then [ W ("output['PHI_XY'][" +:+ fmt_d idx +:+ "] += SX * AY") ] else [])
  ++ (if x_grad then [ W ("output['PHI_XY'][" +:+ fmt_d idx +:+ "] += SY * AX") ] else [])
  ++ match AXY with
     | Some t => [ W ("output['PHI_XY'][" +:+ fmt_d idx +:+ "] += " +:+ rhs_of t +:+ " * S0") ]
     | None => []
     end
  (* XZ *)
  ++ [ W ("output['PHI_XZ'][" +:+ fmt_d idx +:+ "] = SXZ * A") ]
  ++ (if z_grad then [ W ("output['PHI_XZ'][" +:+ fmt_d idx +:+ "] += SX * AZ") ] else [])
  ++ (if x_grad then [ W ("output['PHI_XZ'][" +:+ fmt_d idx +:+ "] += SZ * AX") ] else [])
  ++ match AXZ with
     | Some t => [ W ("output['PHI_XZ'][" +:+ fmt_d idx +:+ "] += " +:+ rhs_of t +:+ " * S0") ]
     | None => []
     end
  (* YZ *)
  ++ [ W ("output['PHI_YZ'][" +:+ fmt_d idx +:+ "] = SYZ * A") ]
  ++ (if z_grad then [ W ("output['PHI_YZ'][" +:+ fmt_d idx +:+ "] += SY * AZ") ] else [])
  ++ (if y_grad then [ W ("output['PHI_YZ'][" +:+ fmt_d idx +:+ "] += SZ * AY") ] else [])
  ++ match AYZ with
     | Some t => [ W ("output['PHI_YZ'][" +:+ fmt_d idx +:+ "] += " +:+ rhs_of t +:+ " * S0") ]
     | None => []
     end
  ++ [ cg_dedent 1; W " " ].

(** The [_build_xyz_pow] calls of one iteration with their values, in the
    order the loop body makes them. *)
Definition _numpy_am_build_terms (c : Z * Z * Z * Z) : list (string * option string) :=
  let '(idx, l, m, n) := c in
  let l := l + 2 in
  let m := m + 2 in
  let n := n + 2 in
  let ld1 := l - 1 in
  let ld2 := l - 2 in
  let md1 := m - 1 in
  let md2 := m - 2 in
  let nd1 := n - 1 in
  let nd2 := n - 2 in
  [ ("A", _build_xyz_pow "A" 1 l m n 2);
    ("AX", _build_xyz_pow "AX" ld2 ld1 m n 2);
    ("AY", _build_xyz_pow "AY" md2 l md1 n 2);
    ("AZ", _build_xyz_pow "AZ" nd2 l m nd1 2);
    ("AXX", _build_xyz_pow "AXX" (ld2 * (ld2 - 1)) ld2 m n 2);
    ("AYY", _build_xyz_pow "AYY" (md2 * (md2 - 1)) l md2 n 2);
    ("AZZ", _build_xyz_pow "AZZ" (nd2 * (nd2 - 1)) l m nd2 2);
    ("AXY", _build_xyz_pow "AXY" (ld2 * md2) ld1 md1 n 2);
    ("AXZ", _build_xyz_pow "AXZ" (ld2 * nd2) ld1 m nd1 2);
    ("AYZ", _build_xyz_pow "AYZ" (md2 * nd2) l md1 nd1 2) ]%string.

(** [_numpy_am_build(cg, L, cart_order)]: the calls appended to [cg]. *)
Definition _numpy_am_build (L : Z) (cart_order : string) : list cg_op :=
  flat_map (_numpy_am_build_body L) (cartesian_order_factory L cart_order).

(** What the loop of [_numpy_am_build] goes through: each tuple of the
    enumeration, with the terms synthesized for it. *)
Definition _numpy_am_build_log (L : Z) (cart_order : string)
  : list ((Z * Z * Z * Z) * list (string * option string)) :=
  List.map (fun c => (c, _numpy_am_build_terms c))
           (cartesian_order_factory L cart_order).

(** The [RSH] module: [transformation_generator(cg, l, cart_order,
    function_name=...)], as the calls it makes on [cg]. *)
Variable transformation_generator : Z -> string -> string -> list cg_op.

(** [cg.repr()]: the emitter's serialisation of what was written. *)
Variable cg_repr : list cg_op -> string.

(** The calls [numpy_generator] makes on its fresh [CodeGen], in order. *)
Definition numpy_generator_ops (L : Z) (function_name cart_order : string)
  : list cg_op :=
  (* Function definition *)
  [ W ("def " +:+ function_name
         +:+ "(xyz, L, coeffs, exponents, center, grad=2, spherical=True):");
    cg_indent;
    cg_blankline;
    W "# Make sure NumPy is in locals";
    W "import numpy as np";
    cg_blankline;
    W "# Unpack shell data";
    W "nprim = len(coeffs)";
    W "npoints = xyz.shape[0]";
    cg_blankline;
    W "# First compute the diff distance in each cartesian";
    W "xc = xyz[:, 0] - center[0]";
    W "yc = xyz[:, 1] - center[1]";
    W "zc = xyz[:, 2] - center[2]";
    W "R2 = xc * xc + yc * yc + zc * zc";
    cg_blankline;
    (* All gaussian derivatives *)
    W "# Build up the derivates in each direction";
    W "V1 = np.zeros((npoints))";
    W "V2 = np.zeros((npoints))";
    W "V3 = np.zeros((npoints))";
    W "for K in range(nprim):";
    W "    T1 = coeffs[K] * np.exp(-exponents[K] * R2)";
    W "    V1 += T1";
    W "    if grad > 0:";
    W "       T2 = -2.0 * exponents[K] * T1";
    W "       V2 += T2";
    W "    if grad > 1:";
    W "       T3 = -2.0 * exponents[K] * T2";
    W "       V3 += T3";
    cg_blankline;
    W "S0 = V1.copy()";
    W "if grad > 0:";
    W "   SX = V2 * xc";
    W "   SY = V2 * yc";
    W "   SZ = V2 * zc";
    W "if grad > 1:";
    W "   SXY = V3 * xc * yc";
    W "   SXZ = V3 * xc * zc";
    W "   SYZ = V3 * yc * zc";
    W "   SXX = V3 * xc * xc + V2";
    W "   SYY = V3 * yc * yc + V2";
    W "   SZZ = V3 * zc * zc + V2";
    cg_blankline;
    (* Directional power derivs for angular momenta > 0 *)
    W "# Power matrix for higher angular momenta";
    W "xc_pow = np.zeros((L + 1, npoints))";
    W "yc_pow = np.zeros((L + 1, npoints))";
    W "zc_pow = np.zeros((L + 1, npoints))";
    cg_blankline;
    W "xc_pow[0] = xc";
    W "yc_pow[0] = yc";
    W "zc_pow[0] = zc";
    W "for LL in range(1, L):";
    W "    xc_pow[LL] = xc_pow[LL - 1] * xc";
    W "    yc_pow[LL] = yc_pow[LL - 1] * yc";
    W "    zc_pow[LL] = zc_pow[LL - 1] * zc";
    cg_blankline;
    (* Build output data *)
    W "# Allocate data";
    W "ncart = int((L + 1) * (L + 2) / 2)";
    cg_blankline;
    W "output = {}";
    W "output['PHI'] = np.zeros((ncart, npoints))";
    W "if grad > 0:";
    W "    output['PHI_X'] = np.zeros((ncart, npoints))";
    W "    output['PHI_Y'] = np.zeros((ncart, npoints))";
    W "    output['PHI_Z'] = np.zeros((ncart, npoints))";
    W "if grad > 1:";
    W "    output['PHI_XX'] = np.zeros((ncart, npoints))";
    W "    output['PHI_YY'] = np.zeros((ncart, npoints))";
    W "    output['PHI_ZZ'] = np.zeros((ncart, npoints))";
    W "    output['PHI_XY'] = np.zeros((ncart, npoints))";
    W "    output['PHI_XZ'] = np.zeros((ncart, npoints))";
    W "    output['PHI_YZ'] = np.zeros((ncart, npoints))";
    W "if grad > 2:";
    W "    raise ValueError('Only grid derivatives through Hessians (grad = 2) has been implemented')";
    cg_blankline;
    (* Build individual angular moment *)
    W "# Angular momentum loops" ]
  ++ flat_map (fun l =>
                 [ W ("if L == " +:+ fmt_d l +:+ ":"); cg_indent ]
                 ++ _numpy_am_build l cart_order
                 ++ [ cg_dedent 1 ])
              (py_range 0 (L + 1))
  ++ [ W "# If Cartesian were done, return";
       W "if spherical is False:";
       W "    return output";
       cg_blankline ]
  (* Now spherical transformers *)
  ++ flat_map (fun l =>
                 transformation_generator l cart_order "spherical_trans"
                 ++ [ cg_blankline ])
              (py_range 0 (L + 1))
  ++ flat_map (fun l =>
                 [ W ("if L == " +:+ fmt_d l +:+ ":");
                   cg_indent;
                   W "for k, v in output.items():";
                   cg_indent;
                   W ("output[k] = " +:+ "spherical_trans" +:+ "_" +:+ fmt_d l
                        +:+ "(output[k])");
                   cg_dedent 2;
                   W "" ])
              (py_range 0 (L + 1))
  ++ [ W "return output" ].

(** [numpy_generator(L, function_name, cart_order)] returns [cg.repr()]. *)
Definition numpy_generator (L : Z) (function_name cart_order : string) : string :=
  cg_repr (numpy_generator_ops L function_name cart_order).

(** Arrays and the result dictionary of a kernel are NumPy values; running
    the function a generated source defines is left to the interpreter. *)
Variable ndarray : Type.
Variable bundle : Type.
Variable call_function :
  string -> ndarray -> Z -> ndarray -> ndarray -> ndarray -> Z -> bool
  -> py_exn + bundle.

(** The module-level state: [__built_npcoll_functions], and the log of what
    has been done so far. *)
Record state : Type := MkState {
  __built_npcoll_functions : gmap string py_obj;
  trace : list event
}.

(** [exec(source, globals)] for a source that is one top-level [def] of
    [function_name]: Python adds [__builtins__] when the dictionary has
    none, then binds the function. *)
Definition py_exec (function_name source : string) (globals : gmap string py_obj)
  : gmap string py_obj :=
  let globals :=
    match globals !! "__builtins__"%string with
    | Some _ => globals
    | None => <["__builtins__"%string := PyBuiltins]> globals
    end in
  <[function_name := PyFunction source]> globals.

(** [compute_collocation(xyz, L, coeffs, exponents, center, grad,
    spherical, cart_order)]. *)
Definition compute_collocation (st : state)
    (xyz : ndarray) (L : Z) (coeffs exponents center : ndarray)
    (grad : Z) (spherical : bool) (cart_order : string)
  : state * (py_exn + bundle) :=
  if 2 <? grad then
    (st, inl (ValueError "Only up to Hessians's of the points (grad = 2) is supported."))
  else
    let lookup := ("compute_shell_" +:+ fmt_d L +:+ "_" +:+ cart_order)%string in
    let st :=
      match __built_npcoll_functions st !! lookup with
      | Some _ => st
      | None =>
          let source := numpy_generator L lookup cart_order in
          MkState (py_exec lookup source (__built_npcoll_functions st))
                  (trace st ++ [EvGenerate L lookup cart_order; EvExec source])
      end in
    match __built_npcoll_functions st !! lookup with
    | None => (st, inl (KeyError lookup))
    | Some PyBuiltins => (st, inl (TypeError "'module' object is not callable"))
    | Some (PyFunction source) =>
        (MkState (__built_npcoll_functions st)
                 (trace st ++ [EvCall lookup grad spherical]),
         call_function source xyz L coeffs exponents center grad spherical)
    end.
End Generator.
End np_generator.

(** ** c_generator.py *)
Module c_generator.
Section Generator.
Variable float_fmt : Z -> string.

(** [_build_xyz_pow(name, pref, l, m, n, shift=2)], the copy of this file. *)
Definition _build_xyz_pow (name : string) (pref l m n : Z) (shift : Z)
  : option string :=
  let l := l - shift in
  let m := m - shift in
  let n := n - shift in
  if (pref <=? 0) || (l <? 0) || (n <? 0) || (m <? 0) then None
  else
    let mul := " "%string in
    let '(ret, mul) :=
      if pref =? 1 then (name +:+ " =", mul)
      else (name +:+ " = " +:+ float_fmt pref, " * "%string) in
    let '(ret, mul) :=
      if 0 <? l then (ret +:+ mul +:+ "xc_pow[" +:+ fmt_d (l - 1) +:+ "]", " * "%string)
      else (ret, mul) in
    let '(ret, mul) :=
      if 0 <? m then (ret +:+ mul +:+ "yc_pow[" +:+ fmt_d (m - 1) +:+ "]", " * "%string)
      else (ret, mul) in
    let '(ret, mul) :=
      if 0 <? n then (ret +:+ mul +:+ "zc_pow[" +:+ fmt_d (n - 1) +:+ "]", " * "%string)
      else (ret, mul) in
    let ret := if String.eqb mul " " then ret +:+ " 1" else ret in
    Some ret.

Variable cartesian_order_factory : Z -> string -> list (Z * Z * Z * Z).

(** One iteration of the loop of [_c_am_build(cg, L, cart_order, grad,
    shift)].  The two [continue] statements cut the iteration short. *)
Definition _c_am_build_body (L grad shift : Z) (c : Z * Z * Z * Z) : list cg_op :=
  let '(idx, l, m, n) := c in
  let l := l + 2 in
  let m := m + 2 in
  let n := n + 2 in
  let ld1 := l - 1 in
  let ld2 := l - 2 in
  let md1 := m - 1 in
  let md2 := m - 2 in
  let nd1 := n - 1 in
  let nd2 := n - 2 in
  let name := py_str_mul "X" ld2 +:+ py_str_mul "Y" md2 +:+ py_str_mul "Z" nd2 in
  let name := if String.eqb name "" then "0"%string else name in
  let AX := _build_xyz_pow "AX" ld2 ld1 m n 2 in
  let x_grad := is_not_none AX in
  let AY := _build_xyz_pow "AY" md2 l md1 n 2 in
  let y_grad := is_not_none AY in
  let AZ := _build_xyz_pow "AZ" nd2 l m nd1 2 in
  let z_grad := is_not_none AZ in
  let AXX := _build_xyz_pow "AXX" (ld2 * (ld2 - 1)) ld2 m n 2 in
  let AYY := _build_xyz_pow "AYY" (md2 * (md2 - 1)) l md2 n 2 in
  let AZZ := _build_xyz_pow "AZZ" (nd2 * (nd2 - 1)) l m nd2 2 in
  let AXY := _build_xyz_pow "AXY" (ld2 * md2) ld1 md1 n 2 in
  let AXZ := _build_xyz_pow "AXZ" (ld2 * nd2) ld1 m nd1 2 in
  let AYZ := _build_xyz_pow "AYZ" (md2 * nd2) l md1 nd1 2 in
  let rhs_of (t : string) := py_last (py_split " = " t) in
  (* Density *)
  [ W ("// Density AM=" +:+ fmt_d L +:+ " Component=" +:+ name);
    cg_write (_build_xyz_pow "A" 1 l m n 2);
    W ("phi_tmp[" +:+ fmt_d (idx * shift) +:+ " + i] = S0 * A") ]
  ++
  if grad =? 0 then []
  else
    [ W ("// Gradient AM=" +:+ fmt_d L +:+ " Component=" +:+ name);
      (* Gradient *)
      W ("output['PHI_X'][" +:+ fmt_d idx +:+ "] = SX * A");
      W ("output['PHI_Y'][" +:+ fmt_d idx +:+ "] = SY * A");
      W ("output['PHI_Z'][" +:+ fmt_d idx +:+ "] = SZ * A") ]
    ++ (if x_grad then
          [ cg_write AX; W ("output['PHI_X'][" +:+ fmt_d idx +:+ "] += S0 * AX") ]
        else [])
    ++ (if y_grad then
          [ cg_write AY; W ("output['PHI_Y'][" +:+ fmt_d idx +:+ "] += S0 * AY") ]
        else [])
    ++ (if z_grad then
          [ cg_write AZ; W ("output['PHI_Z'][" +:+ fmt_d idx +:+ "] += S0 * AZ") ]
        else [])
    (* Hessian temporaries *)
    ++ [ W ("// Hessian AM=" +:+ fmt_d L +:+ " Component=" +:+ name) ]
    ++
    if grad =? 1 then []
    else
      (* XX *)
      [ W ("output['PHI_XX'][" +:+ fmt_d idx +:+ "] = SXX * A") ]
      ++ (if x_grad then
            [ W ("output['PHI_XX'][" +:+ fmt_d idx +:+ "] += SX * AX");
              W ("output['PHI_XX'][" +:+ fmt_d idx +:+ "] += SX * AX") ]
          else [])
      ++ match AXX with
         | Some t => [ W ("output['PHI_XX'][" +:+ fmt_d idx +:+ "] += " +:+ rhs_of t +:+ " * S0") ]
         | None => []
         end
      (* YY *)
      ++ [ W ("output['PHI_YY'][" +:+ fmt_d idx +:+ "] = SYY * A") ]
      ++ (if y_grad then
            [ W ("output['PHI_YY'][" +:+ fmt_d idx +:+ "] += SY * AY");
              W ("output['PHI_YY'][" +:+ fmt_d idx +:+ "] += SY * AY") ]
          else [])
      ++ match AYY with
         | Some t => [ W ("output['PHI_YY'][" +:+ fmt_d idx +:+ "] += " +:+ rhs_of t +:+ " * S0") ]
         | None => []
         end
      (* ZZ *)
      ++ [ W ("output['PHI_ZZ'][" +:+ fmt_d idx +:+ "] = SZZ * A") ]
      ++ (if z_grad then
            [ W ("output['PHI_ZZ'][" +:+ fmt_d idx +:+ "] += SZ * AZ");
              W ("output['PHI_ZZ'][" +:+ fmt_d idx +:+ "] += SZ * AZ") ]
          else [])
      ++ match AZZ with
         | Some t => [ W ("output['PHI_ZZ'][" +:+ fmt_d idx +:+ "] += " +:+ rhs_of t +:+ " * S0") ]
         | None => []
         end
      (* XY *)
      ++ [ W ("output['PHI_XY'][" +:+ fmt_d idx +:+ "] = SXY * A") ]
      ++ (if y_grad then [ W ("output['PHI_XY'][" +:+ fmt_d idx +:+ "] += SX * AY") ] else [])
      ++ (if x_grad then [ W ("output['PHI_XY'][" +:+ fmt_d idx +:+ "] += SY * AX") ] else [])
      ++ match AXY with
         | Some t => [ W ("output['PHI_XY'][" +:+ fmt_d idx +:+ "] += " +:+ rhs_of t +:+ " * S0") ]
         | None => []
         end
      (* XZ *)
      ++ [ W ("output['PHI_XZ'][" +:+ fmt_d idx +:+ "] = SXZ * A") ]
      ++ (if z_grad then [ W ("output['PHI_XZ'][" +:+ fmt_d idx +:+ "] += SX * AZ") ] else [])
      ++ (if x_grad then [ W ("output['PHI_XZ'][" +:+ fmt_d idx +:+ "] += SZ * AX") ] else [])
      ++ match AXZ with
         | Some t => [ W ("output['PHI_XZ'][" +:+ fmt_d idx +:+ "] += " +:+ rhs_of t +:+ " * S0") ]
         | None => []
         end
      (* YZ *)
      ++ [ W ("output['PHI_YZ'][" +:+ fmt_d idx +:+ "] = SYZ * A") ]
      ++ (if z_grad then [ W ("output['PHI_YZ'][" +:+ fmt_d idx +:+ "] += SY * AZ") ] else [])
      ++ (if y_grad then [ W ("output['PHI_YZ'][" +:+ fmt_d idx +:+ "] += SZ * AY") ] else [])
      ++ match AYZ with
         | Some t => [ W ("output['PHI_YZ'][" +:+ fmt_d idx +:+ "] += " +:+ rhs_of t +:+ " * S0") ]
         | None => []
         end
      ++ [ cg_dedent 1; W " " ].

(** The [_build_xyz_pow] calls of one iteration with their values, in the
    order the loop body makes them; an iteration cut short by [continue]
    makes only the calls before it. *)
Definition _c_am_build_terms (grad : Z) (c : Z * Z * Z * Z)
  : list (string * option string) :=
  let '(idx, l, m, n) := c in
  let l := l + 2 in
  let m := m + 2 in
  let n := n + 2 in
  let ld1 := l - 1 in
  let ld2 := l - 2 in
  let md1 := m - 1 in
  let md2 := m - 2 in
  let nd1 := n - 1 in
  let nd2 := n - 2 in
  [ ("A", _build_xyz_pow "A" 1 l m n 2) ]%string
  ++
  if grad =? 0 then []
  else
    [ ("AX", _build_xyz_pow "AX" ld2 ld1 m n 2);
      ("AY", _build_xyz_pow "AY" md2 l md1 n 2);
      ("AZ", _build_xyz_pow "AZ" nd2 l m nd1 2) ]%string
    ++
    if grad =? 1 then []
    else
      [ ("AXX", _build_xyz_pow "AXX" (ld2 * (ld2 - 1)) ld2 m n 2);
        ("AYY", _build_xyz_pow "AYY" (md2 * (md2 - 1)) l md2 n 2);
        ("AZZ", _build_xyz_pow "AZZ" (nd2 * (nd2 - 1)) l m nd2 2);
        ("AXY", _build_xyz_pow "AXY" (ld2 * md2) ld1 md1 n 2);
        ("AXZ", _build_xyz_pow "AXZ" (ld2 * nd2) ld1 m nd1 2);
        ("AYZ", _build_xyz_pow "AYZ" (md2 * nd2) l md1 nd1 2) ]%string.

(** [_c_am_build(cg, L, cart_order, grad, shift)]: the calls appended. *)
Definition _c_am_build (L : Z) (cart_order : string) (grad shift : Z) : list cg_op :=
  flat_map (_c_am_build_body L grad shift) (cartesian_order_factory L cart_order).

(** What the loop of [_c_am_build] goes through: each tuple of the
    enumeration, with the terms synthesized for it. *)
Definition _c_am_build_log (L : Z) (cart_order : string) (grad : Z)
  : list ((Z * Z * Z * Z) * list (string * option string)) :=
  List.map (fun c => (c, _c_am_build_terms grad c))
           (cartesian_order_factory L cart_order).

(** The calls of [shell_c_generator] once the signature is fixed (from
    [cg.start_c_block(func_sig)] on). *)
Definition shell_c_generator_ops (L : Z) (func_sig : string) (grad : Z)
    (cart_order : string) (inner_block : Z) : list cg_op :=
  (* Precompute temps *)
  let ncart := ((L + 1) * (L + 2)) ÷ 2 in
  let nspherical := L * 2 + 1 in
  let S_tmps := ["xc"; "yz"; "zc"; "R2"; "S0"]%string in
  let L_tmps := ["xc_pow"; "yz_pow"; "zc_pow"]%string in
  let inner_tmps := ["phi_tmp"]%string in
  [ cg_start_c_block func_sig;
    cg_blankline;
    (* Figure out spacing *)
    W "// Sizing";
    W ("size_t nblocks = npoints / " +:+ fmt_d inner_block);
    W ("nblocks += (nblocks % " +:+ fmt_d inner_block +:+ ") ? 0 : 1");
    W ("size_t ncart = " +:+ fmt_d ncart);
    W ("size_t nspherical = " +:+ fmt_d nspherical);
    W "size_t nout = spherical ? nspherical : ncart";
    cg_blankline;
    (* Build temporaries *)
    W "// Allocate temporaries" ]
  ++ List.map (fun tname =>
                 W ("double*  " +:+ tname +:+ " = new double[" +:+ fmt_d inner_block +:+ "]"))
              S_tmps
  ++ List.map (fun tname =>
                 W ("double*  " +:+ tname +:+ " = new double["
                      +:+ fmt_d (inner_block * L) +:+ "]"))
              L_tmps
  ++ List.map (fun tname =>
                 W ("double*  " +:+ tname +:+ " = new double["
                      +:+ fmt_d (inner_block * ncart) +:+ "]"))
              inner_tmps
  ++ [ cg_blankline;
       (* Start outer loop *)
       W "// Start outer block loop";
       cg_start_c_block "for (size_t block = 0; block < nblocks; block++)";
       cg_blankline;
       (* Move data into inner buffers *)
       cg_blankline;
       W "// Copy data into inner temps";
       W ("size_t start = block * " +:+ fmt_d inner_block);
       W ("size_t remain = ((start + " +:+ fmt_d inner_block
            +:+ ") > npoints) ? (npoints - start) : " +:+ fmt_d inner_block);
       cg_start_c_block "for (size_t i = 0; i < remain; i++)";
       W "xc[i] = x[start + i] - center[0]";
       W "yc[i] = y[start + i] - center[1]";
       W "zc[i] = z[start + i] - center[2]";
       cg_close_c_block;
       cg_blankline;
       (* Start inner loop *)
       W "// Start inner block loop";
       cg_start_c_block ("for (size_t i = 0; i < " +:+ fmt_d inner_block +:+ "; i++)");
       cg_blankline;
       W "// Position temps";
       W "R2[i] = xc[i] * xc[i] + yc[i] * yc[i] + zc[i] * zc[i]";
       cg_blankline;
       cg_blankline;
       W "// Deriv tmps";
       cg_start_c_block "for (size_t n = 0; n < nprim; n++)";
       W "double T1 = coeffs[n] * exp(-1.0 * exponents[n] * R2[i])";
       W "S0[i] += T1";
       cg_close_c_block;
       cg_blankline;
       cg_blankline;
       W "// Power tmps";
       W "xc_pow[i] = xc[i]";
       W "yc_pow[i] = yc[i]";
       W "zc_pow[i] = zc[i]" ]
  ++ flat_map (fun l =>
                 [ W ("xc_pow[" +:+ fmt_d (inner_block * l) +:+ " + i] = xc["
                        +:+ fmt_d (inner_block * (l - 1)) +:+ " + i]");
                   W ("xc_pow[" +:+ fmt_d (inner_block * l) +:+ " + i] = xc["
                        +:+ fmt_d (inner_block * (l - 1)) +:+ " + i]");
                   W ("xc_pow[" +:+ fmt_d (inner_block * l) +:+ " + i] = xc["
                        +:+ fmt_d (inner_block * (l - 1)) +:+ " + i]") ])
              (py_range 1 L)
  ++ [ cg_blankline;
       W "// AM loops";
       cg_blankline ]
  ++ _c_am_build L cart_order grad inner_block
  ++ [ cg_blankline;
       (* End inner loop *)
       cg_close_c_block;
       (* Move data into inner buffers *)
       cg_blankline;
       W "// Copy data back into outer temps";
       cg_start_c_block "for (size_t n = 0; n < nout; n++)";
       cg_start_c_block "for (size_t i = 0; i < remain; i++)";
       W ("ret[start * nout + i] = phi_out[" +:+ fmt_d inner_block +:+ " * n + i]");
       cg_close_c_block;
       cg_close_c_block;
       cg_blankline;
       (* End outer loop *)
       cg_close_c_block;
       W "// Free temporaries" ]
  ++ List.map (fun tname => W ("delete[] " +:+ tname))
              (S_tmps ++ L_tmps ++ inner_tmps)
  ++ [ cg_blankline;
       cg_close_c_block ].

(** [shell_c_generator(cg, L, function_name, grad, cart_order,
    inner_block)]: the emitter after the call, and the exception raised or
    the signature returned. *)
Definition shell_c_generator (cg : list cg_op) (L : Z) (function_name : string)
    (grad : Z) (cart_order : string) (inner_block : Z)
  : list cg_op * (py_exn + string) :=
  let function_name :=
    if String.eqb function_name ""
    then ("coll_" +:+ fmt_d L +:+ "_" +:+ fmt_d grad)%string
    else function_name in
  (* Build function signature *)
  if grad =? 0 then
    let func_sig :=
      "size_t npoints, double* x, double* y, double* z, int nprim, double* coeffs, double* exponents, double* center, bool spherical, double* ret"%string in
    let func_sig := ("void " +:+ function_name +:+ "(" +:+ func_sig +:+ ")")%string in
    (cg ++ shell_c_generator_ops L func_sig grad cart_order inner_block,
     inr func_sig)
  else
    (cg, inl (KeyError "Grad larger than 2 is not yet implemented.")).

(** [os.path.join], left to the platform. *)
Variable path_join : string -> string -> string.

(** [generate_c_gau2grid(max_L, path, cart_order, inner_block)]: what it
    prints and writes out, and the exception that ends it, if any.  The two
    emitters are [gg_header] and [gg_density]; the loop over
    [range(max_L + 1)] stops at the first exception of [shell_c_generator]. *)
Definition generate_c_gau2grid (max_L : Z) (path cart_order : string) (inner_block : Z)
  : list io_event * option py_exn :=
  (* Add general header comments *)
  let preamble :=
    [ W "// This is an automtically generated file from ...";
      W "// Blah blah blah";
      cg_blankline ] in
  let gg_header := preamble in
  (* Add utility headers *)
  let gg_density := preamble ++ [ W "#include <math.h>"; cg_blankline ] in
  (* Write out the phi builders *)
  let builders :=
    fold_left
      (fun acc L =>
         match acc with
         | inl e => inl e
         | inr (gg_header, gg_density) =>
             match shell_c_generator gg_density L "" 0 cart_order inner_block with
             | (_, inl e) => inl e
             | (gg_density, inr sig) =>
                 (* Write out the header data *)
                 inr (gg_header ++ [ W sig; cg_blankline ], gg_density)
             end
         end)
      (py_range 0 (max_L + 1))
      (inr (gg_header, gg_density)) in
  match builders with
  | inl e => ([IoPrint path], Some e)
  | inr (gg_header, gg_density) =>
      ([ IoPrint path;
         IoRepr (path_join path "gau2grid.h") true gg_header;
         IoRepr (path_join path "gau2grid_phi.c") true gg_density ],
       None)
  end.
End Generator.
End c_generator.

(** ** The emitted kernels, read as programs

    The generators produce text.  The definitions below give the fragments the
    properties are about their meaning, statement by statement; the comment of
    each quotes the emitted lines it reads.  Coordinates are integers: the
    kernels' arithmetic is followed exactly, without rounding. *)

(** *** The tile loop of the blocked kernel ([size_t] is 64 bits wide) *)
Module tile.
Definition size_t (z : Z) : Z := z mod 2 ^ 64.

(** [size_t nblocks = npoints / B]  then
    [nblocks += (nblocks % B) ? 0 : 1]. *)
Definition nblocks (npoints inner_block : Z) : Z :=
  let nblocks := size_t (npoints / inner_block) in
  size_t (nblocks + (if nblocks mod inner_block =? 0 then 1 else 0)).

(** [size_t start = block * B]. *)
Definition start (inner_block block : Z) : Z := size_t (block * inner_block).

(** [size_t remain = ((start + B) > npoints) ? (npoints - start) : B]. *)
Definition remain (npoints inner_block block : Z) : Z :=
  let start := start inner_block block in
  if npoints <? size_t (start + inner_block)
  then size_t (npoints - start)
  else inner_block.

(** The points one pass of the outer loop body copies in and scatters back:
    [for (size_t i = 0; i < remain; i++)] over [start + i]. *)
Definition tile_points (npoints inner_block block : Z) : list Z :=
  List.map (fun i => start inner_block block + i)
           (py_range 0 (remain npoints inner_block block)).

(** [for (size_t block = 0; block < nblocks; block++)]: all points the
    kernel handles, in order. *)
Definition covered_points (npoints inner_block : Z) : list Z :=
  flat_map (tile_points npoints inner_block)
           (py_range 0 (nblocks npoints inner_block)).

(** The number of tiles a point count needs. *)
Definition ceil_div (a b : Z) : Z := (a + b - 1) / b.
End tile.

(** The headers of the C blocks a generator opens, in order. *)
Definition c_block_headers (ops : list cg_op) : list string :=
  omap (fun op => match op with cg_start_c_block h => Some h | _ => None end) ops.

(** A loop over the points of a tile, with its bound. *)
Definition point_loop (bound : string) : string :=
  "for (size_t i = 0; i < " +:+ bound +:+ "; i++)".

Definition is_point_loop (header : string) : bool :=
  starts_with "for (size_t i = 0; i < " header.

(** *** Power tables *)
Record pow_tables (A : Type) : Type := MkPow {
  xc_pow : list A;
  yc_pow : list A;
  zc_pow : list A
}.
Arguments MkPow {A} _ _ _.
Arguments xc_pow {A} _.
Arguments yc_pow {A} _.
Arguments zc_pow {A} _.

Module np_kernel.
(** One point of the array kernel.
    [xc_pow = np.zeros((L + 1, npoints))] (same for y, z),
    [xc_pow[0] = xc], ..., then
    [for LL in range(1, L): xc_pow[LL] = xc_pow[LL - 1] * xc] (same for y,
    z).  Rows are indexed from 0; every index the loop uses is in range. *)
Definition power_step (xc yc zc : Z) (t : pow_tables Z) (LL : Z) : pow_tables Z :=
  let i := Z.to_nat LL in
  let j := Z.to_nat (LL - 1) in
  let t := MkPow (<[i := default 0 (xc_pow t !! j) * xc]> (xc_pow t)) (yc_pow t) (zc_pow t) in
  let t := MkPow (xc_pow t) (<[i := default 0 (yc_pow t !! j) * yc]> (yc_pow t)) (zc_pow t) in
  let t := MkPow (xc_pow t) (yc_pow t) (<[i := default 0 (zc_pow t !! j) * zc]> (zc_pow t)) in
  t.

Definition power_tables (L xc yc zc : Z) : pow_tables Z :=
  let zeros := replicate (Z.to_nat (L + 1)) 0 in
  let t := MkPow (<[0%nat := xc]> zeros) (<[0%nat := yc]> zeros) (<[0%nat := zc]> zeros) in
  fold_left (power_step xc yc zc) (py_range 1 L) t.
End np_kernel.

Module c_kernel.
(** A C buffer from [new double[n]]: [n] cells without a value yet. *)
Definition buffer : Type := list (option Z).
Definition new_double (n : Z) : buffer := replicate (Z.to_nat n) None.

Definition load (b : buffer) (i : Z) : option Z := mjoin (b !! Z.to_nat i).
Definition store (b : buffer) (i : Z) (v : option Z) : buffer := <[Z.to_nat i := v]> b.

(** The power section of the inner loop body at point [i] of the tile:
    [xc_pow[i] = xc[i]], [yc_pow[i] = yc[i]], [zc_pow[i] = zc[i]], then for
    each [l] of [range(1, L)] the three emitted lines, all of them
    [xc_pow[B*l + i] = xc[B*(l-1) + i]]. *)
Definition power_section (inner_block L : Z) (xc yc zc : buffer)
    (t : pow_tables (option Z)) (i : Z) : pow_tables (option Z) :=
  let t := MkPow (store (xc_pow t) i (load xc i)) (yc_pow t) (zc_pow t) in
  let t := MkPow (xc_pow t) (store (yc_pow t) i (load yc i)) (zc_pow t) in
  let t := MkPow (xc_pow t) (yc_pow t) (store (zc_pow t) i (load zc i)) in
  fold_left
    (fun t l =>
       let line t :=
         MkPow (store (xc_pow t) (inner_block * l + i)
                      (load xc (inner_block * (l - 1) + i)))
               (yc_pow t) (zc_pow t) in
       line (line (line t)))
    (py_range 1 L) t.

(** The tables as allocated: [new double[B * L]] each. *)
Definition fresh_tables (inner_block L : Z) : pow_tables (option Z) :=
  MkPow (new_double (inner_block * L)) (new_double (inner_block * L))
        (new_double (inner_block * L)).
End c_kernel.

(** *** Which statements of the array kernel run

    The array kernel is Python source: a statement belongs to the block of the
    nearest preceding header with a smaller indentation, and the statements
    under [if grad > n:] run only when [grad > n].  [run] follows the emitted
    lines with that rule and records what they do to the [output] dictionary.
    Other block headers ([for], [if L == ...], [if spherical ...]) do not
    depend on [grad]; their blocks are followed as if entered. *)
Module py_kernel.
Fixpoint leading_spaces (s : string) : nat * string :=
  match s with
  | String c s' =>
      if Ascii.eqb c " "%char
      then let '(k, t) := leading_spaces s' in (S k, t)
      else (O, s)
  | EmptyString => (O, s)
  end.

(** The text up to the next single quote, and what follows the quote. *)
Fixpoint until_quote (s : string) : option (string * string) :=
  match s with
  | EmptyString => None
  | String c s' =>
      if Ascii.eqb c "'"%char then Some (EmptyString, s')
      else
        match until_quote s' with
        | Some (a, b) => Some (String c a, b)
        | None => None
        end
  end.

Fixpoint drop_chars (k : nat) (s : string) : string :=
  match k, s with
  | S k', String _ s' => drop_chars k' s'
  | _, _ => s
  end.

Inductive stmt_kind : Type :=
| KBlank                              (* empty line or comment *)
| KGuard (n : Z)                      (* [if grad > n:] *)
| KAlloc (label rhs : string)         (* [output['label'] = rhs] *)
| KElement (label : string)           (* [output['label'][...] ...] *)
| KRaise                              (* [raise ...] *)
| KOther.

(** The kind of a line, from its text without the leading spaces. *)
Definition classify (t : string) : stmt_kind :=
  if String.eqb t "" then KBlank
  else if starts_with "#" t then KBlank
  else if String.eqb t "if grad > 0:" then KGuard 0
  else if String.eqb t "if grad > 1:" then KGuard 1
  else if String.eqb t "if grad > 2:" then KGuard 2
  else if starts_with "raise " t then KRaise
  else if starts_with "output['" t then
    match until_quote (drop_chars 8 t) with
    | Some (label, rest) =>
        if starts_with "] = " rest then KAlloc label (drop_chars 4 rest)
        else if starts_with "][" rest then KElement label
        else KOther
    | None => KOther
    end
  else KOther.

(** Modelled from the spec: the [codegen.CodeGen] class is not part of the
    two generator files.  The specification gives it scoped writing with
    automatic indentation: [indent()] and [dedent(n)] move the current
    level, and [write(line)] puts [line] at the current level, [tab] columns
    per level.  [frames] are the [if grad > n:] headers whose block is open,
    innermost first, each with its column and whether its test holds. *)
Record kstate : Type := MkK {
  level : nat;
  frames : list (nat * bool);
  allocs : list (string * string);
  elements : list string;
  raised : bool
}.

Definition init : kstate := MkK 0 [] [] [] false.

Fixpoint pop_frames (col : nat) (fr : list (nat * bool)) : list (nat * bool) :=
  match fr with
  | f :: fr' => if (col <=? fst f)%nat then pop_frames col fr' else fr
  | [] => []
  end.

Definition exec_line (g : Z -> bool) (tab : nat) (s : string) (st : kstate) : kstate :=
  let '(sp, t) := leading_spaces s in
  match classify t with
  | KBlank => st
  | k =>
      let col := (level st * tab + sp)%nat in
      let fr := pop_frames col (frames st) in
      let live := negb (raised st) && forallb snd fr in
      match k with
      | KGuard n => MkK (level st) ((col, g n) :: fr) (allocs st) (elements st) (raised st)
      | KAlloc label rhs =>
          MkK (level st) fr
              (if live then allocs st ++ [(label, rhs)] else allocs st)
              (elements st) (raised st)
      | KElement label =>
          MkK (level st) fr (allocs st)
              (if live then elements st ++ [label] else elements st)
              (raised st)
      | KRaise => MkK (level st) fr (allocs st) (elements st) (raised st || live)
      | _ => MkK (level st) fr (allocs st) (elements st) (raised st)
      end
  end.

Definition step (g : Z -> bool) (tab : nat) (st : kstate) (op : cg_op) : kstate :=
  match op with
  | cg_write (Some s) => exec_line g tab s st
  | cg_write None => st
  | cg_indent => MkK (S (level st)) (frames st) (allocs st) (elements st) (raised st)
  | cg_dedent n => MkK (level st - n) (frames st) (allocs st) (elements st) (raised st)
  | _ => st
  end.

(** The kernel called with derivative order [grad]. *)
Definition run (tab : nat) (grad : Z) (ops : list cg_op) : kstate :=
  fold_left (step (fun n => n <? grad) tab) ops init.

Definition gradient_labels : list string := ["PHI_X"; "PHI_Y"; "PHI_Z"]%string.
Definition hessian_labels : list string :=
  ["PHI_XX"; "PHI_YY"; "PHI_ZZ"; "PHI_XY"; "PHI_XZ"; "PHI_YZ"]%string.

(** The labels a derivative order asks for. *)
Definition requested_labels (grad : Z) : list string :=
  ["PHI"%string]
    ++ (if 1 <=? grad then gradient_labels else [])
    ++ (if 2 <=? grad then hessian_labels else []).

(** Whether an emitter call writes a statement on [output['label'][...]]. *)
Definition on_label (label : string) (op : cg_op) : bool :=
  match op with
  | cg_write (Some s) =>
      match classify (snd (leading_spaces s)) with
      | KElement label' => String.eqb label label'
      | _ => false
      end
  | _ => false
  end.

(** Whether a line leaves the [output] dictionary alone. *)
Definition quiet (op : cg_op) : bool :=
  match op with
  | cg_write (Some s) =>
      match classify (snd (leading_spaces s)) with
      | KAlloc _ _ | KElement _ => false
      | _ => true
      end
  | _ => true
  end.
(** *** Reading a run

    The labels a run may touch, by what the two tests [grad > 0] and
    [grad > 1] answer. *)
Definition labels_of (g : Z -> bool) : list string :=
  ["PHI"%string] ++ (if g 0 then gradient_labels else [])
    ++ (if g 1 then hessian_labels else []).

Definition allowed (g : Z -> bool) (label : string) : Prop :=
  In label (labels_of g).

(** An allocation [output['label'] = np.zeros((ncart, npoints))]. *)
Definition alloc_of (label : string) : string * string :=
  (label, "np.zeros((ncart, npoints))"%string).

(** A call that is harmless anywhere: no allocation, and no statement on a
    label other than the value's. *)
Definition safe_op (op : cg_op) : bool :=
  match op with
  | cg_write (Some s) =>
      match classify (snd (leading_spaces s)) with
      | KAlloc _ _ => false
      | KElement label => String.eqb label "PHI"
      | _ => true
      end
  | _ => true
  end.

(** A line of a block: written at the current level without spaces of its
    own, no header, no allocation, and its label, if any, among [S]. *)
Definition plain (S : list string) (op : cg_op) : bool :=
  match op with
  | cg_write None => true
  | cg_write (Some s) =>
      match leading_spaces s with
      | (O, t) =>
          match classify t with
          | KBlank | KOther => true
          | KElement label => existsb (String.eqb label) S
          | _ => false
          end
      | _ => false
      end
  | cg_blankline => true
  | _ => false
  end.

(** The invariant of a run: the allocations made so far are [A] and every
    label touched is allowed. *)
Definition safe (g : Z -> bool) (A : list (string * string)) (st : kstate) : Prop :=
  allocs st = A /\ Forall (allowed g) (elements st).

(** The same inside the block of a header whose test answered [b]. *)
Definition guarded (g : Z -> bool) (tab : nat) (b : bool)
    (A : list (string * string)) (st : kstate) : Prop :=
  safe g A st
  /\ exists c fr, frames st = (c, b) :: fr /\ (c < level st * tab)%nat.

Definition triple (g : Z -> bool) (tab : nat) (P : kstate -> Prop)
    (ops : list cg_op) (Q : kstate -> Prop) : Prop :=
  forall st, P st -> Q (fold_left (step g tab) ops st).

(** A state moved to level [k] with its columns moved by [base]. *)
Definition shift_frames (base : nat) (fr : list (nat * bool)) : list (nat * bool) :=
  List.map (fun f => ((base + fst f)%nat, snd f)) fr.

Definition lift (base k : nat) (st : kstate) : kstate :=
  MkK k (shift_frames base (frames st)) (allocs st) (elements st) (raised st).

(** A call that leaves the level alone. *)
Definition flat_op (op : cg_op) : bool :=
  match op with
  | cg_indent | cg_dedent _ => false
  | _ => true
  end.
End py_kernel.

(** ** Sample collaborators, for running the generators on examples *)

(** ["%2.1f" % float(z)] for an integer small enough to be a float exactly. *)
Definition sample_float_fmt (z : Z) : string := fmt_d z +:+ ".0".

(** An enumeration of the exponent triples of degree [L], row by row. *)
Definition sample_order (L : Z) (cart_order : string) : list (Z * Z * Z * Z) :=
  let triples :=
    flat_map (fun i => List.map (fun j => (L - i, i - j, j)) (py_range 0 (i + 1)))
             (py_range 0 (L + 1)) in
  imap (fun idx '(l, m, n) => (Z.of_nat idx, l, m, n)) triples.

Definition sample_transformation (l : Z) (cart_order function_name : string)
  : list cg_op :=
  [ W ("def " +:+ function_name +:+ "_" +:+ fmt_d l +:+ "(data):");
    W "    return data" ].

(** One axis of [np_kernel.power_step]. *)
Definition row_step (x : Z) (row : list Z) (LL : Z) : list Z :=
  <[Z.to_nat LL := default 0 (row !! Z.to_nat (LL - 1)) * x]> row.

(** The lines of a kernel that store into a power table. *)
Definition power_stores (ops : list cg_op) : list string :=
  omap (fun op =>
          match op with
          | cg_write (Some s) =>
              if starts_with "xc_pow[" s || starts_with "yc_pow[" s
                 || starts_with "zc_pow[" s
              then Some s else None
          | _ => None
          end) ops.

(** The statements of a kernel on [output['label'][...]], in order. *)
Definition statements_on (label : string) (ops : list cg_op) : list cg_op :=
  List.filter (py_kernel.on_label label) ops.

(** The statements a same-axis second derivative is assembled from, as the
    specification lists them: the radial term [S_aa * A]; the cross term
    [S_a * A_a], twice, when the first-derivative angular term of the axis is
    present; the angular second-derivative term times [S0] when it is
    present. *)
Definition same_axis_statements (label S_aa S_a A_a : string) (idx : Z)
    (flag : bool) (A_aa : option string) : list cg_op :=
  [ W ("output['" +:+ label +:+ "'][" +:+ fmt_d idx +:+ "] = " +:+ S_aa +:+ " * A") ]
  ++ replicate (if flag then 2%nat else 0%nat)
       (W ("output['" +:+ label +:+ "'][" +:+ fmt_d idx +:+ "] += "
             +:+ S_a +:+ " * " +:+ A_a))
  ++ match A_aa with
     | Some t =>
         [ W ("output['" +:+ label +:+ "'][" +:+ fmt_d idx +:+ "] += "
                +:+ py_last (py_split " = " t) +:+ " * S0") ]
     | None => []
     end.

(** ** Reading the log of the array backend *)
Definition is_generate (e : event) : bool :=
  match e with EvGenerate _ _ _ => true | _ => false end.

(** The number of kernel builds in a log. *)
Definition builds (tr : list event) : nat := length (List.filter is_generate tr).

(** The key of [compute_collocation]: ["compute_shell_%d_%s" % (L, cart_order)]. *)
Definition lookup_key (L : Z) (cart_order : string) : string :=
  "compute_shell_" +:+ fmt_d L +:+ "_" +:+ cart_order.

(** ** Reading the emitted terms as numbers

    A factor [xc_pow[k]] of a term reads the power table of its axis; a
    term is its prefactor times its factors; a term that is not emitted
    contributes nothing to the statements that would use it. *)

(** [xs[i]] with Python's indices: a negative index counts from the end. *)
Definition py_getitem {A : Type} (xs : list A) (i : Z) : option A :=
  if 0 <=? i then xs !! Z.to_nat i
  else if 0 <=? Z.of_nat (length xs) + i
       then xs !! Z.to_nat (Z.of_nat (length xs) + i)
       else None.

Definition table_of (t : pow_tables Z) (a : axis) : list Z :=
  match a with
  | AxX => xc_pow t
  | AxY => yc_pow t
  | AxZ => zc_pow t
  end.

Definition factor_value (t : pow_tables Z) (f : axis * Z) : option Z :=
  py_getitem (table_of t (fst f)) (snd f).

Fixpoint factors_value (t : pow_tables Z) (fs : list (axis * Z)) : option Z :=
  match fs with
  | [] => Some 1
  | f :: fs' =>
      match factor_value t f, factors_value t fs' with
      | Some v, Some w => Some (v * w)
      | _, _ => None
      end
  end.

Definition term_value (t : pow_tables Z) (tm : term) : option Z :=
  match factors_value t (term_factors tm) with
  | Some v => Some (term_pref tm * v)
  | None => None
  end.

Definition absent_or_value (t : pow_tables Z) (o : option term) : option Z :=
  match o with
  | Some tm => term_value t tm
  | None => Some 0
  end.

(** The ten calls of [_build_xyz_pow] in the loop body of [_numpy_am_build],
    as name and arguments [(pref, l, m, n)], with the loop's rebinding of
    [l], [m], [n] and its [ld1], [ld2], ... *)
Definition am_term_args (c : Z * Z * Z * Z) : list (string * (Z * Z * Z * Z)) :=
  let '(idx, l, m, n) := c in
  let l := l + 2 in
  let m := m + 2 in
  let n := n + 2 in
  let ld1 := l - 1 in
  let ld2 := l - 2 in
  let md1 := m - 1 in
  let md2 := m - 2 in
  let nd1 := n - 1 in
  let nd2 := n - 2 in
  [ ("A", (1, l, m, n));
    ("AX", (ld2, ld1, m, n));
    ("AY", (md2, l, md1, n));
    ("AZ", (nd2, l, m, nd1));
    ("AXX", (ld2 * (ld2 - 1), ld2, m, n));
    ("AYY", (md2 * (md2 - 1), l, md2, n));
    ("AZZ", (nd2 * (nd2 - 1), l, m, nd2));
    ("AXY", (ld2 * md2, ld1, md1, n));
    ("AXZ", (ld2 * nd2, ld1, m, nd1));
    ("AYZ", (md2 * nd2, l, md1, nd1)) ]%string.

Definition synthesize_args (a : Z * Z * Z * Z) : option term :=
  let '(pref, px, py, pz) := a in synthesize pref px py pz.

(** First and second derivative of [x ^ k] in [x]. *)
Definition pow_d1 (k x : Z) : Z := k * x ^ (k - 1).
Definition pow_d2 (k x : Z) : Z := k * (k - 1) * x ^ (k - 2).

(** The monomial [x^l y^m z^n] and its derivatives, in the order of the
    names [A], [AX], [AY], [AZ], [AXX], [AYY], [AZZ], [AXY], [AXZ], [AYZ]. *)
Definition monomial_derivatives (x y z l m n : Z) : list Z :=
  [ x ^ l * y ^ m * z ^ n;
    pow_d1 l x * y ^ m * z ^ n;
    x ^ l * pow_d1 m y * z ^ n;
    x ^ l * y ^ m * pow_d1 n z;
    pow_d2 l x * y ^ m * z ^ n;
    x ^ l * pow_d2 m y * z ^ n;
    x ^ l * y ^ m * pow_d2 n z;
    pow_d1 l x * pow_d1 m y * z ^ n;
    pow_d1 l x * y ^ m * pow_d1 n z;
    x ^ l * pow_d1 m y * pow_d1 n z ].

(** The rows of a power table of the array kernel at degree [L >= 1]: the
    powers 1 to [L] of the coordinate, then the row of [np.zeros] the loop
    leaves as it is. *)
Definition power_rows (L x : Z) : list Z :=
  List.map (fun k => x ^ (k + 1)) (py_range 0 L) ++ [0].

(** ** Reading strings *)

(** The character does not occur in the string. *)
Fixpoint no_char (c : ascii) (s : string) : bool :=
  match s with
  | EmptyString => true
  | String a s' => negb (Ascii.eqb a c) && no_char c s'
  end.

(** ** Reading the calls an emitter received *)

(** The number of C blocks open after the calls, from [d] open blocks;
    [None] when a block is closed that was not opened. *)
Fixpoint block_depth (d : nat) (ops : list cg_op) : option nat :=
  match ops with
  | [] => Some d
  | cg_start_c_block _ :: ops' => block_depth (S d) ops'
  | cg_close_c_block :: ops' =>
      match d with
      | O => None
      | S d' => block_depth d' ops'
      end
  | _ :: ops' => block_depth d ops'
  end.

Fixpoint drop_levels (n k : nat) : option nat :=
  match n with
  | O => Some k
  | S n' =>
      match k with
      | O => None
      | S k' => drop_levels n' k'
      end
  end.

(** The number of [indent()] calls not yet undone after the calls, from [k];
    [None] when a [dedent] asks for more levels than that. *)
Fixpoint indent_level (k : nat) (ops : list cg_op) : option nat :=
  match ops with
  | [] => Some k
  | cg_indent :: ops' => indent_level (S k) ops'
  | cg_dedent n :: ops' =>
      match drop_levels n k with
      | Some k' => indent_level k' ops'
      | None => None
      end
  | _ :: ops' => indent_level k ops'
  end.

(** The lines written that declare a function. *)
Definition declared (ops : list cg_op) : list string :=
  omap (fun op =>
          match op with
          | cg_write (Some s) => if starts_with "void " s then Some s else None
          | _ => None
          end) ops.

(** The signature of the value-only kernel of degree [L] under its default
    name ["coll_%d_%d" % (L, 0)]. *)
Definition c_signature (L : Z) : string :=
  "void " +:+ ("coll_" +:+ fmt_d L +:+ "_" +:+ fmt_d 0) +:+ "("
    +:+ "size_t npoints, double* x, double* y, double* z, int nprim, double* coeffs, double* exponents, double* center, bool spherical, double* ret"
    +:+ ")".

(** A call that writes no [raise] line. *)
Definition calm (op : cg_op) : bool :=
  match op with
  | cg_write (Some s) =>
      match py_kernel.classify (snd (py_kernel.leading_spaces s)) with
      | py_kernel.KRaise => false
      | _ => true
      end
  | _ => true
  end.

(** The statements a first derivative is assembled from: the radial term
    [S_a * A], then [S0 * A_a] when the angular first derivative of the axis
    is present. *)
Definition gradient_statements (label S_a A_a : string) (idx : Z) (flag : bool)
  : list cg_op :=
  [ W ("output['" +:+ label +:+ "'][" +:+ fmt_d idx +:+ "] = " +:+ S_a +:+ " * A") ]
  ++ (if flag
      then [ W ("output['" +:+ label +:+ "'][" +:+ fmt_d idx +:+ "] += S0 * " +:+ A_a) ]
      else []).

(** The statements a mixed second derivative in the axes [a], [b] is
    assembled from: the radial term [S_ab * A]; [S_a * A_b] when the angular
    first derivative in [b] is present; [S_b * A_a] when the one in [a] is;
    the angular mixed derivative times [S0] when it is present. *)
Definition mixed_axis_statements (label S_ab S_a S_b A_a A_b : string) (idx : Z)
    (flag_a flag_b : bool) (A_ab : option string) : list cg_op :=
  [ W ("output['" +:+ label +:+ "'][" +:+ fmt_d idx +:+ "] = " +:+ S_ab +:+ " * A") ]
  ++ (if flag_b
      then [ W ("output['" +:+ label +:+ "'][" +:+ fmt_d idx +:+ "] += "
                  +:+ S_a +:+ " * " +:+ A_b) ]
      else [])
  ++ (if flag_a
      then [ W ("output['" +:+ label +:+ "'][" +:+ fmt_d idx +:+ "] += "
                  +:+ S_b +:+ " * " +:+ A_a) ]
      else [])
  ++ match A_ab with
     | Some t =>
         [ W ("output['" +:+ label +:+ "'][" +:+ fmt_d idx +:+ "] += "
                +:+ py_last (py_split " = " t) +:+ " * S0") ]
     | None => []
     end.

(** ** Reading the dictionary of built kernels *)

(** Every kernel stored under the key of a degree and an ordering is the
    function generated for that degree and that ordering. *)
Definition kernels_own (generate : Z -> string -> string -> string)
    (built : gmap string py_obj) : Prop :=
  forall L cart_order v,
    built !! lookup_key L cart_order = Some v ->
    v = PyFunction (generate L (lookup_key L cart_order) cart_order).

(** ** Reading the formulas an assembler emits

    The lines of [_numpy_am_build] and [_c_am_build] that carry a formula
    are the assignments of synthesized terms and the statements that store
    into an output; comments, [if grad > n:] guards, indentation and the
    separator line are each backend's own syntax. *)

(** The derivative order a formula line belongs to: 0 for the value term
    [A = ...]; 1 for the first-derivative terms and the statements on a
    gradient output; 2 for the statements on a Hessian output.  The store of
    the value is read apart ([is_value_store]): the two backends keep the
    value in different buffers. *)
Definition formula_order (op : cg_op) : option Z :=
  match op with
  | cg_write (Some s) =>
      if starts_with "A =" s then Some 0
      else if starts_with "AX =" s || starts_with "AY =" s || starts_with "AZ =" s
              || starts_with "output['PHI_X'][" s
              || starts_with "output['PHI_Y'][" s
              || starts_with "output['PHI_Z'][" s
      then Some 1
      else if starts_with "output['PHI_XX'][" s
              || starts_with "output['PHI_YY'][" s
              || starts_with "output['PHI_ZZ'][" s
              || starts_with "output['PHI_XY'][" s
              || starts_with "output['PHI_XZ'][" s
              || starts_with "output['PHI_YZ'][" s
      then Some 2
      else None
  | _ => None
  end.

Definition is_formula_upto (k : Z) (op : cg_op) : bool :=
  match formula_order op with
  | Some o => o <=? k
  | None => false
  end.

(** The formula lines of derivative order at most [k], in order. *)
Definition formulas_upto (k : Z) (ops : list cg_op) : list cg_op :=
  List.filter (is_formula_upto k) ops.

Definition is_value_store (op : cg_op) : bool :=
  match op with
  | cg_write (Some s) => starts_with "output['PHI'][" s || starts_with "phi_tmp[" s
  | _ => false
  end.

(** The statements that store the value of a component, in order. *)
Definition value_stores (ops : list cg_op) : list cg_op :=
  List.filter is_value_store ops.

(** The highest derivative order [_c_am_build] emits formulas for: its loop
    body stops at [if grad == 0: continue], then at
    [if grad == 1: continue]. *)
Definition emitted_order (grad : Z) : Z :=
  if grad =? 0 then 0 else if grad =? 1 then 1 else 2.

(** The flat index of a tuple of the enumeration. *)
Definition component_index (c : Z * Z * Z * Z) : Z :=
  let '(idx, l, m, n) := c in idx.

(** * Properties *)

(** ** Strings *)
Lemma append_assoc (a b c : string) : (a +:+ b) +:+ c = a +:+ (b +:+ c).
Proof.
  induction a as [|x a IH]; [reflexivity|].
  change (String x ((a +:+ b) +:+ c) = String x (a +:+ (b +:+ c))).
  now rewrite IH.
Qed.

(** ** The term synthesizer *)
Section Synthesizer.
Variable float_fmt : Z -> string.

Lemma c_build_xyz_pow_eq name pref l m n shift :
  c_generator._build_xyz_pow float_fmt name pref l m n shift
  = np_generator._build_xyz_pow float_fmt name pref l m n shift.
Proof. reflexivity. Qed.

Lemma build_xyz_pow_None name pref l m n :
  np_generator._build_xyz_pow float_fmt name pref l m n 2 = None
  <-> (pref <= 0 \/ l - 2 < 0 \/ m - 2 < 0 \/ n - 2 < 0).
Proof.
  unfold np_generator._build_xyz_pow.
  destruct (pref <=? 0) eqn:Hp, (l - 2 <? 0) eqn:Hl, (n - 2 <? 0) eqn:Hn,
    (m - 2 <? 0) eqn:Hm; simpl;
    try (split; [intros _; lia | reflexivity]).
  split; [|lia].
  destruct (pref =? 1), (0 <? l - 2), (0 <? m - 2), (0 <? n - 2); discriminate.
Qed.

Lemma build_xyz_pow_render name pref l m n :
  np_generator._build_xyz_pow float_fmt name pref l m n 2
  = render_term float_fmt name <$> synthesize pref l m n.
Proof.
  unfold np_generator._build_xyz_pow, synthesize.
  destruct (pref <=? 0), (l - 2 <? 0), (n - 2 <? 0), (m - 2 <? 0);
    try reflexivity.
  unfold render_term, term_rhs, term_tokens, axis_factor. simpl.
  destruct (pref =? 1), (0 <? l - 2), (0 <? m - 2), (0 <? n - 2); simpl;
    unfold factor_text; simpl; f_equal; rewrite ?append_assoc; reflexivity.
Qed.
End Synthesizer.

(** C4: with the shift of 2, the synthesizer of either generator returns
    [None] exactly when the prefactor is [<= 0] or a shifted exponent is
    negative; otherwise it returns the text of the term the specification
    describes: a reference [table[shifted exponent - 1]] for each axis whose
    shifted exponent is positive, led by the prefactor when that is not 1, and
    the constant 1 when there is no token at all. *)
Theorem build_xyz_pow_synthesizes (float_fmt : Z -> string)
    (name : string) (pref l m n : Z) :
  (np_generator._build_xyz_pow float_fmt name pref l m n 2 = None
   <-> (pref <= 0 \/ l - 2 < 0 \/ m - 2 < 0 \/ n - 2 < 0))
  /\ np_generator._build_xyz_pow float_fmt name pref l m n 2
     = render_term float_fmt name <$> synthesize pref l m n
  /\ c_generator._build_xyz_pow float_fmt name pref l m n 2
     = render_term float_fmt name <$> synthesize pref l m n.
Proof.
  split; [apply build_xyz_pow_None|].
  split; [apply build_xyz_pow_render|].
  rewrite c_build_xyz_pow_eq. apply build_xyz_pow_render.
Qed.

(** ** The two assemblers synthesize the same terms *)
Section Agreement.
Variable float_fmt : Z -> string.
Variable cartesian_order_factory : Z -> string -> list (Z * Z * Z * Z).

Lemma c_terms_prefix grad c :
  c_generator._c_am_build_terms float_fmt grad c
    `prefix_of` np_generator._numpy_am_build_terms float_fmt c.
Proof.
  destruct c as [[[idx l] m] n].
  unfold c_generator._c_am_build_terms, np_generator._numpy_am_build_terms.
  destruct (grad =? 0); [eexists; reflexivity|].
  destruct (grad =? 1); [eexists; reflexivity|].
  exists []. reflexivity.
Qed.

Lemma c_terms_hessian c :
  c_generator._c_am_build_terms float_fmt 2 c
  = np_generator._numpy_am_build_terms float_fmt c.
Proof. destruct c as [[[idx l] m] n]. reflexivity. Qed.
End Agreement.

(** The value term of the log is the line both bodies write second, before
    the statement that stores the value. *)
Lemma value_term_written float_fmt (L grad shift idx l m n : Z) :
  let A := np_generator._build_xyz_pow float_fmt "A" 1 (l + 2) (m + 2) (n + 2) 2 in
  List.hd_error (np_generator._numpy_am_build_terms float_fmt (idx, l, m, n))
  = Some ("A"%string, A)
  /\ List.hd_error (c_generator._c_am_build_terms float_fmt grad (idx, l, m, n))
     = Some ("A"%string, A)
  /\ List.nth_error (np_generator._numpy_am_build_body float_fmt L (idx, l, m, n)) 1
     = Some (cg_write A)
  /\ List.nth_error (c_generator._c_am_build_body float_fmt L grad shift (idx, l, m, n)) 1
     = Some (cg_write A).
Proof. cbv zeta. repeat split; reflexivity. Qed.

(** The calls of the synthesizer: both assemblers go through the same tuples
    [(idx, l, m, n)] in the same order, every term the blocked assembler
    synthesizes for a tuple is, call for call, the text the array assembler
    synthesizes, and with value, gradient and Hessian requested ([grad = 2])
    the two synthesize exactly the same terms. *)
Lemma am_build_logs_agree (float_fmt : Z -> string)
    (cartesian_order_factory : Z -> string -> list (Z * Z * Z * Z))
    (L : Z) (cart_order : string) (grad : Z) :
  List.map fst (c_generator._c_am_build_log float_fmt cartesian_order_factory L cart_order grad)
  = List.map fst (np_generator._numpy_am_build_log float_fmt cartesian_order_factory L cart_order)
  /\ Forall2 (fun ce ne => fst ce = fst ne /\ snd ce `prefix_of` snd ne)
       (c_generator._c_am_build_log float_fmt cartesian_order_factory L cart_order grad)
       (np_generator._numpy_am_build_log float_fmt cartesian_order_factory L cart_order)
  /\ c_generator._c_am_build_log float_fmt cartesian_order_factory L cart_order 2
     = np_generator._numpy_am_build_log float_fmt cartesian_order_factory L cart_order.
Proof.
  unfold c_generator._c_am_build_log, np_generator._numpy_am_build_log.
  generalize (cartesian_order_factory L cart_order) as cs.
  intros cs. split; [|split].
  - rewrite !List.map_map. reflexivity.
  - induction cs as [|c cs IH]; constructor; [|exact IH].
    split; [reflexivity|apply c_terms_prefix].
  - apply List.map_ext. intros c. now rewrite c_terms_hessian.
Qed.

(** ** The blocked generator rejects derivative orders *)

(** C7: for every derivative order other than 0 the blocked generator raises
    before it makes any call on the emitter: the emitter is handed back as it
    was received. *)
Theorem shell_c_generator_fails_fast (float_fmt : Z -> string)
    (cartesian_order_factory : Z -> string -> list (Z * Z * Z * Z))
    (cg : list cg_op) (L : Z) (function_name : string) (grad : Z)
    (cart_order : string) (inner_block : Z) :
  grad <> 0 ->
  c_generator.shell_c_generator float_fmt cartesian_order_factory
    cg L function_name grad cart_order inner_block
  = (cg, inl (KeyError "Grad larger than 2 is not yet implemented.")).
Proof.
  intros Hgrad. unfold c_generator.shell_c_generator.
  destruct (grad =? 0) eqn:E; [lia|reflexivity].
Qed.

Lemma shell_c_generator_fails_fast_witness :
  3 <> 0
  /\ c_generator.shell_c_generator sample_float_fmt sample_order
       [W "// header"] 2 "" 3 "row" 64
     = ([W "// header"], inl (KeyError "Grad larger than 2 is not yet implemented.")).
Proof.
  split; [lia|].
  apply (shell_c_generator_fails_fast sample_float_fmt sample_order
           [W "// header"] 2 "" 3 "row" 64).
  lia.
Defined.

(** ** The array backend's entry point *)
Lemma builds_app (a b : list event) : builds (a ++ b) = (builds a + builds b)%nat.
Proof. unfold builds. now rewrite List.filter_app, List.length_app. Qed.

Section Collocation.
Variable float_fmt : Z -> string.
Variable cartesian_order_factory : Z -> string -> list (Z * Z * Z * Z).
Variable transformation_generator : Z -> string -> string -> list cg_op.
Variable cg_repr : list cg_op -> string.
Variable ndarray : Type.
Variable bundle : Type.
Variable call_function :
  string -> ndarray -> Z -> ndarray -> ndarray -> ndarray -> Z -> bool
  -> py_exn + bundle.

Local Abbreviation compute :=
  (np_generator.compute_collocation float_fmt cartesian_order_factory
     transformation_generator cg_repr ndarray bundle call_function).
Local Abbreviation generate :=
  (np_generator.numpy_generator float_fmt cartesian_order_factory
     transformation_generator cg_repr).
Local Abbreviation built := np_generator.__built_npcoll_functions.
Local Abbreviation trace := np_generator.trace.

Lemma lookup_key_not_builtins L cart_order :
  lookup_key L cart_order <> "__builtins__"%string.
Proof. unfold lookup_key. intros H. discriminate H. Qed.

Lemma py_exec_lookup name source globals :
  np_generator.py_exec name source globals !! name = Some (PyFunction source).
Proof. unfold np_generator.py_exec. apply lookup_insert_eq. Qed.

Lemma py_exec_subseteq name source (globals : gmap string py_obj) :
  name <> "__builtins__"%string ->
  globals !! name = None ->
  globals ⊆ np_generator.py_exec name source globals.
Proof.
  intros Hne Hnone. unfold np_generator.py_exec.
  destruct (globals !! "__builtins__"%string) eqn:Hb.
  - now apply insert_subseteq.
  - transitivity (<["__builtins__"%string := PyBuiltins]> globals).
    + now apply insert_subseteq.
    + apply insert_subseteq. rewrite lookup_insert_ne; [exact Hnone|congruence].
Qed.

(** One call with a supported order, spelled out: the state it leaves and
    what it returns, by whether the key was already present. *)
Lemma compute_collocation_step st xyz L coeffs exponents center grad spherical cart_order :
  grad <= 2 ->
  let lookup := lookup_key L cart_order in
  let kernel :=
    default (PyFunction (generate L lookup cart_order)) (built st !! lookup) in
  let out := compute st xyz L coeffs exponents center grad spherical cart_order in
  built (fst out)
  = match built st !! lookup with
    | Some _ => built st
    | None => np_generator.py_exec lookup (generate L lookup cart_order) (built st)
    end
  /\ built (fst out) !! lookup = Some kernel
  /\ trace (fst out)
     = trace st
         ++ match built st !! lookup with
            | Some _ => []
            | None => [EvGenerate L lookup cart_order;
                       EvExec (generate L lookup cart_order)]
            end
         ++ match kernel with
            | PyFunction _ => [EvCall lookup grad spherical]
            | PyBuiltins => []
            end
  /\ snd out
     = match kernel with
       | PyFunction source =>
           call_function source xyz L coeffs exponents center grad spherical
       | PyBuiltins => inl (TypeError "'module' object is not callable")
       end.
Proof.
  intros Hgrad lookup kernel out. subst out kernel.
  unfold np_generator.compute_collocation.
  destruct (2 <? grad) eqn:E; [lia|].
  fold (lookup_key L cart_order). fold lookup.
  destruct (built st !! lookup) as [v|] eqn:Hl; simpl.
  - rewrite Hl. destruct v; simpl; rewrite ?app_nil_r; auto.
  - rewrite py_exec_lookup. simpl. rewrite py_exec_lookup.
    rewrite <- app_assoc. auto.
Qed.
(** C6: a call with derivative order above 2 raises at once: the dictionary
    of built kernels and the log are those of before the call, so no source
    was generated, nothing was executed or inserted, and no kernel (the only
    place arrays are allocated) was called. *)
Theorem compute_collocation_rejects_order
    st xyz L coeffs exponents center grad spherical cart_order :
  2 < grad ->
  np_generator.compute_collocation float_fmt cartesian_order_factory
    transformation_generator cg_repr ndarray bundle call_function
    st xyz L coeffs exponents center grad spherical cart_order
  = (st, inl (ValueError "Only up to Hessians's of the points (grad = 2) is supported.")).
Proof.
  intros Hgrad. unfold np_generator.compute_collocation.
  destruct (2 <? grad) eqn:E; [reflexivity|lia].
Qed.

(** C8: two calls with the same degree and ordering convention, each with a
    supported order.  After the first the key holds a kernel: the one that
    was there, or else the one just built.  The second call generates and
    executes nothing, leaves the dictionary as it is and calls that same
    kernel; over both calls at most one build is logged, and every entry
    present before the calls is still there, unchanged, after them. *)
Theorem compute_collocation_builds_once
    st L cart_order
    xyz1 coeffs1 exponents1 center1 grad1 spherical1
    xyz2 coeffs2 exponents2 center2 grad2 spherical2 :
  grad1 <= 2 -> grad2 <= 2 ->
  let lookup := lookup_key L cart_order in
  let kernel :=
    default (PyFunction (generate L lookup cart_order)) (built st !! lookup) in
  let out1 :=
    np_generator.compute_collocation float_fmt cartesian_order_factory
      transformation_generator cg_repr ndarray bundle call_function
      st xyz1 L coeffs1 exponents1 center1 grad1 spherical1 cart_order in
  let out2 :=
    np_generator.compute_collocation float_fmt cartesian_order_factory
      transformation_generator cg_repr ndarray bundle call_function
      (fst out1) xyz2 L coeffs2 exponents2 center2 grad2 spherical2 cart_order in
  built (fst out1) !! lookup = Some kernel
  /\ built (fst out2) = built (fst out1)
  /\ trace (fst out2)
     = trace (fst out1)
         ++ match kernel with
            | PyFunction _ => [EvCall lookup grad2 spherical2]
            | PyBuiltins => []
            end
  /\ snd out2
     = match kernel with
       | PyFunction source =>
           call_function source xyz2 L coeffs2 exponents2 center2 grad2 spherical2
       | PyBuiltins => inl (TypeError "'module' object is not callable")
       end
  /\ (builds (trace (fst out2)) <= builds (trace st) + 1)%nat
  /\ built st ⊆ built (fst out2).
Proof.
  intros H1 H2 lookup kernel out1 out2.
  destruct (compute_collocation_step st xyz1 L coeffs1 exponents1 center1
              grad1 spherical1 cart_order H1) as (Hb1 & Hk1 & Ht1 & _).
  destruct (compute_collocation_step (fst out1) xyz2 L coeffs2 exponents2 center2
              grad2 spherical2 cart_order H2) as (Hb2 & Hk2 & Ht2 & Hr2).
  fold lookup in Hb1, Hk1, Ht1, Hb2, Hk2, Ht2, Hr2.
  fold out1 in Hb1, Hk1, Ht1. fold kernel in Hk1, Ht1.
  fold out2 in Hb2, Hk2, Ht2, Hr2.
  rewrite Hk1 in Hb2, Hk2, Ht2, Hr2. simpl in Hb2, Hk2, Ht2, Hr2.
  split; [exact Hk1|].
  split; [exact Hb2|].
  split; [exact Ht2|].
  split; [exact Hr2|].
  split.
  - rewrite Ht2, Ht1, !builds_app.
    assert (builds (match kernel with
                    | PyFunction _ => [EvCall lookup grad1 spherical1]
                    | PyBuiltins => []
                    end) = 0%nat) as -> by (destruct kernel; reflexivity).
    assert (builds (match kernel with
                    | PyFunction _ => [EvCall lookup grad2 spherical2]
                    | PyBuiltins => []
                    end) = 0%nat) as -> by (destruct kernel; reflexivity).
    destruct (built st !! lookup); cbn; lia.
  - rewrite Hb2, Hb1.
    destruct (built st !! lookup) eqn:Hl; [reflexivity|].
    apply py_exec_subseteq; [apply lookup_key_not_builtins|exact Hl].
Qed.
End Collocation.

Lemma compute_collocation_rejects_order_witness :
  2 < 3
  /\ np_generator.compute_collocation sample_float_fmt sample_order
       sample_transformation (fun _ => ""%string) unit unit
       (fun _ _ _ _ _ _ _ _ => inr tt)
       (np_generator.MkState ∅ []) tt 1 tt tt tt 3 true "row"
     = (np_generator.MkState ∅ [],
        inl (ValueError "Only up to Hessians's of the points (grad = 2) is supported.")).
Proof.
  split; [lia|].
  apply (compute_collocation_rejects_order sample_float_fmt sample_order
           sample_transformation (fun _ => ""%string) unit unit
           (fun _ _ _ _ _ _ _ _ => inr tt)
           (np_generator.MkState ∅ []) tt 1 tt tt tt 3 true "row").
  lia.
Defined.

Lemma compute_collocation_builds_once_witness :
  (1 <= 2 /\ 2 <= 2)
  /\ let st := np_generator.MkState ∅ [] in
     let compute :=
       np_generator.compute_collocation sample_float_fmt sample_order
         sample_transformation (fun _ => "src"%string) unit unit
         (fun _ _ _ _ _ _ _ _ => inr tt) in
     let out1 := compute st tt 1 tt tt tt 1 true "row"%string in
     let out2 := compute (fst out1) tt 1 tt tt tt 2 false "row"%string in
     (builds (np_generator.trace (fst out2)) <= builds (np_generator.trace st) + 1)%nat
     /\ np_generator.__built_npcoll_functions (fst out2)
        = np_generator.__built_npcoll_functions (fst out1).
Proof.
  split; [lia|].
  pose proof (compute_collocation_builds_once sample_float_fmt sample_order
                sample_transformation (fun _ => "src"%string) unit unit
                (fun _ _ _ _ _ _ _ _ => inr tt)
                (np_generator.MkState ∅ []) 1 "row"
                tt tt tt tt 1 true tt tt tt tt 2 false
                ltac:(lia) ltac:(lia)) as H.
  cbv zeta in H. destruct H as (_ & Hb & _ & _ & Hn & _).
  cbv zeta. split; [exact Hn|exact Hb].
Defined.

(** ** The tile loop of the blocked kernel *)
Section BlockedText.
Variable float_fmt : Z -> string.
Variable cartesian_order_factory : Z -> string -> list (Z * Z * Z * Z).

Local Abbreviation shell_ops :=
  (c_generator.shell_c_generator_ops float_fmt cartesian_order_factory).

(** The two sizing lines and the two lines that place a tile, as emitted. *)
Lemma shell_c_generator_sizing_lines L func_sig grad cart_order inner_block :
  let ops := shell_ops L func_sig grad cart_order inner_block in
  In (W ("size_t nblocks = npoints / " +:+ fmt_d inner_block)) ops
  /\ In (W ("nblocks += (nblocks % " +:+ fmt_d inner_block +:+ ") ? 0 : 1")) ops
  /\ In (W ("size_t start = block * " +:+ fmt_d inner_block)) ops
  /\ In (W ("size_t remain = ((start + " +:+ fmt_d inner_block
              +:+ ") > npoints) ? (npoints - start) : " +:+ fmt_d inner_block)) ops.
Proof.
  cbv zeta. unfold c_generator.shell_c_generator_ops.
  repeat split.
  - apply in_or_app; left. simpl. tauto.
  - apply in_or_app; left. simpl. tauto.
  - do 4 (apply in_or_app; right). apply in_or_app; left. simpl. tauto.
  - do 4 (apply in_or_app; right). apply in_or_app; left. simpl. tauto.
Qed.

Lemma c_block_headers_app a b :
  c_block_headers (a ++ b) = c_block_headers a ++ c_block_headers b.
Proof. apply omap_app. Qed.

Lemma c_block_headers_writes {A} (f : A -> list cg_op) (xs : list A) :
  (forall x, c_block_headers (f x) = []) ->
  c_block_headers (flat_map f xs) = [].
Proof.
  intros Hf. induction xs as [|x xs IH]; [reflexivity|].
  simpl. now rewrite c_block_headers_app, Hf, IH.
Qed.

Lemma c_am_build_value_only_headers L cart_order shift :
  c_block_headers
    (c_generator._c_am_build float_fmt cartesian_order_factory L cart_order 0 shift)
  = [].
Proof.
  unfold c_generator._c_am_build. apply c_block_headers_writes.
  intros [[[idx l] m] n]. reflexivity.
Qed.

(** The blocks the value-only generator opens, in order. *)
Lemma shell_c_generator_headers L func_sig cart_order inner_block :
  c_block_headers (shell_ops L func_sig 0 cart_order inner_block)
  = [ func_sig;
      "for (size_t block = 0; block < nblocks; block++)";
      point_loop "remain";
      point_loop (fmt_d inner_block);
      "for (size_t n = 0; n < nprim; n++)";
      "for (size_t n = 0; n < nout; n++)";
      point_loop "remain" ]%string.
Proof.
  unfold c_generator.shell_c_generator_ops.
  rewrite !c_block_headers_app, c_am_build_value_only_headers.
  rewrite (c_block_headers_writes (A := Z)) by reflexivity.
  reflexivity.
Qed.
End BlockedText.

Lemma tile_start_exact inner_block block :
  0 <= block * inner_block < 2 ^ 64 ->
  tile.start inner_block block = block * inner_block.
Proof. intros H. unfold tile.start, tile.size_t. now apply Z.mod_small. Qed.

Lemma tile_remain_min npoints inner_block block :
  0 < inner_block ->
  0 <= block * inner_block <= npoints ->
  npoints + inner_block < 2 ^ 64 ->
  tile.remain npoints inner_block block
  = Z.min inner_block (npoints - block * inner_block).
Proof.
  intros Hb Hs Hn. unfold tile.remain.
  rewrite tile_start_exact by lia.
  unfold tile.size_t. rewrite !Z.mod_small by lia.
  destruct (npoints <? block * inner_block + inner_block) eqn:E; lia.
Qed.

(** C1: the blocked kernel at 65 points with tiles of 64.  The emitted sizing
    gives one pass of the outer loop where two tiles are needed; the pass
    handles points 0 to 63 and point 64 is never reached. *)
Theorem tile_loop_at_65_points :
  tile.nblocks 65 64 = 1
  /\ tile.ceil_div 65 64 = 2
  /\ tile.covered_points 65 64 = py_range 0 64
  /\ ~ In 64 (tile.covered_points 65 64).
Proof.
  assert (tile.covered_points 65 64 = py_range 0 64) as Hc by (vm_compute; reflexivity).
  repeat split; try (vm_compute; reflexivity).
  rewrite Hc. unfold py_range. rewrite in_map_iff.
  intros (k & Hk & Hin). apply in_seq in Hin. simpl in Hin. lia.
Qed.

(** The same for every batch of more than one and less than two tiles. *)
Lemma tile_loop_one_tile_short (npoints inner_block : Z) :
  1 < inner_block ->
  inner_block < npoints < 2 * inner_block ->
  npoints < 2 ^ 64 ->
  tile.nblocks npoints inner_block = 1 /\ tile.ceil_div npoints inner_block = 2.
Proof.
  intros Hb Hn Hmax.
  assert (npoints / inner_block = 1) as Hq
    by (symmetry; apply (Z.div_unique npoints inner_block 1 (npoints - inner_block)); lia).
  split.
  - unfold tile.nblocks, tile.size_t. rewrite Hq.
    rewrite (Z.mod_small 1 (2 ^ 64)) by lia.
    rewrite (Z.mod_small 1 inner_block) by lia.
    reflexivity.
  - unfold tile.ceil_div. symmetry.
    apply (Z.div_unique (npoints + inner_block - 1) inner_block 2
             (npoints - inner_block - 1)); lia.
Qed.

(** Where the same sizing is right: fewer points than one tile. *)
Lemma tile_loop_small_batch :
  tile.nblocks 63 64 = 1 /\ tile.covered_points 63 64 = py_range 0 63.
Proof. split; vm_compute; reflexivity. Qed.

(** C2, as stated, at degree 0 with tiles of 64: not every loop over the
    points of a tile runs to [remain]. *)
Lemma tile_loops_not_all_clamped :
  ~ Forall (fun h => h = point_loop "remain")
      (List.filter is_point_loop
         (c_block_headers
            (fst (c_generator.shell_c_generator sample_float_fmt sample_order
                    [] 0 "" 0 "row" 64)))).
Proof.
  intros H.
  assert (In (point_loop "64")
            (List.filter is_point_loop
               (c_block_headers
                  (fst (c_generator.shell_c_generator sample_float_fmt sample_order
                          [] 0 "" 0 "row" 64))))) as Hin
    by (vm_compute; tauto).
  apply (proj1 (List.Forall_forall _ _) H) in Hin. discriminate Hin.
Qed.

(** C2, amended: for a tile that starts inside the batch the valid count is
    [min(tile size, npoints - start)]; the loops over the points of a tile
    are, in order, the recentring copy running to [remain], the computation
    running to the nominal tile size, and the scatter-back running to
    [remain]. *)
Theorem tile_loops_bounds (float_fmt : Z -> string)
    (cartesian_order_factory : Z -> string -> list (Z * Z * Z * Z))
    (L : Z) (function_name cart_order : string) (inner_block npoints block : Z) :
  0 < inner_block ->
  0 <= block * inner_block <= npoints ->
  npoints + inner_block < 2 ^ 64 ->
  tile.remain npoints inner_block block
  = Z.min inner_block (npoints - tile.start inner_block block)
  /\ List.filter is_point_loop
       (c_block_headers
          (fst (c_generator.shell_c_generator float_fmt cartesian_order_factory
                  [] L function_name 0 cart_order inner_block)))
     = [ point_loop "remain"; point_loop (fmt_d inner_block); point_loop "remain" ].
Proof.
  intros Hb Hs Hn. split.
  - rewrite tile_start_exact by lia. now apply tile_remain_min.
  - unfold c_generator.shell_c_generator.
    change (0 =? 0) with true. cbv iota. cbn [fst].
    rewrite app_nil_l, shell_c_generator_headers.
    destruct (String.eqb function_name ""); reflexivity.
Qed.

Lemma tile_loops_bounds_witness :
  (0 < 64 /\ 0 <= 1 * 64 <= 100 /\ 100 + 64 < 2 ^ 64)
  /\ tile.remain 100 64 1 = Z.min 64 (100 - tile.start 64 1)
  /\ List.filter is_point_loop
       (c_block_headers
          (fst (c_generator.shell_c_generator sample_float_fmt sample_order
                  [] 1 "" 0 "row" 64)))
     = [ point_loop "remain"; point_loop (fmt_d 64); point_loop "remain" ].
Proof.
  split; [lia|].
  apply (tile_loops_bounds sample_float_fmt sample_order 1 "" "row" 64 100 1); lia.
Defined.

(** ** Power tables *)

Lemma power_fold_rows xc yc zc (range : list Z) (t : pow_tables Z) :
  fold_left (np_kernel.power_step xc yc zc) range t
  = MkPow (fold_left (row_step xc) range (xc_pow t))
          (fold_left (row_step yc) range (yc_pow t))
          (fold_left (row_step zc) range (zc_pow t)).
Proof.
  revert t. induction range as [|LL range IH]; intros t.
  - now destruct t.
  - simpl. rewrite IH. reflexivity.
Qed.

Lemma row_fold_powers (x : Z) (N : nat) (n : nat) (row : list Z) :
  length row = N ->
  row !! 0%nat = Some x ->
  (n < N)%nat ->
  let row' :=
    fold_left (row_step x) (List.map (fun k => 1 + Z.of_nat k) (List.seq 0 n)) row in
  length row' = N
  /\ forall k, (k <= n)%nat -> row' !! k = Some (x ^ (Z.of_nat k + 1)).
Proof.
  intros Hlen H0. induction n as [|n IH]; intros Hn; cbv zeta.
  - simpl. split; [exact Hlen|].
    intros k Hk. replace k with 0%nat by lia. rewrite H0. f_equal. simpl. lia.
  - rewrite List.seq_S, List.map_app, fold_left_app. simpl.
    destruct IH as [IHlen IHk]; [lia|].
    set (r := fold_left (row_step x) (List.map (fun k => 1 + Z.of_nat k) (List.seq 0 n)) row) in *.
    unfold row_step.
    replace (Z.to_nat (1 + Z.of_nat n)) with (S n) by lia.
    replace (Z.to_nat (1 + Z.of_nat n - 1)) with n by lia.
    rewrite (IHk n) by lia. simpl default.
    split; [now rewrite length_insert|].
    intros k Hk. destruct (decide (k = S n)) as [->|Hne].
    + rewrite list_lookup_insert_eq by lia. f_equal.
      replace (Z.of_nat (S n) + 1) with (Z.succ (Z.of_nat n + 1)) by lia.
      rewrite Z.pow_succ_r by lia. lia.
    + rewrite list_lookup_insert_ne by lia. apply IHk. lia.
Qed.

(** The array kernel's tables: entry [k] of each axis is that axis's
    coordinate to the power [k + 1], for every [k] below the degree. *)
Lemma np_power_tables_correct (L xc yc zc k : Z) :
  1 <= L -> 0 <= k < L ->
  let t := np_kernel.power_tables L xc yc zc in
  xc_pow t !! Z.to_nat k = Some (xc ^ (k + 1))
  /\ yc_pow t !! Z.to_nat k = Some (yc ^ (k + 1))
  /\ zc_pow t !! Z.to_nat k = Some (zc ^ (k + 1)).
Proof.
  intros HL Hk. cbv zeta. unfold np_kernel.power_tables, py_range.
  rewrite power_fold_rows. simpl xc_pow. simpl yc_pow. simpl zc_pow.
  assert (forall x,
             fold_left (row_step x)
               (List.map (fun k0 => 1 + Z.of_nat k0) (List.seq 0 (Z.to_nat (L - 1))))
               (<[0%nat := x]> (replicate (Z.to_nat (L + 1)) 0))
             !! Z.to_nat k = Some (x ^ (k + 1))) as Haxis.
  { intros x.
    destruct (row_fold_powers x (Z.to_nat (L + 1)) (Z.to_nat (L - 1))
                (<[0%nat := x]> (replicate (Z.to_nat (L + 1)) 0))) as [_ Hpow].
    - now rewrite length_insert, length_replicate.
    - apply list_lookup_insert_eq. rewrite length_replicate. lia.
    - lia.
    - rewrite (Hpow (Z.to_nat k)) by lia. do 2 f_equal. lia. }
  rewrite !Haxis. auto.
Qed.

(** The three first lines of the power section are emitted by both generators
    as the incremental scheme's base; the array generator then emits the
    product lines in a loop of the kernel. *)
Lemma numpy_generator_power_lines float_fmt cartesian_order_factory
    transformation_generator L function_name cart_order :
  exists before after,
    np_generator.numpy_generator_ops float_fmt cartesian_order_factory
      transformation_generator L function_name cart_order
    = before
        ++ [ W "xc_pow[0] = xc";
             W "yc_pow[0] = yc";
             W "zc_pow[0] = zc";
             W "for LL in range(1, L):";
             W "    xc_pow[LL] = xc_pow[LL - 1] * xc";
             W "    yc_pow[LL] = yc_pow[LL - 1] * yc";
             W "    zc_pow[LL] = zc_pow[LL - 1] * zc" ]
        ++ after.
Proof.
  unfold np_generator.numpy_generator_ops.
  match goal with
  | |- exists _ _, (?pre ++ ?rest) = _ =>
      exists (firstn 48 pre), (skipn 55 pre ++ rest)
  end.
  reflexivity.
Qed.

(** C3: the blocked kernel at degree 2 with tiles of 64.  Past the first row
    the generator emits the same copy line three times and no product: at a
    point with [xc = 3], entry 1 of the x table is 3 where the square is 9,
    and entry 1 of the y and z tables is never stored.  The array kernel has
    the squares at the same point. *)
Theorem c_power_tables_at_degree_2 :
  power_stores
    (c_generator.shell_c_generator_ops sample_float_fmt sample_order 2 "f" 0 "row" 64)
  = [ "xc_pow[i] = xc[i]"; "yc_pow[i] = yc[i]"; "zc_pow[i] = zc[i]";
      "xc_pow[64 + i] = xc[0 + i]";
      "xc_pow[64 + i] = xc[0 + i]";
      "xc_pow[64 + i] = xc[0 + i]" ]%string
  /\ (let xc := c_kernel.store (c_kernel.new_double 64) 0 (Some 3) in
      let yc := c_kernel.store (c_kernel.new_double 64) 0 (Some 5) in
      let zc := c_kernel.store (c_kernel.new_double 64) 0 (Some 7) in
      let t := c_kernel.power_section 64 2 xc yc zc (c_kernel.fresh_tables 64 2) 0 in
      c_kernel.load (xc_pow t) 0 = Some 3
      /\ c_kernel.load (xc_pow t) 64 = Some 3
      /\ c_kernel.load (yc_pow t) 64 = None
      /\ c_kernel.load (zc_pow t) 64 = None)
  /\ (let t := np_kernel.power_tables 2 3 5 7 in
      xc_pow t !! 1%nat = Some 9
      /\ yc_pow t !! 1%nat = Some 25
      /\ zc_pow t !! 1%nat = Some 49).
Proof. repeat split; vm_compute; reflexivity. Qed.

(** ** What the lines of a component do *)
Section Lines.
Variable float_fmt : Z -> string.

(** A synthesized term starts with its name and [" ="]. *)
Lemma build_xyz_pow_head name pref l m n shift t :
  np_generator._build_xyz_pow float_fmt name pref l m n shift = Some t ->
  exists rest, t = name +:+ " =" +:+ rest.
Proof.
  unfold np_generator._build_xyz_pow.
  destruct (_ || _); [discriminate|].
  destruct (pref =? 1), (0 <? l - shift), (0 <? m - shift), (0 <? n - shift);
    cbn; intros [= <-]; eexists; rewrite ?append_assoc; reflexivity.
Qed.

(** A term of a name in "A..." is a plain assignment: it is no statement on
    [output], no guard, no [raise]. *)
Lemma classify_term name pref l m n shift t :
  starts_with "A" name = true ->
  np_generator._build_xyz_pow float_fmt name pref l m n shift = Some t ->
  py_kernel.leading_spaces t = (0%nat, t) /\ py_kernel.classify t = py_kernel.KOther.
Proof.
  intros Hname Ht. apply build_xyz_pow_head in Ht as [rest ->].
  destruct name as [|c name]; [discriminate|].
  change (Ascii.eqb "A"%char c && true = true) in Hname.
  apply andb_prop in Hname as [Hc _].
  apply Ascii.eqb_eq in Hc. subst c.
  split; reflexivity.
Qed.

Lemma on_label_term label name pref l m n shift :
  starts_with "A" name = true ->
  py_kernel.on_label label
    (cg_write (np_generator._build_xyz_pow float_fmt name pref l m n shift))
  = false.
Proof.
  intros Hname. unfold py_kernel.on_label.
  destruct (np_generator._build_xyz_pow _ _ _ _ _ _ _) as [t|] eqn:Ht; [|reflexivity].
  destruct (classify_term _ _ _ _ _ _ _ Hname Ht) as [Hls Hc].
  rewrite Hls. cbn [snd]. now rewrite Hc.
Qed.
End Lines.

Ltac seg_cases :=
  repeat match goal with
  | |- context [if is_not_none ?o then _ else _] => destruct (is_not_none o)
  | |- context [match ?o with Some _ => _ | None => _ end] => destruct o
  end.

Ltac seg_solve :=
  seg_cases; cbn [List.filter];
  rewrite ?on_label_term by reflexivity; reflexivity.

(** Settle, piece by piece, the pieces of a body that hold no statement on
    the label, or only such statements. *)
Ltac kill_segments :=
  repeat match goal with
  | |- context [List.filter ?f ?seg] =>
      lazymatch seg with
      | _ ++ _ => fail
      | _ => idtac
      end;
      first [ replace (List.filter f seg) with (@nil cg_op) by seg_solve
            | replace (List.filter f seg) with seg by seg_solve ]
  end.

Ltac statements_of_body :=
  unfold np_generator._numpy_am_build_body, c_generator._c_am_build_body,
    statements_on, same_axis_statements;
  change (2 =? 0) with false; change (2 =? 1) with false;
  cbv beta iota zeta;
  rewrite !List.filter_app;
  kill_segments;
  seg_cases; reflexivity.

Section SameAxisHessian.
Variable float_fmt : Z -> string.
Variables L idx l m n : Z.

Local Abbreviation np_body :=
  (np_generator._numpy_am_build_body float_fmt L (idx, l, m, n)).
Local Abbreviation npb := (np_generator._build_xyz_pow float_fmt).
Local Abbreviation cb := (c_generator._build_xyz_pow float_fmt).

Lemma numpy_statements_XX :
  statements_on "PHI_XX" np_body
  = same_axis_statements "PHI_XX" "SXX" "SX" "AX" idx
      (is_not_none (npb "AX" (l + 2 - 2) (l + 2 - 1) (m + 2) (n + 2) 2))
      (npb "AXX" ((l + 2 - 2) * (l + 2 - 2 - 1)) (l + 2 - 2) (m + 2) (n + 2) 2).
Proof. statements_of_body. Qed.

Lemma numpy_statements_YY :
  statements_on "PHI_YY" np_body
  = same_axis_statements "PHI_YY" "SYY" "SY" "AY" idx
      (is_not_none (npb "AY" (m + 2 - 2) (l + 2) (m + 2 - 1) (n + 2) 2))
      (npb "AYY" ((m + 2 - 2) * (m + 2 - 2 - 1)) (l + 2) (m + 2 - 2) (n + 2) 2).
Proof. statements_of_body. Qed.

Lemma numpy_statements_ZZ :
  statements_on "PHI_ZZ" np_body
  = same_axis_statements "PHI_ZZ" "SZZ" "SZ" "AZ" idx
      (is_not_none (npb "AZ" (n + 2 - 2) (l + 2) (m + 2) (n + 2 - 1) 2))
      (npb "AZZ" ((n + 2 - 2) * (n + 2 - 2 - 1)) (l + 2) (m + 2) (n + 2 - 2) 2).
Proof. statements_of_body. Qed.

Variable shift : Z.
Local Abbreviation c_body :=
  (c_generator._c_am_build_body float_fmt L 2 shift (idx, l, m, n)).

Lemma c_statements_XX :
  statements_on "PHI_XX" c_body
  = same_axis_statements "PHI_XX" "SXX" "SX" "AX" idx
      (is_not_none (cb "AX" (l + 2 - 2) (l + 2 - 1) (m + 2) (n + 2) 2))
      (cb "AXX" ((l + 2 - 2) * (l + 2 - 2 - 1)) (l + 2 - 2) (m + 2) (n + 2) 2).
Proof. statements_of_body. Qed.

Lemma c_statements_YY :
  statements_on "PHI_YY" c_body
  = same_axis_statements "PHI_YY" "SYY" "SY" "AY" idx
      (is_not_none (cb "AY" (m + 2 - 2) (l + 2) (m + 2 - 1) (n + 2) 2))
      (cb "AYY" ((m + 2 - 2) * (m + 2 - 2 - 1)) (l + 2) (m + 2 - 2) (n + 2) 2).
Proof. statements_of_body. Qed.

Lemma c_statements_ZZ :
  statements_on "PHI_ZZ" c_body
  = same_axis_statements "PHI_ZZ" "SZZ" "SZ" "AZ" idx
      (is_not_none (cb "AZ" (n + 2 - 2) (l + 2) (m + 2) (n + 2 - 1) 2))
      (cb "AZZ" ((n + 2 - 2) * (n + 2 - 2 - 1)) (l + 2) (m + 2) (n + 2 - 2) 2).
Proof. statements_of_body. Qed.
End SameAxisHessian.

(** The value term of a component of the enumeration is always present. *)
Lemma value_term_present float_fmt (l m n : Z) :
  0 <= l -> 0 <= m -> 0 <= n ->
  is_not_none (np_generator._build_xyz_pow float_fmt "A" 1 (l + 2) (m + 2) (n + 2) 2)
  = true.
Proof.
  intros Hl Hm Hn.
  destruct (np_generator._build_xyz_pow _ _ _ _ _ _ _) eqn:E; [reflexivity|].
  apply build_xyz_pow_None in E. lia.
Qed.

(** When the angular first derivative of an axis is present, for exponents as
    the enumeration gives them: exactly when the axis has a positive
    exponent. *)
Lemma gradient_flag_iff float_fmt (l m n : Z) :
  0 <= l -> 0 <= m -> 0 <= n ->
  is_not_none
    (np_generator._build_xyz_pow float_fmt "AX" (l + 2 - 2) (l + 2 - 1) (m + 2) (n + 2) 2)
  = (1 <=? l).
Proof.
  intros Hl Hm Hn.
  destruct (np_generator._build_xyz_pow _ _ _ _ _ _ _) eqn:E.
  - assert (~ (l + 2 - 2 <= 0 \/ l + 2 - 1 - 2 < 0 \/ m + 2 - 2 < 0 \/ n + 2 - 2 < 0)) as H.
    { intros H.
      apply (proj2 (build_xyz_pow_None float_fmt "AX" (l + 2 - 2) (l + 2 - 1)
                      (m + 2) (n + 2))) in H.
      congruence. }
    simpl. symmetry. apply Z.leb_le. lia.
  - apply build_xyz_pow_None in E. simpl. symmetry. apply Z.leb_gt. lia.
Qed.

(** C10: in the body either assembler emits for a component, the statements on
    a same-axis second derivative are, in order: the radial term; the cross
    term [S_axis * A_axis] exactly twice when the angular first derivative of
    that axis is present (the axis's gradient flag), and not at all when it is
    absent; the angular second-derivative term when it is present.  For the
    array assembler, and for the blocked assembler asked for Hessians. *)
Theorem hessian_cross_term_twice (float_fmt : Z -> string) (L idx l m n shift : Z) :
  let l2 := l + 2 in
  let m2 := m + 2 in
  let n2 := n + 2 in
  let AX := np_generator._build_xyz_pow float_fmt "AX" (l2 - 2) (l2 - 1) m2 n2 2 in
  let AY := np_generator._build_xyz_pow float_fmt "AY" (m2 - 2) l2 (m2 - 1) n2 2 in
  let AZ := np_generator._build_xyz_pow float_fmt "AZ" (n2 - 2) l2 m2 (n2 - 1) 2 in
  let AXX :=
    np_generator._build_xyz_pow float_fmt "AXX" ((l2 - 2) * (l2 - 2 - 1)) (l2 - 2) m2 n2 2 in
  let AYY :=
    np_generator._build_xyz_pow float_fmt "AYY" ((m2 - 2) * (m2 - 2 - 1)) l2 (m2 - 2) n2 2 in
  let AZZ :=
    np_generator._build_xyz_pow float_fmt "AZZ" ((n2 - 2) * (n2 - 2 - 1)) l2 m2 (n2 - 2) 2 in
  let np_body := np_generator._numpy_am_build_body float_fmt L (idx, l, m, n) in
  let c_body := c_generator._c_am_build_body float_fmt L 2 shift (idx, l, m, n) in
  (statements_on "PHI_XX" np_body
   = same_axis_statements "PHI_XX" "SXX" "SX" "AX" idx (is_not_none AX) AXX
   /\ statements_on "PHI_YY" np_body
      = same_axis_statements "PHI_YY" "SYY" "SY" "AY" idx (is_not_none AY) AYY
   /\ statements_on "PHI_ZZ" np_body
      = same_axis_statements "PHI_ZZ" "SZZ" "SZ" "AZ" idx (is_not_none AZ) AZZ)
  /\ (statements_on "PHI_XX" c_body
      = same_axis_statements "PHI_XX" "SXX" "SX" "AX" idx (is_not_none AX) AXX
      /\ statements_on "PHI_YY" c_body
         = same_axis_statements "PHI_YY" "SYY" "SY" "AY" idx (is_not_none AY) AYY
      /\ statements_on "PHI_ZZ" c_body
         = same_axis_statements "PHI_ZZ" "SZZ" "SZ" "AZ" idx (is_not_none AZ) AZZ).
Proof.
  cbv zeta. split; (split; [|split]).
  - apply numpy_statements_XX.
  - apply numpy_statements_YY.
  - apply numpy_statements_ZZ.
  - apply c_statements_XX.
  - apply c_statements_YY.
  - apply c_statements_ZZ.
Qed.

(** ** The labels the array kernel allocates and touches *)
Section KernelLabels.
Import py_kernel.

Section Run.
Variable g : Z -> bool.
Variable tab : nat.
Hypothesis tab_pos : (0 < tab)%nat.

Lemma allowed_PHI : allowed g "PHI".
Proof. left. reflexivity. Qed.

(** A harmless call keeps the invariant, whatever blocks are open. *)
Lemma step_safe A op st :
  safe_op op = true -> safe g A st -> safe g A (step g tab st op).
Proof.
  intros Hop [HA Hel]. destruct op as [[s|]| | | | |]; try (split; assumption).
  unfold step, exec_line. unfold safe_op in Hop.
  destruct (leading_spaces s) as [sp t]. cbn [snd] in Hop.
  destruct (classify t); try discriminate; try (split; assumption).
  split; [assumption|]. cbn [elements].
  destruct (_ && _); [|assumption].
  apply Forall_app. split; [assumption|].
  apply String.eqb_eq in Hop. subst. constructor; [apply allowed_PHI|constructor].
Qed.

Lemma pop_frames_lt col c b fr :
  (c < col)%nat -> pop_frames col ((c, b) :: fr) = (c, b) :: fr.
Proof. intros H. simpl. destruct (col <=? c)%nat eqn:E; [apply Nat.leb_le in E; lia|reflexivity]. Qed.

(** Inside the block of a header, a line of the block keeps the header on
    top of the open blocks, and runs only if the header's test held. *)
Lemma step_guarded S b A op st :
  plain S op = true ->
  (b = true -> forall label, In label S -> allowed g label) ->
  guarded g tab b A st -> guarded g tab b A (step g tab st op).
Proof.
  intros Hop HS [[HA Hel] (c & fr & Hfr & Hc)].
  destruct op as [[s|]| | | | |]; try discriminate;
    try (split; [split; assumption|exists c, fr; split; assumption]).
  unfold step, exec_line. unfold plain in Hop.
  destruct (leading_spaces s) as [[|sp] t]; [|discriminate].
  rewrite Hfr, Nat.add_0_r, (pop_frames_lt _ _ _ _ Hc).
  destruct (classify t) eqn:Hk; try discriminate.
  all: (split; [split; [assumption|]
               |exists c, fr; split; [first [assumption|reflexivity]|assumption]]).
  all: try assumption.
  cbn [elements forallb snd].
  destruct (negb (raised st) && (b && forallb snd fr)) eqn:Hlive; [|assumption].
  apply Forall_app. split; [assumption|]. constructor; [|constructor].
  apply HS.
  - destruct (raised st), b; simpl in Hlive; congruence.
  - apply existsb_exists in Hop as (x & Hin & Hx). apply String.eqb_eq in Hx. now subst.
Qed.

(** A header [if grad > N:] followed by [indent()] opens its block. *)
Lemma step_guard_indent A N s st :
  leading_spaces s = (0%nat, s) -> classify s = KGuard N ->
  safe g A st ->
  guarded g tab (g N) A (step g tab (step g tab st (W s)) cg_indent).
Proof.
  intros Hs Hk [HA Hel]. unfold step at 2. unfold exec_line. rewrite Hs, Hk.
  split; [split; assumption|]. cbn.
  eexists _, _. split; [reflexivity|]. lia.
Qed.

Lemma guarded_safe b A st : guarded g tab b A st -> safe g A st.
Proof. now intros [H _]. Qed.

(** The rules to follow a list of calls piece by piece. *)
Lemma triple_nil P : triple g tab P [] P.
Proof. intros st H. exact H. Qed.

Lemma triple_app P Q R a b :
  triple g tab P a Q -> triple g tab Q b R -> triple g tab P (a ++ b) R.
Proof. intros Ha Hb st H. rewrite fold_left_app. apply Hb, Ha, H. Qed.

Lemma triple_safe_cons A op ops R :
  safe_op op = true -> triple g tab (safe g A) ops R ->
  triple g tab (safe g A) (op :: ops) R.
Proof. intros Hop H st Hst. apply H. now apply step_safe. Qed.

Lemma triple_guard_cons A N s ops R :
  leading_spaces s = (0%nat, s) -> classify s = KGuard N ->
  triple g tab (guarded g tab (g N) A) ops R ->
  triple g tab (safe g A) (W s :: cg_indent :: ops) R.
Proof. intros Hs Hk H st Hst. apply H. now apply step_guard_indent. Qed.

Lemma triple_guarded_cons S b A op ops R :
  plain S op = true ->
  (b = true -> forall label, In label S -> allowed g label) ->
  triple g tab (guarded g tab b A) ops R ->
  triple g tab (guarded g tab b A) (op :: ops) R.
Proof. intros Hop HS H st Hst. apply H. now apply (step_guarded S). Qed.

Lemma triple_dedent_cons b A k ops R :
  triple g tab (safe g A) ops R ->
  triple g tab (guarded g tab b A) (cg_dedent k :: ops) R.
Proof. intros H st [Hst _]. apply H. exact Hst. Qed.

Lemma triple_safe_list A ops :
  forallb safe_op ops = true -> triple g tab (safe g A) ops (safe g A).
Proof.
  induction ops as [|op ops IH]; intros H; [apply triple_nil|].
  simpl in H. apply andb_prop in H as [H1 H2].
  apply triple_safe_cons; auto.
Qed.

Lemma triple_guarded_list S b A ops :
  (b = true -> forall label, In label S -> allowed g label) ->
  forallb (plain S) ops = true ->
  triple g tab (guarded g tab b A) ops (guarded g tab b A).
Proof.
  intros HS. induction ops as [|op ops IH]; intros H; [apply triple_nil|].
  simpl in H. apply andb_prop in H as [H1 H2].
  apply (triple_guarded_cons S); auto.
Qed.

Lemma triple_safe_seg A seg ops R :
  forallb safe_op seg = true ->
  triple g tab (safe g A) ops R ->
  triple g tab (safe g A) (seg ++ ops) R.
Proof. intros Hs H. eapply triple_app; [now apply triple_safe_list|exact H]. Qed.

Lemma triple_guarded_seg S b A seg ops R :
  forallb (plain S) seg = true ->
  (b = true -> forall label, In label S -> allowed g label) ->
  triple g tab (guarded g tab b A) ops R ->
  triple g tab (guarded g tab b A) (seg ++ ops) R.
Proof.
  intros Hs HS H. eapply triple_app; [now apply (triple_guarded_list S)|exact H].
Qed.

Lemma gradient_allowed :
  g 0 = true -> forall label, In label gradient_labels -> allowed g label.
Proof.
  intros Hg label Hin. unfold allowed, labels_of. rewrite Hg.
  apply in_or_app. right. apply in_or_app. now left.
Qed.

Lemma hessian_allowed :
  g 1 = true -> forall label, In label hessian_labels -> allowed g label.
Proof.
  intros Hg label Hin. unfold allowed, labels_of. rewrite Hg.
  apply in_or_app. right. apply in_or_app. now right.
Qed.

Variable float_fmt : Z -> string.

Lemma safe_op_term name pref l m n shift :
  starts_with "A" name = true ->
  safe_op (cg_write (np_generator._build_xyz_pow float_fmt name pref l m n shift)) = true.
Proof.
  intros Hname. unfold safe_op.
  destruct (np_generator._build_xyz_pow _ _ _ _ _ _ _) as [t|] eqn:Ht; [|reflexivity].
  destruct (classify_term _ _ _ _ _ _ _ _ Hname Ht) as [Hls Hc].
  rewrite Hls. cbn [snd]. now rewrite Hc.
Qed.

Lemma plain_term S name pref l m n shift :
  starts_with "A" name = true ->
  plain S (cg_write (np_generator._build_xyz_pow float_fmt name pref l m n shift)) = true.
Proof.
  intros Hname. unfold plain.
  destruct (np_generator._build_xyz_pow _ _ _ _ _ _ _) as [t|] eqn:Ht; [|reflexivity].
  destruct (classify_term _ _ _ _ _ _ _ _ Hname Ht) as [Hls Hc].
  rewrite Hls. now rewrite Hc.
Qed.

Ltac op_solve :=
  first [ reflexivity
        | apply safe_op_term; reflexivity
        | apply plain_term; reflexivity ].

Ltac seg_ok :=
  seg_cases; cbn [forallb];
  rewrite ?safe_op_term, ?plain_term by reflexivity; reflexivity.

Ltac run_body :=
  repeat first
    [ apply triple_nil
    | eapply triple_guard_cons; [reflexivity|reflexivity|]
    | apply triple_dedent_cons
    | apply triple_safe_cons; [op_solve|]
    | apply (triple_guarded_cons gradient_labels);
        [op_solve|apply gradient_allowed|]
    | apply (triple_guarded_cons hessian_labels);
        [op_solve|apply hessian_allowed|]
    | apply triple_safe_seg; [seg_ok|]
    | apply (triple_guarded_seg gradient_labels); [seg_ok|apply gradient_allowed|]
    | apply (triple_guarded_seg hessian_labels); [seg_ok|apply hessian_allowed|] ].

(** The body of one component: the value statements run anywhere, the
    gradient statements under [if grad > 0:], the Hessian statements under
    [if grad > 1:]. *)
Lemma numpy_body_safe A L c :
  triple g tab (safe g A) (np_generator._numpy_am_build_body float_fmt L c) (safe g A).
Proof.
  destruct c as [[[idx l] m] n].
  unfold np_generator._numpy_am_build_body.
  cbv beta iota zeta. cbn [app].
  run_body.
Qed.

Variable cartesian_order_factory : Z -> string -> list (Z * Z * Z * Z).
Variable transformation_generator : Z -> string -> string -> list cg_op.

Lemma numpy_am_build_safe A L cart_order :
  triple g tab (safe g A)
    (np_generator._numpy_am_build float_fmt cartesian_order_factory L cart_order)
    (safe g A).
Proof.
  unfold np_generator._numpy_am_build.
  induction (cartesian_order_factory L cart_order) as [|c cs IH]; [apply triple_nil|].
  simpl. eapply triple_app; [apply numpy_body_safe|exact IH].
Qed.

Lemma triple_flat_map {X} P (f : X -> list cg_op) xs :
  (forall x, triple g tab P (f x) P) -> triple g tab P (flat_map f xs) P.
Proof.
  intros Hf. induction xs as [|x xs IH]; [apply triple_nil|].
  simpl. eapply triple_app; [apply Hf|exact IH].
Qed.

Lemma quiet_safe_op op : quiet op = true -> safe_op op = true.
Proof.
  destruct op as [[s|]| | | | |]; try reflexivity.
  unfold quiet, safe_op. destruct (classify _); congruence.
Qed.

Lemma quiet_safe_list ops : forallb quiet ops = true -> forallb safe_op ops = true.
Proof.
  induction ops as [|op ops IH]; [reflexivity|]. simpl.
  intros H. apply andb_prop in H as [H1 H2].
  now rewrite quiet_safe_op, IH.
Qed.

(** Lines written at one level behave the same at any level. *)
Lemma pop_shift base col fr :
  pop_frames (base + col) (shift_frames base fr) = shift_frames base (pop_frames col fr).
Proof.
  induction fr as [|[c b] fr IH]; [reflexivity|].
  cbn [shift_frames List.map pop_frames fst snd].
  replace (base + col <=? base + c)%nat with (col <=? c)%nat.
  - destruct (col <=? c)%nat; [exact IH|reflexivity].
  - destruct (col <=? c)%nat eqn:E.
    + symmetry. apply Nat.leb_le. apply Nat.leb_le in E. lia.
    + symmetry. apply Nat.leb_gt. apply Nat.leb_gt in E. lia.
Qed.

Lemma forallb_shift base fr : forallb snd (shift_frames base fr) = forallb snd fr.
Proof. induction fr as [|[c b] fr IH]; [reflexivity|]. simpl. now rewrite IH. Qed.

Lemma step_lift k op st :
  flat_op op = true -> level st = 0%nat ->
  step g tab (lift (k * tab) k st) op = lift (k * tab) k (step g tab st op)
  /\ level (step g tab st op) = 0%nat.
Proof.
  intros Hop Hl. destruct op as [[s|]| | | | |]; try discriminate; try (split; [reflexivity|exact Hl]).
  unfold step, exec_line.
  destruct (leading_spaces s) as [sp t].
  cbn [level frames allocs elements raised lift].
  rewrite Hl. cbn [Nat.mul Nat.add].
  rewrite pop_shift, forallb_shift.
  destruct (classify t); (split; [reflexivity|]); cbn; try assumption; reflexivity.
Qed.

Lemma fold_lift k ops st :
  forallb flat_op ops = true -> level st = 0%nat ->
  fold_left (step g tab) ops (lift (k * tab) k st)
  = lift (k * tab) k (fold_left (step g tab) ops st).
Proof.
  revert st. induction ops as [|op ops IH]; intros st Hops Hl; [reflexivity|].
  simpl in Hops. apply andb_prop in Hops as [H1 H2].
  simpl. destruct (step_lift k op st H1 Hl) as [-> Hl']. now apply IH.
Qed.

Variable L : Z.
Variables function_name cart_order : string.
Hypothesis transformation_quiet :
  forall l, forallb quiet (transformation_generator l cart_order "spherical_trans") = true.

(** The whole kernel: the lines before the component blocks are run as they
    are and make the allocations; everything after keeps the invariant. *)
Lemma numpy_generator_run :
  safe g (List.map alloc_of (labels_of g))
    (fold_left (step g tab)
       (np_generator.numpy_generator_ops float_fmt cartesian_order_factory
          transformation_generator L function_name cart_order)
       init).
Proof.
  unfold np_generator.numpy_generator_ops.
  match goal with
  | |- context [fold_left ?f ((?d :: cg_indent :: ?rest) ++ ?tail) init] =>
      rewrite (fold_left_app f (d :: cg_indent :: rest) tail init);
      change (fold_left f (d :: cg_indent :: rest) init)
        with (fold_left f rest (lift (1 * tab) 1 init));
      rewrite (fold_lift 1 rest init) by (vm_compute; reflexivity);
      assert (safe g (List.map alloc_of (labels_of g))
                (lift (1 * tab) 1 (fold_left f rest init))) as Hpro
  end.
  { unfold safe, lift. cbn [allocs elements]. split.
    - vm_compute. destruct (g 0), (g 1), (g 2); reflexivity.
    - vm_compute. constructor. }
  match goal with
  | |- safe _ ?A (fold_left _ ?tail _) =>
      cut (triple g tab (safe g A) tail (safe g A));
      [intros Htail; exact (Htail _ Hpro)|]
  end.
  clear Hpro.
  eapply triple_app.
  { apply triple_flat_map. intros l. cbn [app].
    do 2 (apply triple_safe_cons; [reflexivity|]).
    eapply triple_app; [apply numpy_am_build_safe|].
    apply triple_safe_list. reflexivity. }
  apply triple_safe_seg; [reflexivity|].
  eapply triple_app.
  { apply triple_flat_map. intros l.
    apply triple_safe_seg; [apply quiet_safe_list, transformation_quiet|].
    apply triple_safe_list. reflexivity. }
  eapply triple_app.
  { apply triple_flat_map. intros l. apply triple_safe_list. reflexivity. }
  apply triple_safe_list. reflexivity.
Qed.
End Run.

Lemma labels_of_grad grad :
labels_of (fun n => n <? grad) = requested_labels grad.
Proof.
unfold labels_of, requested_labels.
replace (0 <? grad) with (1 <=? grad).
- replace (1 <? grad) with (2 <=? grad); [reflexivity|].
  destruct (1 <? grad) eqn:E; [apply Z.leb_le|apply Z.leb_gt]; lia.
- destruct (0 <? grad) eqn:E; [apply Z.leb_le|apply Z.leb_gt]; lia.
Qed.

(** C9: the array kernel called with a derivative order.  The [output]
  dictionary receives exactly the labels the order asks for (the value
  always, the three gradient labels from order 1, the six Hessian labels
  from order 2), in that order, each as [np.zeros((ncart, npoints))], and
  every statement that runs on [output['label'][...]] is on one of these
  labels.  The emitter indents by a positive number of columns per level,
  and the spherical transformers write no statement on [output['...']]. *)
Theorem kernel_bundle_labels float_fmt cartesian_order_factory transformation_generator
  (tab : nat) (L : Z) (function_name cart_order : string) (grad : Z) :
(0 < tab)%nat ->
(forall l, forallb quiet (transformation_generator l cart_order "spherical_trans") = true) ->
let st :=
  run tab grad
    (np_generator.numpy_generator_ops float_fmt cartesian_order_factory
       transformation_generator L function_name cart_order) in
allocs st = List.map alloc_of (requested_labels grad)
/\ Forall (fun label => In label (requested_labels grad)) (elements st).
Proof.
intros Htab Hq. cbv zeta. unfold run.
destruct (numpy_generator_run (fun n => n <? grad) tab Htab float_fmt
            cartesian_order_factory transformation_generator L function_name
            cart_order Hq) as [Ha He].
rewrite labels_of_grad in Ha. split; [exact Ha|].
unfold allowed in He. now rewrite labels_of_grad in He.
Qed.
End KernelLabels.

Lemma kernel_bundle_labels_witness :
  ((0 < 4)%nat
   /\ forall l, forallb py_kernel.quiet (sample_transformation l "row" "spherical_trans") = true)
  /\ let st :=
       py_kernel.run 4 1
         (np_generator.numpy_generator_ops sample_float_fmt sample_order
            sample_transformation 1 "compute_shell_1_row" "row") in
     py_kernel.allocs st = List.map py_kernel.alloc_of (py_kernel.requested_labels 1)
     /\ Forall (fun label => In label (py_kernel.requested_labels 1)) (py_kernel.elements st).
Proof.
  split; [split; [lia|intros l; reflexivity]|].
  apply (kernel_bundle_labels sample_float_fmt sample_order sample_transformation
           4 1 "compute_shell_1_row" "row" 1).
  - lia.
  - intros l. reflexivity.
Defined.

(** * Further properties of the generators *)

(** ** Strings: characters, [split] and the decimal format *)
Lemma no_char_app c a b : no_char c (a +:+ b) = no_char c a && no_char c b.
Proof.
  induction a as [|x a IH]; [reflexivity|].
  change (no_char c (String x (a +:+ b)) = no_char c (String x a) && no_char c b).
  cbn [no_char]. rewrite IH. now rewrite andb_assoc.
Qed.

Lemma no_char_uint c d :
  (forall k, In k ["0";"1";"2";"3";"4";"5";"6";"7";"8";"9"]%char -> Ascii.eqb k c = false) ->
  no_char c (NilEmpty.string_of_uint d) = true.
Proof.
  intros Hc. induction d; cbn [NilEmpty.string_of_uint no_char]; rewrite ?IHd, ?Hc;
    try reflexivity; simpl; tauto.
Qed.

Lemma no_char_fmt_d c z :
  (forall k, In k ["0";"1";"2";"3";"4";"5";"6";"7";"8";"9";"-"]%char -> Ascii.eqb k c = false) ->
  no_char c (fmt_d z) = true.
Proof.
  intros Hc. unfold fmt_d, NilZero.string_of_int.
  assert (forall d, no_char c (NilZero.string_of_uint d) = true) as Hu.
  { intros d. unfold NilZero.string_of_uint.
    assert (no_char c (NilEmpty.string_of_uint d) = true) as H
      by (apply no_char_uint; intros k Hk; apply Hc; simpl in *; tauto).
    destruct d; try exact H. cbn [no_char]. rewrite Hc; [reflexivity|simpl; tauto]. }
  destruct (Z.to_int z); [apply Hu|].
  cbn [no_char]. rewrite Hu, Hc; [reflexivity|simpl; tauto].
Qed.

Lemma fmt_d_inj z z' : fmt_d z = fmt_d z' -> z = z'.
Proof.
  intros H. unfold fmt_d in H.
  assert (forall w, NilZero.int_of_string (NilZero.string_of_int (Z.to_int w))
                    = Some (Z.to_int w)) as Hisi.
  { intros w. apply NilZero.isi; intros E;
      pose proof (DecimalZ.of_to w) as Hw; rewrite E in Hw; cbn in Hw; subst w; discriminate E. }
  pose proof (Hisi z) as Hz. rewrite H, Hisi in Hz. injection Hz as Hz.
  rewrite <- (DecimalZ.of_to z), <- (DecimalZ.of_to z'). now rewrite Hz.
Qed.

(** ["name = rhs".split(" = ")] when neither part holds an [=]. *)
Lemma starts_with_sep_no_eq s :
  no_char "="%char s = true -> starts_with " = " s = false.
Proof.
  destruct s as [|a [|b s]]; try reflexivity.
  - cbn. now rewrite andb_false_r.
  - cbn [no_char starts_with]. intros H.
    apply andb_prop in H as [_ H]. apply andb_prop in H as [Hb _].
    rewrite (Ascii.eqb_sym "=" b). apply negb_true_iff in Hb. rewrite Hb.
    now rewrite andb_false_r.
Qed.

Lemma split_go_no_sep cur s :
  no_char "="%char s = true -> py_split_go " = " 0 cur s = [cur +:+ s].
Proof.
  revert cur. induction s as [|a s IH]; intros cur H.
  - cbn. f_equal. induction cur as [|x cur IHc]; [reflexivity|].
    change (String x cur = String x (cur +:+ "")). now rewrite <- IHc.
  - cbn [py_split_go]. rewrite (starts_with_sep_no_eq _ H).
    cbn [no_char] in H. apply andb_prop in H as [_ H].
    rewrite (IH _ H). f_equal. rewrite append_assoc. reflexivity.
Qed.

Lemma starts_with_sep_in_name a name rest :
  no_char "="%char (String a name) = true ->
  starts_with " = " (String a name +:+ " = " +:+ rest) = false.
Proof.
  intros H. cbn [no_char] in H. apply andb_prop in H as [_ H].
  destruct name as [|b name].
  - change (Ascii.eqb " " a && (Ascii.eqb "=" " " && starts_with " " ("= " +:+ rest)) = false).
    now rewrite andb_false_r.
  - cbn [no_char] in H. apply andb_prop in H as [Hb _].
    change (Ascii.eqb " " a && (Ascii.eqb "=" b && starts_with " " (name +:+ " = " +:+ rest)) = false).
    rewrite (Ascii.eqb_sym "=" b). apply negb_true_iff in Hb. rewrite Hb.
    now rewrite andb_false_r.
Qed.

Lemma split_go_at_sep cur name rest :
  no_char "="%char name = true ->
  py_split_go " = " 0 cur (name +:+ " = " +:+ rest)
  = (cur +:+ name) :: py_split_go " = " 0 "" rest.
Proof.
  revert cur. induction name as [|a name IH]; intros cur H.
  - change (py_split_go " = " 0 cur (String " " (String "=" (String " " rest)))
            = (cur +:+ "") :: py_split_go " = " 0 "" rest).
    cbn. f_equal.
    induction cur as [|x cur IHc]; [reflexivity|].
    change (String x cur = String x (cur +:+ "")). now rewrite <- IHc.
  - change (String a name +:+ " = " +:+ rest)
      with (String a (name +:+ " = " +:+ rest)).
    cbn [py_split_go].
    change (String a (name +:+ " = " +:+ rest))
      with (String a name +:+ " = " +:+ rest).
    rewrite (starts_with_sep_in_name _ _ _ H).
    cbn [no_char] in H. apply andb_prop in H as [_ H].
    rewrite (IH _ H). f_equal. rewrite append_assoc. reflexivity.
Qed.

Lemma split_assignment name rhs :
  no_char "="%char name = true -> no_char "="%char rhs = true ->
  py_split " = " (name +:+ " = " +:+ rhs) = [name; rhs].
Proof.
  intros Hn Hr. unfold py_split.
  rewrite (split_go_at_sep "" name rhs Hn), (split_go_no_sep "" rhs Hr).
  reflexivity.
Qed.

Section Rhs.
Variable float_fmt : Z -> string.
Hypothesis float_fmt_no_eq : forall z, no_char "="%char (float_fmt z) = true.

Lemma no_eq_fmt_d z : no_char "="%char (fmt_d z) = true.
Proof.
  apply no_char_fmt_d. intros k Hk. simpl in Hk.
  repeat (destruct Hk as [<-|Hk]; [reflexivity|]). contradiction.
Qed.

Lemma no_eq_factor f : no_char "="%char (factor_text f) = true.
Proof.
  unfold factor_text. rewrite !no_char_app, no_eq_fmt_d.
  destruct f as [[] i]; reflexivity.
Qed.

Lemma no_eq_join toks :
  Forall (fun t => no_char "="%char t = true) toks ->
  no_char "="%char (join_mul toks) = true.
Proof.
  induction 1 as [|t toks Ht Hts IH]; [reflexivity|].
  destruct toks as [|u toks]; [exact Ht|].
  change (no_char "="%char (t +:+ " * " +:+ join_mul (u :: toks)) = true).
  rewrite !no_char_app, Ht, IH. reflexivity.
Qed.

Lemma no_eq_term_rhs tm : no_char "="%char (term_rhs float_fmt tm) = true.
Proof.
  unfold term_rhs.
  assert (Forall (fun t => no_char "="%char t = true) (term_tokens float_fmt tm)) as H.
  { unfold term_tokens. apply Forall_app. split.
    - destruct (term_pref tm =? 1); repeat constructor. apply float_fmt_no_eq.
    - apply Forall_forall. intros t Ht. apply list_elem_of_In, in_map_iff in Ht as (f & <- & _).
      apply no_eq_factor. }
  destruct (term_tokens float_fmt tm) eqn:E; [reflexivity|].
  rewrite <- E in *. now apply no_eq_join.
Qed.
End Rhs.

Lemma sample_float_fmt_no_eq z : no_char "="%char (sample_float_fmt z) = true.
Proof.
  unfold sample_float_fmt. rewrite no_char_app, no_eq_fmt_d. reflexivity.
Qed.

(** X1: the text the Hessian statements take back out of a term.  When the
    float format and the name hold no [=], a term [t] the synthesizer returns
    splits at [" = "] into exactly the name and the product of the term, so
    [t.split(" = ")[-1]] is the whole right-hand side of the term. *)
Theorem hessian_rhs_is_term_rhs (float_fmt : Z -> string)
    (name : string) (pref l m n : Z) (t : string) :
  (forall z, no_char "="%char (float_fmt z) = true) ->
  no_char "="%char name = true ->
  np_generator._build_xyz_pow float_fmt name pref l m n 2 = Some t ->
  exists tm,
    synthesize pref l m n = Some tm
    /\ py_split " = " t = [name; term_rhs float_fmt tm]
    /\ py_last (py_split " = " t) = term_rhs float_fmt tm.
Proof.
  intros Hf Hname Ht. rewrite build_xyz_pow_render in Ht.
  destruct (synthesize pref l m n) as [tm|]; [|discriminate].
  injection Ht as <-. exists tm. split; [reflexivity|].
  unfold render_term.
  rewrite (split_assignment name _ Hname (no_eq_term_rhs float_fmt Hf tm)).
  split; reflexivity.
Qed.

Lemma hessian_rhs_is_term_rhs_witness :
  ((forall z, no_char "="%char (sample_float_fmt z) = true)
   /\ no_char "="%char "AXX" = true
   /\ np_generator._build_xyz_pow sample_float_fmt "AXX" 6 5 2 3 2
      = Some "AXX = 6.0 * xc_pow[2] * zc_pow[0]"%string)
  /\ exists tm,
       synthesize 6 5 2 3 = Some tm
       /\ py_split " = " "AXX = 6.0 * xc_pow[2] * zc_pow[0]"
          = ["AXX"%string; term_rhs sample_float_fmt tm]
       /\ py_last (py_split " = " "AXX = 6.0 * xc_pow[2] * zc_pow[0]")
          = term_rhs sample_float_fmt tm.
Proof.
  split; [split; [exact sample_float_fmt_no_eq|split; reflexivity]|].
  apply (hessian_rhs_is_term_rhs sample_float_fmt "AXX" 6 5 2 3
           "AXX = 6.0 * xc_pow[2] * zc_pow[0]").
  - exact sample_float_fmt_no_eq.
  - reflexivity.
  - reflexivity.
Defined.

(** The key of [compute_collocation]: the decimal degree holds no [_], so
    the first [_] after the prefix ends it. *)
Lemma sep_inj a a' b b' :
  no_char "_"%char a = true -> no_char "_"%char a' = true ->
  a +:+ "_" +:+ b = a' +:+ "_" +:+ b' -> a = a' /\ b = b'.
Proof.
  revert a'. induction a as [|x a IH]; intros [|x' a'] Ha Ha' H.
  - change (String "_" b = String "_" b') in H. injection H as ->. auto.
  - change (String "_" b = String x' (a' +:+ "_" +:+ b')) in H.
    injection H as <- _. discriminate Ha'.
  - change (String x (a +:+ "_" +:+ b) = String "_" b') in H.
    injection H as -> _. discriminate Ha.
  - change (String x (a +:+ "_" +:+ b) = String x' (a' +:+ "_" +:+ b')) in H.
    injection H as <- H.
    cbn [no_char] in Ha, Ha'.
    apply andb_prop in Ha as [_ Ha]. apply andb_prop in Ha' as [_ Ha'].
    destruct (IH a' Ha Ha' H) as [-> ->]. auto.
Qed.

Lemma lookup_key_eq (L L' : Z) (cart_order cart_order' : string) :
  lookup_key L cart_order = lookup_key L' cart_order' ->
  L = L' /\ cart_order = cart_order'.
Proof.
  unfold lookup_key. intros H.
  assert (fmt_d L +:+ "_" +:+ cart_order = fmt_d L' +:+ "_" +:+ cart_order') as H'.
  { revert H. generalize (fmt_d L +:+ "_" +:+ cart_order) (fmt_d L' +:+ "_" +:+ cart_order').
    intros u v H. injection H. auto. }
  assert (forall z, no_char "_"%char (fmt_d z) = true) as Hd.
  { intros z. apply no_char_fmt_d. intros k Hk. simpl in Hk.
    repeat (destruct Hk as [<-|Hk]; [reflexivity|]). contradiction. }
  destruct (sep_inj _ _ _ _ (Hd L) (Hd L') H') as [HL Hc].
  split; [now apply fmt_d_inj|exact Hc].
Qed.

(** X2: the key under which [compute_collocation] stores a kernel names its
    degree and its ordering: two calls look up the same key exactly when they
    have the same degree and the same ordering string, whatever the string
    is. *)
Theorem lookup_key_inj (L L' : Z) (cart_order cart_order' : string) :
  lookup_key L cart_order = lookup_key L' cart_order' <->
  L = L' /\ cart_order = cart_order'.
Proof.
  split; [apply lookup_key_eq|now intros [-> ->]].
Qed.

(** ** Which terms the synthesizer returns *)
Lemma is_not_none_build float_fmt name pref a b c :
  is_not_none (np_generator._build_xyz_pow float_fmt name pref a b c 2)
  = negb ((pref <=? 0) || (a - 2 <? 0) || (c - 2 <? 0) || (b - 2 <? 0)).
Proof.
  unfold np_generator._build_xyz_pow.
  destruct (_ || _); [reflexivity|].
  destruct (pref =? 1), (0 <? a - 2), (0 <? b - 2), (0 <? c - 2); reflexivity.
Qed.

Ltac bool_arith :=
  apply Bool.eq_iff_eq_true;
  rewrite ?negb_true_iff, ?orb_false_iff, ?andb_true_iff, ?Z.leb_gt, ?Z.ltb_ge, ?Z.leb_le;
  split; intros; repeat split; nia.

(** X3: which of the ten terms the array assembler synthesizes for a
    component with exponents [l], [m], [n] (none negative), in the order
    [A], [AX], [AY], [AZ], [AXX], [AYY], [AZZ], [AXY], [AXZ], [AYZ]: the
    value term always; a first derivative when the exponent of its axis is
    at least 1; a same-axis second derivative when it is at least 2; a mixed
    one when both exponents are at least 1. *)
Theorem angular_terms_presence (float_fmt : Z -> string) (idx l m n : Z) :
  0 <= l -> 0 <= m -> 0 <= n ->
  List.map (fun t => is_not_none (snd t))
    (np_generator._numpy_am_build_terms float_fmt (idx, l, m, n))
  = [ true; 1 <=? l; 1 <=? m; 1 <=? n; 2 <=? l; 2 <=? m; 2 <=? n;
      (1 <=? l) && (1 <=? m); (1 <=? l) && (1 <=? n); (1 <=? m) && (1 <=? n) ].
Proof.
  intros Hl Hm Hn. unfold np_generator._numpy_am_build_terms.
  cbn [List.map snd]. rewrite !is_not_none_build.
  repeat f_equal; bool_arith.
Qed.

Lemma angular_terms_presence_witness :
  (0 <= 2 /\ 0 <= 1 /\ 0 <= 0)
  /\ List.map (fun t => is_not_none (snd t))
       (np_generator._numpy_am_build_terms sample_float_fmt (0, 2, 1, 0))
     = [ true; true; true; false; true; false; false; true; false; false ].
Proof.
  split; [lia|].
  apply (angular_terms_presence sample_float_fmt 0 2 1 0); lia.
Defined.

(** ** What the terms compute *)
Lemma am_term_args_terms float_fmt c :
  np_generator._numpy_am_build_terms float_fmt c
  = List.map (fun '(name, (pref, px, py, pz)) =>
                (name, np_generator._build_xyz_pow float_fmt name pref px py pz 2))
             (am_term_args c).
Proof. destruct c as [[[idx l] m] n]. reflexivity. Qed.

Section TermValues.
Variables L x y z : Z.
Local Abbreviation tables := (np_kernel.power_tables L x y z).

Lemma axis_factor_value (a : axis) (e : Z) :
  0 <= e <= L ->
  factors_value tables (axis_factor a e)
  = Some (match a with AxX => x | AxY => y | AxZ => z end ^ e).
Proof.
  intros He. unfold axis_factor.
  destruct (0 <? e) eqn:E.
  - apply Z.ltb_lt in E.
    cbn [factors_value]. unfold factor_value, py_getitem. cbn [fst snd].
    replace (0 <=? e - 1) with true by (symmetry; apply Z.leb_le; lia).
    destruct (np_power_tables_correct L x y z (e - 1)) as (Hx & Hy & Hz); [lia|lia|].
    replace (e - 1 + 1) with e in * by lia.
    destruct a; cbn [table_of]; rewrite ?Hx, ?Hy, ?Hz; f_equal; lia.
  - apply Z.ltb_ge in E. replace e with 0 by lia. now destruct a.
Qed.

Lemma factors_value_app fs gs v w :
  factors_value tables fs = Some v -> factors_value tables gs = Some w ->
  factors_value tables (fs ++ gs) = Some (v * w).
Proof.
  revert v. induction fs as [|f fs IH]; intros v Hf Hg.
  - injection Hf as <-. simpl. rewrite Hg. f_equal. lia.
  - simpl in *. destruct (factor_value tables f) as [a|]; [|discriminate].
    destruct (factors_value tables fs) as [b|]; [|discriminate].
    injection Hf as <-. rewrite (IH b eq_refl Hg). f_equal. lia.
Qed.

Lemma synthesize_value pref px py pz :
  0 < pref -> 0 <= px - 2 <= L -> 0 <= py - 2 <= L -> 0 <= pz - 2 <= L ->
  absent_or_value tables (synthesize pref px py pz)
  = Some (pref * x ^ (px - 2) * y ^ (py - 2) * z ^ (pz - 2)).
Proof.
  intros Hp Hx Hy Hz. unfold synthesize.
  replace (pref <=? 0) with false by (symmetry; apply Z.leb_gt; lia).
  replace (px - 2 <? 0) with false by (symmetry; apply Z.ltb_ge; lia).
  replace (py - 2 <? 0) with false by (symmetry; apply Z.ltb_ge; lia).
  replace (pz - 2 <? 0) with false by (symmetry; apply Z.ltb_ge; lia).
  cbn [orb absent_or_value]. unfold term_value. cbn [term_factors term_pref].
  rewrite (factors_value_app _ _ _ _ (axis_factor_value AxX _ Hx)
             (factors_value_app _ _ _ _ (axis_factor_value AxY _ Hy)
                (axis_factor_value AxZ _ Hz))).
  f_equal. lia.
Qed.

Lemma synthesize_absent_value pref px py pz :
  pref <= 0 -> absent_or_value tables (synthesize pref px py pz) = Some 0.
Proof.
  intros Hp. unfold synthesize.
  replace (pref <=? 0) with true by (symmetry; apply Z.leb_le; lia).
  reflexivity.
Qed.
End TermValues.

Ltac term_case :=
  match goal with
  | |- absent_or_value _ (synthesize ?p _ _ _) = _ =>
      destruct (Z_lt_le_dec 0 p) as [Hpos|Hneg];
      [ rewrite synthesize_value by nia
      | rewrite synthesize_absent_value by nia ]
  end.

Lemma am_term_values (L x y z idx l m n : Z) :
  0 <= l <= L -> 0 <= m <= L -> 0 <= n <= L ->
  List.map (fun a => absent_or_value (np_kernel.power_tables L x y z)
                       (synthesize_args (snd a)))
           (am_term_args (idx, l, m, n))
  = List.map Some (monomial_derivatives x y z l m n).
Proof.
  intros Hl Hm Hn.
  unfold am_term_args, monomial_derivatives, synthesize_args, pow_d1, pow_d2.
  cbn [List.map snd].
  repeat f_equal.
  all: term_case.
  all: f_equal.
  all: repeat match goal with
         | |- context [?k + 2 - 2] => replace (k + 2 - 2) with k by lia
         | |- context [?k + 2 - 1 - 2] => replace (k + 2 - 1 - 2) with (k - 1) by lia
         | H : context [?k + 2 - 2] |- _ => replace (k + 2 - 2) with k in H by lia
         end.
  all: try ring.
  all: try lia.
  all: first
         [ assert (l = 0) as -> by lia; ring
         | assert (m = 0) as -> by lia; ring
         | assert (n = 0) as -> by lia; ring
         | assert (l = 0 \/ l = 1) as [-> | ->] by nia; ring
         | assert (m = 0 \/ m = 1) as [-> | ->] by nia; ring
         | assert (n = 0 \/ n = 1) as [-> | ->] by nia; ring
         | assert (l = 0 \/ m = 0) as [-> | ->] by nia; ring
         | assert (l = 0 \/ n = 0) as [-> | ->] by nia; ring
         | assert (m = 0 \/ n = 0) as [-> | ->] by nia; ring ].
Qed.

(** X4: what the terms of a component compute.  For exponents [l], [m],
    [n] between 0 and the degree [L], the ten terms the array assembler
    synthesizes are the texts of ten products of entries of the power tables
    (or absent); read on the tables the kernel builds at a point
    [(x, y, z)], with an absent term read as 0, they are the monomial
    [x^l y^m z^n], its three first derivatives and its six second
    derivatives. *)
Theorem angular_terms_are_derivatives (float_fmt : Z -> string)
    (L x y z idx l m n : Z) :
  0 <= l <= L -> 0 <= m <= L -> 0 <= n <= L ->
  exists terms : list (string * option term),
    np_generator._numpy_am_build_terms float_fmt (idx, l, m, n)
    = List.map (fun nt => (fst nt, render_term float_fmt (fst nt) <$> snd nt)) terms
    /\ List.map (fun nt => absent_or_value (np_kernel.power_tables L x y z) (snd nt))
                terms
       = List.map Some (monomial_derivatives x y z l m n).
Proof.
  intros Hl Hm Hn.
  exists (List.map (fun a => (fst a, synthesize_args (snd a)))
            (am_term_args (idx, l, m, n))).
  split.
  - rewrite am_term_args_terms, List.map_map.
    apply List.map_ext. intros [name [[[pref px] py] pz]].
    cbn [fst snd synthesize_args]. now rewrite build_xyz_pow_render.
  - rewrite List.map_map. cbn [snd]. now apply am_term_values.
Qed.

Lemma angular_terms_are_derivatives_witness :
  (0 <= 1 <= 2 /\ 0 <= 1 <= 2 /\ 0 <= 0 <= 2)
  /\ exists terms : list (string * option term),
       np_generator._numpy_am_build_terms sample_float_fmt (0, 1, 1, 0)
       = List.map (fun nt => (fst nt, render_term sample_float_fmt (fst nt) <$> snd nt))
                  terms
       /\ List.map (fun nt => absent_or_value (np_kernel.power_tables 2 3 5 7) (snd nt))
                   terms
          = List.map Some (monomial_derivatives 3 5 7 1 1 0).
Proof.
  split; [lia|].
  apply (angular_terms_are_derivatives sample_float_fmt 2 3 5 7 0 1 1 0); lia.
Defined.

(** ** The points the tile loop covers *)
Lemma map_seq_shift (a : Z) (s n : nat) :
  List.map (fun k => a + Z.of_nat k) (List.seq s n)
  = List.map (fun k => a + Z.of_nat s + Z.of_nat k) (List.seq 0 n).
Proof.
  revert a s. induction n as [|n IH]; intros a s; [reflexivity|].
  cbn [List.seq List.map]. f_equal; [lia|].
  rewrite (IH a (S s)), (IH (a + Z.of_nat s) 1%nat).
  apply List.map_ext. intros k. lia.
Qed.

Lemma py_range_app a b c :
  a <= b -> b <= c -> py_range a b ++ py_range b c = py_range a c.
Proof.
  intros Hab Hbc. unfold py_range.
  replace (Z.to_nat (c - a)) with (Z.to_nat (b - a) + Z.to_nat (c - b))%nat by lia.
  rewrite List.seq_app, List.map_app. f_equal.
  rewrite (map_seq_shift a). apply List.map_ext. intros k. lia.
Qed.

Lemma py_range_shift k n :
  List.map (fun i => k + i) (py_range 0 n) = py_range k (k + n).
Proof.
  unfold py_range. rewrite List.map_map.
  replace (k + n - k) with (n - 0) by lia.
  apply List.map_ext. intros i. lia.
Qed.

Lemma py_range_snoc n : 0 <= n -> py_range 0 (n + 1) = py_range 0 n ++ [n].
Proof.
  intros Hn. rewrite <- (py_range_app 0 n (n + 1)) by lia. f_equal.
  unfold py_range. replace (Z.to_nat (n + 1 - n)) with 1%nat by lia.
  simpl. f_equal. lia.
Qed.

Lemma py_range_In a b k : In k (py_range a b) <-> a <= k < b.
Proof.
  unfold py_range. rewrite in_map_iff. split.
  - intros (i & <- & Hi). apply in_seq in Hi. lia.
  - intros Hk. exists (Z.to_nat (k - a)). split; [lia|]. apply in_seq. lia.
Qed.

Lemma flat_map_ext_In {A B} (f g : A -> list B) (xs : list A) :
  (forall x, In x xs -> f x = g x) -> flat_map f xs = flat_map g xs.
Proof.
  induction xs as [|x xs IH]; intros H; [reflexivity|].
  simpl. rewrite (H x) by now left. rewrite IH; [reflexivity|].
  intros y Hy. apply H. now right.
Qed.

Lemma full_tiles (ib : Z) (k : nat) :
  0 < ib ->
  flat_map (fun b => py_range (b * ib) (b * ib + ib)) (py_range 0 (Z.of_nat k))
  = py_range 0 (Z.of_nat k * ib).
Proof.
  intros Hib. induction k as [|k IH]; [reflexivity|].
  replace (Z.of_nat (S k)) with (Z.of_nat k + 1) by lia.
  rewrite py_range_snoc by lia.
  rewrite flat_map_app, IH. cbn [flat_map]. rewrite app_nil_r.
  rewrite py_range_app by nia. f_equal. lia.
Qed.

Lemma tile_points_range npoints ib block :
  0 < ib -> 0 <= block -> block * ib <= npoints -> npoints + ib < 2 ^ 64 ->
  tile.tile_points npoints ib block
  = py_range (block * ib) (Z.min (block * ib + ib) npoints).
Proof.
  intros Hib Hb Hs Hn. unfold tile.tile_points.
  rewrite tile_remain_min by lia. rewrite tile_start_exact by lia.
  rewrite py_range_shift. f_equal. lia.
Qed.

(** X5: the points the emitted tile loop of the blocked kernel reaches,
    for a tile size [ib > 0] and [npoints >= 0] points (sizes that fit
    [size_t]).  With [q = npoints / ib] full tiles: when [q] is a multiple
    of [ib] (so also when [npoints < ib]) the loop goes through every point
    once, in order; otherwise it goes through the [q * ib] points of the
    full tiles and leaves out the remaining [npoints mod ib]. *)
Theorem covered_points_characterised (npoints ib : Z) :
  0 < ib -> 0 <= npoints -> npoints + ib < 2 ^ 64 ->
  tile.covered_points npoints ib
  = py_range 0 (if (npoints / ib) mod ib =? 0 then npoints else npoints / ib * ib).
Proof.
  intros Hib Hn Hmax.
  pose proof (Z.div_mod npoints ib ltac:(lia)) as Hdm.
  pose proof (Z.mod_pos_bound npoints ib Hib) as Hr.
  pose proof (Z.div_pos npoints ib Hn Hib) as Hq.
  set (q := npoints / ib) in *.
  assert (q * ib <= npoints) as Hqn by lia.
  unfold tile.covered_points.
  assert (tile.nblocks npoints ib = q + (if q mod ib =? 0 then 1 else 0)) as ->.
  { unfold tile.nblocks, tile.size_t. fold q.
    rewrite (Z.mod_small q) by nia.
    destruct (q mod ib =? 0); apply Z.mod_small; nia. }
  assert (flat_map (tile.tile_points npoints ib) (py_range 0 q) = py_range 0 (q * ib)) as Hfull.
  { rewrite <- (Z2Nat.id q Hq) at 2. rewrite <- full_tiles by lia.
    rewrite Z2Nat.id by lia.
    apply flat_map_ext_In. intros b Hb. apply py_range_In in Hb.
    rewrite tile_points_range by nia. f_equal. nia. }
  destruct (q mod ib =? 0).
  - rewrite py_range_snoc by lia. rewrite flat_map_app, Hfull.
    cbn [flat_map]. rewrite app_nil_r, tile_points_range by lia.
    rewrite py_range_app by lia. f_equal. lia.
  - rewrite Z.add_0_r. exact Hfull.
Qed.

Lemma covered_points_characterised_witness :
  (0 < 2 /\ 0 <= 7 /\ 7 + 2 < 2 ^ 64)
  /\ tile.covered_points 7 2 = py_range 0 6.
Proof.
  split; [lia|].
  apply (covered_points_characterised 7 2); lia.
Defined.

(** ** Blocks and indentation of the emitted calls *)
Lemma block_depth_app d a b d' :
  block_depth d a = Some d' -> block_depth d (a ++ b) = block_depth d' b.
Proof.
  revert d. induction a as [|op a IH]; intros d H.
  - injection H as <-. reflexivity.
  - destruct op; cbn [block_depth app] in *; try (now apply IH).
    destruct d; [discriminate|now apply IH].
Qed.

Lemma indent_level_app k a b k' :
  indent_level k a = Some k' -> indent_level k (a ++ b) = indent_level k' b.
Proof.
  revert k. induction a as [|op a IH]; intros k H.
  - injection H as <-. reflexivity.
  - destruct op; cbn [indent_level app] in *; try (now apply IH).
    destruct (drop_levels levels k); [now apply IH|discriminate].
Qed.

Lemma block_depth_flat_map {X} (f : X -> list cg_op) xs d :
  (forall x d, block_depth d (f x) = Some d) -> block_depth d (flat_map f xs) = Some d.
Proof.
  intros Hf. induction xs as [|x xs IH]; [reflexivity|].
  simpl. now rewrite (block_depth_app _ _ _ _ (Hf x d)).
Qed.

Lemma indent_level_flat_map {X} (f : X -> list cg_op) xs k :
  (forall x k, indent_level k (f x) = Some k) -> indent_level k (flat_map f xs) = Some k.
Proof.
  intros Hf. induction xs as [|x xs IH]; [reflexivity|].
  simpl. now rewrite (indent_level_app _ _ _ _ (Hf x k)).
Qed.

Section Shell.
Variable float_fmt : Z -> string.
Variable cartesian_order_factory : Z -> string -> list (Z * Z * Z * Z).

Lemma c_am_build_value_only_flat L cart_order shift d k :
  block_depth d (c_generator._c_am_build float_fmt cartesian_order_factory L cart_order 0 shift)
  = Some d
  /\ indent_level k (c_generator._c_am_build float_fmt cartesian_order_factory L cart_order 0 shift)
     = Some k.
Proof.
  unfold c_generator._c_am_build. split.
  - apply block_depth_flat_map. intros [[[idx l] m] n] d'. reflexivity.
  - apply indent_level_flat_map. intros [[[idx l] m] n] k'. reflexivity.
Qed.

Lemma shell_ops_balanced L func_sig cart_order inner_block d k :
  block_depth d
    (c_generator.shell_c_generator_ops float_fmt cartesian_order_factory
       L func_sig 0 cart_order inner_block) = Some d
  /\ indent_level k
       (c_generator.shell_c_generator_ops float_fmt cartesian_order_factory
          L func_sig 0 cart_order inner_block) = Some k.
Proof.
  unfold c_generator.shell_c_generator_ops. split.
  - repeat (erewrite block_depth_app;
            [|first [ apply (proj1 (c_am_build_value_only_flat _ _ _ _ 0%nat))
                    | apply block_depth_flat_map; intros; reflexivity
                    | reflexivity ]]).
    reflexivity.
  - repeat (erewrite indent_level_app;
            [|first [ apply (proj2 (c_am_build_value_only_flat _ _ _ 0%nat _))
                    | apply indent_level_flat_map; intros; reflexivity
                    | reflexivity ]]).
    reflexivity.
Qed.
End Shell.

Section Files.
Variable float_fmt : Z -> string.
Variable cartesian_order_factory : Z -> string -> list (Z * Z * Z * Z).
Variable path_join : string -> string -> string.
Variables cart_order : string.
Variable inner_block : Z.

Local Abbreviation shell_ops L :=
  (c_generator.shell_c_generator_ops float_fmt cartesian_order_factory
     L (c_signature L) 0 cart_order inner_block).

Lemma builders_fold (Ls : list Z) (h d : list cg_op) :
  fold_left
    (fun acc L =>
       match acc with
       | inl e => inl e
       | inr (gg_header, gg_density) =>
           match c_generator.shell_c_generator float_fmt cartesian_order_factory
                   gg_density L "" 0 cart_order inner_block with
           | (_, inl e) => inl e
           | (gg_density, inr sig) =>
               inr (gg_header ++ [ W sig; cg_blankline ], gg_density)
           end
       end)
    Ls (inr (h, d) : py_exn + (list cg_op * list cg_op))
  = inr (h ++ flat_map (fun L => [ W (c_signature L); cg_blankline ]) Ls,
         d ++ flat_map (fun L => shell_ops L) Ls).
Proof.
  revert h d. induction Ls as [|L Ls IH]; intros h d.
  - simpl. now rewrite !app_nil_r.
  - cbn [fold_left flat_map].
    change (c_generator.shell_c_generator float_fmt cartesian_order_factory d L "" 0
              cart_order inner_block)
      with (d ++ shell_ops L, inr (c_signature L) : py_exn + string).
    cbv iota beta. rewrite IH, <- !app_assoc. reflexivity.
Qed.

Lemma declared_signatures Ls :
  declared (flat_map (fun L => [ W (c_signature L); cg_blankline ]) Ls)
  = List.map c_signature Ls.
Proof.
  induction Ls as [|L Ls IH]; [reflexivity|].
  cbn [flat_map app List.map]. unfold declared in *. cbn [omap]. 
  change (starts_with "void " (c_signature L)) with true. cbv iota.
  cbn. f_equal. exact IH.
Qed.

Lemma defined_signatures Ls :
  List.filter (starts_with "void ")
    (c_block_headers (flat_map (fun L => shell_ops L) Ls))
  = List.map c_signature Ls.
Proof.
  induction Ls as [|L Ls IH]; [reflexivity|].
  cbn [flat_map]. rewrite c_block_headers_app, List.filter_app, IH.
  rewrite shell_c_generator_headers. reflexivity.
Qed.

(** X7: what [generate_c_gau2grid] writes out.  It never raises; after the
    [print] it writes two files, the header and then the source, both with
    the formatting pass.  The header declares one function per degree of
    [range(max_L + 1)], in order, under the default names, and these are
    exactly the functions the source defines, in the same order, with the
    same signatures; every block opened in the source is closed. *)
Theorem generate_c_gau2grid_files (max_L : Z) (path : string) :
  exists gg_header gg_density,
    c_generator.generate_c_gau2grid float_fmt cartesian_order_factory path_join
      max_L path cart_order inner_block
    = ([ IoPrint path;
         IoRepr (path_join path "gau2grid.h") true gg_header;
         IoRepr (path_join path "gau2grid_phi.c") true gg_density ],
       None)
    /\ declared gg_header = List.map c_signature (py_range 0 (max_L + 1))
    /\ List.filter (starts_with "void ") (c_block_headers gg_density)
       = List.map c_signature (py_range 0 (max_L + 1))
    /\ block_depth 0 gg_density = Some 0%nat.
Proof.
  unfold c_generator.generate_c_gau2grid. rewrite builders_fold.
  eexists _, _. split; [reflexivity|]. split; [|split].
  - unfold declared. rewrite omap_app. apply declared_signatures.
  - rewrite c_block_headers_app, List.filter_app. apply defined_signatures.
  - erewrite block_depth_app; [|reflexivity].
    apply block_depth_flat_map. intros L d.
    apply (shell_ops_balanced float_fmt cartesian_order_factory L _ _ _ d 0%nat).
Qed.
End Files.

(** X6: [shell_c_generator] at order 0 on an emitter that already holds
    calls.  It returns a signature and only appends: the calls already made
    are kept, the first call added opens the block of the function under the
    signature returned, which starts with [void], and the emitter is left
    with as many blocks open and at the same indentation as before. *)
Theorem shell_c_generator_value_path (float_fmt : Z -> string)
    (cartesian_order_factory : Z -> string -> list (Z * Z * Z * Z))
    (cg : list cg_op) (L : Z) (function_name cart_order : string) (inner_block : Z)
    (d k : nat) :
  block_depth 0 cg = Some d ->
  indent_level 0 cg = Some k ->
  exists func_sig ops,
    c_generator.shell_c_generator float_fmt cartesian_order_factory
      cg L function_name 0 cart_order inner_block
    = (cg ++ ops, inr func_sig)
    /\ List.hd_error ops = Some (cg_start_c_block func_sig)
    /\ starts_with "void " func_sig = true
    /\ block_depth 0 (cg ++ ops) = Some d
    /\ indent_level 0 (cg ++ ops) = Some k.
Proof.
  intros Hd Hk. unfold c_generator.shell_c_generator.
  change (0 =? 0) with true. cbv iota.
  eexists _, _. split; [reflexivity|].
  split; [reflexivity|]. split; [reflexivity|].
  rewrite (block_depth_app _ _ _ _ Hd), (indent_level_app _ _ _ _ Hk).
  apply shell_ops_balanced.
Qed.

Lemma shell_c_generator_value_path_witness :
  (block_depth 0 [cg_start_c_block "extern"; cg_indent] = Some 1%nat
   /\ indent_level 0 [cg_start_c_block "extern"; cg_indent] = Some 1%nat)
  /\ exists func_sig ops,
       c_generator.shell_c_generator sample_float_fmt sample_order
         [cg_start_c_block "extern"; cg_indent] 1 "" 0 "row" 64
       = ([cg_start_c_block "extern"; cg_indent] ++ ops, inr func_sig)
       /\ List.hd_error ops = Some (cg_start_c_block func_sig)
       /\ starts_with "void " func_sig = true
       /\ block_depth 0 ([cg_start_c_block "extern"; cg_indent] ++ ops) = Some 1%nat
       /\ indent_level 0 ([cg_start_c_block "extern"; cg_indent] ++ ops) = Some 1%nat.
Proof.
  split; [split; reflexivity|].
  apply (shell_c_generator_value_path sample_float_fmt sample_order
           [cg_start_c_block "extern"; cg_indent] 1 "" "row" 64 1%nat 1%nat);
    reflexivity.
Defined.

Section Indent.
Variable float_fmt : Z -> string.
Variable cartesian_order_factory : Z -> string -> list (Z * Z * Z * Z).
Variable transformation_generator : Z -> string -> string -> list cg_op.

Lemma numpy_body_level L c k :
  indent_level k (np_generator._numpy_am_build_body float_fmt L c) = Some k.
Proof.
  destruct c as [[[idx l] m] n].
  unfold np_generator._numpy_am_build_body. cbv beta iota zeta.
  repeat (erewrite indent_level_app; [|seg_cases; reflexivity]).
  reflexivity.
Qed.

(** X8: indentation in the array generator.  When the spherical
    transformers leave the indentation as they find it, every [dedent] of
    [numpy_generator] undoes an earlier [indent]: the assembler
    [_numpy_am_build] leaves the level it was called at, and the whole
    source ends one level in, inside the [def] it opened. *)
Theorem numpy_generator_indentation (L : Z) (function_name cart_order : string) :
  (forall l k, indent_level k (transformation_generator l cart_order "spherical_trans") = Some k) ->
  (forall k, indent_level k
     (np_generator._numpy_am_build float_fmt cartesian_order_factory L cart_order) = Some k)
  /\ indent_level 0
       (np_generator.numpy_generator_ops float_fmt cartesian_order_factory
          transformation_generator L function_name cart_order) = Some 1%nat.
Proof.
  intros Htg.
  assert (forall L k, indent_level k
            (np_generator._numpy_am_build float_fmt cartesian_order_factory L cart_order)
          = Some k) as Ham.
  { intros L' k. unfold np_generator._numpy_am_build.
    apply indent_level_flat_map. intros c k'. apply numpy_body_level. }
  split; [apply Ham|].
  unfold np_generator.numpy_generator_ops.
  erewrite indent_level_app; [|reflexivity].
  erewrite indent_level_app;
    [|apply indent_level_flat_map; intros l k;
      cbn [app indent_level];
      erewrite indent_level_app; [|apply Ham]; reflexivity].
  erewrite indent_level_app; [|reflexivity].
  erewrite indent_level_app;
    [|apply indent_level_flat_map; intros l k;
      erewrite indent_level_app; [|apply Htg]; reflexivity].
  erewrite indent_level_app;
    [|apply indent_level_flat_map; intros l k; reflexivity].
  reflexivity.
Qed.
End Indent.

Lemma numpy_generator_indentation_witness :
  (forall l k, indent_level k (sample_transformation l "row" "spherical_trans") = Some k)
  /\ (forall k, indent_level k
        (np_generator._numpy_am_build sample_float_fmt sample_order 2 "row") = Some k)
  /\ indent_level 0
       (np_generator.numpy_generator_ops sample_float_fmt sample_order
          sample_transformation 2 "compute_shell_2_row" "row") = Some 1%nat.
Proof.
  split; [intros l k; reflexivity|].
  apply (numpy_generator_indentation sample_float_fmt sample_order
           sample_transformation 2 "compute_shell_2_row" "row").
  intros l k. reflexivity.
Defined.

Section CIndent.
Variable float_fmt : Z -> string.
Variable cartesian_order_factory : Z -> string -> list (Z * Z * Z * Z).


End CIndent.

(** ** The array kernel and [raise] *)
Section Raise.
Import py_kernel.
Variable g : Z -> bool.
Variable tab : nat.
Hypothesis tab_pos : (0 < tab)%nat.

Lemma step_raised st op :
  raised st = true ->
  raised (step g tab st op) = true
  /\ allocs (step g tab st op) = allocs st
  /\ elements (step g tab st op) = elements st.
Proof.
  intros Hr. destruct op as [[s|]| | | | |]; try (repeat split; assumption).
  unfold step, exec_line. destruct (leading_spaces s) as [sp t].
  rewrite Hr. cbn [negb andb orb].
  destruct (classify t); repeat split; assumption.
Qed.

Lemma fold_raised ops st :
  raised st = true ->
  raised (fold_left (step g tab) ops st) = true
  /\ allocs (fold_left (step g tab) ops st) = allocs st
  /\ elements (fold_left (step g tab) ops st) = elements st.
Proof.
  revert st. induction ops as [|op ops IH]; intros st Hr; [auto|].
  simpl. destruct (step_raised st op Hr) as (H1 & H2 & H3).
  destruct (IH _ H1) as (H4 & H5 & H6). rewrite H5, H6. auto.
Qed.

Lemma step_calm st op :
  calm op = true -> raised (step g tab st op) = raised st.
Proof.
  intros Hop. destruct op as [[s|]| | | | |]; try reflexivity.
  unfold step, exec_line. unfold calm in Hop.
  destruct (leading_spaces s) as [sp t]. cbn [snd] in Hop.
  destruct (classify t); try discriminate; reflexivity.
Qed.

Lemma fold_calm ops st :
  forallb calm ops = true -> raised (fold_left (step g tab) ops st) = raised st.
Proof.
  revert st. induction ops as [|op ops IH]; intros st H; [reflexivity|].
  simpl in H. apply andb_prop in H as [H1 H2].
  simpl. rewrite (IH _ H2). now apply step_calm.
Qed.

Variable float_fmt : Z -> string.
Variable cartesian_order_factory : Z -> string -> list (Z * Z * Z * Z).
Variable transformation_generator : Z -> string -> string -> list cg_op.
Variable L : Z.
Variables function_name cart_order : string.

Lemma calm_term name pref l m n shift :
  starts_with "A" name = true ->
  calm (cg_write (np_generator._build_xyz_pow float_fmt name pref l m n shift)) = true.
Proof.
  intros Hname. unfold calm.
  destruct (np_generator._build_xyz_pow _ _ _ _ _ _ _) as [t|] eqn:Ht; [|reflexivity].
  destruct (classify_term _ _ _ _ _ _ _ _ Hname Ht) as [Hls Hc].
  rewrite Hls. cbn [snd]. now rewrite Hc.
Qed.

Lemma forallb_flat_map {X} (p : cg_op -> bool) (f : X -> list cg_op) xs :
  (forall x, forallb p (f x) = true) -> forallb p (flat_map f xs) = true.
Proof.
  intros Hf. induction xs as [|x xs IH]; [reflexivity|].
  simpl. now rewrite forallb_app, Hf, IH.
Qed.

Lemma numpy_body_calm L' c :
  forallb calm (np_generator._numpy_am_build_body float_fmt L' c) = true.
Proof.
  destruct c as [[[idx l] m] n].
  unfold np_generator._numpy_am_build_body. cbv beta iota zeta.
  rewrite !forallb_app.
  repeat match goal with
  | |- context [forallb calm ?seg] =>
      replace (forallb calm seg) with true
        by (symmetry; seg_cases; cbn [forallb];
            rewrite ?calm_term by reflexivity; reflexivity)
  end.
  reflexivity.
Qed.

(** The lines of the kernel before the component blocks, run from the
    start: what they leave, and that nothing after them is a [raise]. *)
Lemma prologue_state :
  exists rest tail,
    np_generator.numpy_generator_ops float_fmt cartesian_order_factory
      transformation_generator L function_name cart_order
    = (W ("def " +:+ function_name
            +:+ "(xyz, L, coeffs, exponents, center, grad=2, spherical=True):")
         :: cg_indent :: rest) ++ tail
    /\ fold_left (step g tab) (W ("def " +:+ function_name
            +:+ "(xyz, L, coeffs, exponents, center, grad=2, spherical=True):")
         :: cg_indent :: rest) init
       = lift (1 * tab) 1 (fold_left (step g tab) rest init)
    /\ raised (fold_left (step g tab) rest init) = g 2
    /\ elements (fold_left (step g tab) rest init) = []
    /\ allocs (fold_left (step g tab) rest init) = List.map alloc_of (labels_of g)
    /\ ((forall l, forallb calm (transformation_generator l cart_order "spherical_trans") = true) ->
        forallb calm tail = true).
Proof.
  unfold np_generator.numpy_generator_ops.
  eexists _, _. split; [reflexivity|].
  split; [|split; [|split; [|split]]].
  - match goal with
    | |- fold_left ?f (?d :: cg_indent :: ?rest) init = _ =>
        change (fold_left f (d :: cg_indent :: rest) init)
          with (fold_left f rest (lift (1 * tab) 1 init))
    end.
    apply (fold_lift g tab tab_pos 1); vm_compute; reflexivity.
  - vm_compute. destruct (g 2); reflexivity.
  - vm_compute. reflexivity.
  - vm_compute. destruct (g 0), (g 1), (g 2); reflexivity.
  - intros Htg. rewrite !forallb_app.
    rewrite forallb_flat_map.
    2:{ intros l. cbn [app forallb]. rewrite forallb_app.
        unfold np_generator._numpy_am_build.
        rewrite forallb_flat_map by apply numpy_body_calm. reflexivity. }
    rewrite forallb_flat_map.
    2:{ intros l. rewrite forallb_app, Htg. reflexivity. }
    rewrite forallb_flat_map by (intros l; reflexivity).
    reflexivity.
Qed.

Lemma kernel_raises_when_tested :
  g 0 = true -> g 1 = true -> g 2 = true ->
  let st :=
    fold_left (step g tab)
      (np_generator.numpy_generator_ops float_fmt cartesian_order_factory
         transformation_generator L function_name cart_order) init in
  raised st = true
  /\ allocs st
     = List.map alloc_of (["PHI"%string] ++ gradient_labels ++ hessian_labels)
  /\ elements st = [].
Proof.
  intros H0 H1 H2. cbv zeta.
  destruct prologue_state as (rest & tail & -> & Hlift & Hr & He & Ha & _).
  rewrite fold_left_app, Hlift.
  set (st0 := lift (1 * tab) 1 (fold_left (step g tab) rest init)).
  assert (raised st0 = true) as Hr0 by (unfold st0, lift; cbn [raised]; congruence).
  destruct (fold_raised tail st0 Hr0) as (Hr' & Ha' & He').
  rewrite Hr', Ha', He'. unfold st0, lift. cbn [allocs elements].
  rewrite He, Ha. unfold labels_of. rewrite H0, H1. auto.
Qed.

Lemma kernel_calm_when_not_tested :
  g 2 = false ->
  (forall l, forallb calm (transformation_generator l cart_order "spherical_trans") = true) ->
  raised
    (fold_left (step g tab)
       (np_generator.numpy_generator_ops float_fmt cartesian_order_factory
          transformation_generator L function_name cart_order) init)
  = false.
Proof.
  intros H2 Htg.
  destruct prologue_state as (rest & tail & -> & Hlift & Hr & _ & _ & Hcalm).
  rewrite fold_left_app, Hlift, (fold_calm _ _ (Hcalm Htg)).
  unfold lift. cbn [raised]. congruence.
Qed.
End Raise.

(** X10: the array kernel called with a derivative order above 2.  It
    raises, whatever the spherical transformers are; by then it has allocated
    all ten arrays of [output], and no statement on [output['...'][...]] has
    run. *)
Theorem kernel_raises_above_hessian float_fmt cartesian_order_factory
    transformation_generator (tab : nat) (L : Z) (function_name cart_order : string)
    (grad : Z) :
  (0 < tab)%nat ->
  2 < grad ->
  let st :=
    py_kernel.run tab grad
      (np_generator.numpy_generator_ops float_fmt cartesian_order_factory
         transformation_generator L function_name cart_order) in
  py_kernel.raised st = true
  /\ py_kernel.allocs st
     = List.map py_kernel.alloc_of
         (["PHI"%string] ++ py_kernel.gradient_labels ++ py_kernel.hessian_labels)
  /\ py_kernel.elements st = [].
Proof.
  intros Htab Hgrad. unfold py_kernel.run.
  apply (kernel_raises_when_tested (fun n => n <? grad) tab Htab float_fmt
           cartesian_order_factory transformation_generator L function_name
           cart_order);
    apply Z.ltb_lt; lia.
Qed.

Lemma kernel_raises_above_hessian_witness :
  ((0 < 4)%nat /\ 2 < 3)
  /\ let st :=
       py_kernel.run 4 3
         (np_generator.numpy_generator_ops sample_float_fmt sample_order
            sample_transformation 1 "compute_shell_1_row" "row") in
     py_kernel.raised st = true
     /\ py_kernel.allocs st
        = List.map py_kernel.alloc_of
            (["PHI"%string] ++ py_kernel.gradient_labels ++ py_kernel.hessian_labels)
     /\ py_kernel.elements st = [].
Proof.
  split; [lia|].
  apply (kernel_raises_above_hessian sample_float_fmt sample_order
           sample_transformation 4 1 "compute_shell_1_row" "row" 3); lia.
Defined.

(** X11: the array kernel called with a derivative order of at most 2 does
    not raise, when the spherical transformers write no [raise]: the only
    [raise] of the kernel is the one under [if grad > 2:]. *)
Theorem kernel_completes_through_hessian float_fmt cartesian_order_factory
    transformation_generator (tab : nat) (L : Z) (function_name cart_order : string)
    (grad : Z) :
  (0 < tab)%nat ->
  grad <= 2 ->
  (forall l, forallb calm (transformation_generator l cart_order "spherical_trans") = true) ->
  py_kernel.raised
    (py_kernel.run tab grad
       (np_generator.numpy_generator_ops float_fmt cartesian_order_factory
          transformation_generator L function_name cart_order))
  = false.
Proof.
  intros Htab Hgrad Hcalm. unfold py_kernel.run.
  apply (kernel_calm_when_not_tested (fun n => n <? grad) tab Htab float_fmt
           cartesian_order_factory transformation_generator L function_name
           cart_order); [|exact Hcalm].
  apply Z.ltb_ge. lia.
Qed.

Lemma kernel_completes_through_hessian_witness :
  ((0 < 4)%nat /\ 2 <= 2
   /\ forall l, forallb calm (sample_transformation l "row" "spherical_trans") = true)
  /\ py_kernel.raised
       (py_kernel.run 4 2
          (np_generator.numpy_generator_ops sample_float_fmt sample_order
             sample_transformation 1 "compute_shell_1_row" "row"))
     = false.
Proof.
  split; [split; [lia|split; [lia|intros l; reflexivity]]|].
  apply (kernel_completes_through_hessian sample_float_fmt sample_order
           sample_transformation 4 1 "compute_shell_1_row" "row" 2).
  - lia.
  - lia.
  - intros l. reflexivity.
Defined.

(** ** The power tables of the array kernel *)
Lemma row_fold_untouched (x : Z) (n k : nat) (row : list Z) :
  (n < k)%nat ->
  fold_left (row_step x) (List.map (fun k => 1 + Z.of_nat k) (List.seq 0 n)) row !! k
  = row !! k.
Proof.
  induction n as [|n IH]; intros Hk; [reflexivity|].
  rewrite List.seq_S, List.map_app, fold_left_app. simpl.
  unfold row_step at 1.
  rewrite list_lookup_insert_ne by lia. apply IH. lia.
Qed.

Lemma power_row_fold (L x : Z) :
  1 <= L ->
  fold_left (row_step x) (py_range 1 L) (<[0%nat := x]> (replicate (Z.to_nat (L + 1)) 0))
  = power_rows L x.
Proof.
  intros HL. unfold py_range.
  destruct (row_fold_powers x (Z.to_nat (L + 1)) (Z.to_nat (L - 1))
              (<[0%nat := x]> (replicate (Z.to_nat (L + 1)) 0))) as [Hlen Hpow].
  { now rewrite length_insert, length_replicate. }
  { apply list_lookup_insert_eq. rewrite length_replicate. lia. }
  { lia. }
  apply list_eq. intros i. unfold power_rows, py_range.
  replace (L - 0) with L by lia.
  destruct (decide (i < Z.to_nat L)%nat) as [Hi|Hi].
  - rewrite (Hpow i) by lia.
    rewrite lookup_app_l by (rewrite !List.length_map, List.length_seq; lia).
    rewrite !list_lookup_fmap, lookup_seq_lt by lia. reflexivity.
  - destruct (decide (i = Z.to_nat L)) as [->|Hne].
    + rewrite row_fold_untouched by lia.
      rewrite list_lookup_insert_ne by lia.
      rewrite lookup_replicate_2 by lia.
      rewrite lookup_app_r by (rewrite !List.length_map, List.length_seq; lia).
      rewrite !List.length_map, List.length_seq, Nat.sub_diag. reflexivity.
    + rewrite !lookup_ge_None_2; [reflexivity| |].
      * rewrite List.length_app, !List.length_map, List.length_seq. simpl. lia.
      * rewrite Hlen. lia.
Qed.

(** X12: the power tables of the array kernel at a degree [L >= 1], row by
    row.  Each table has [L + 1] rows; row [k] for [k < L] is the coordinate
    of its axis to the power [k + 1]; the last row is never written and
    stays the zero of [np.zeros]. *)
Theorem np_power_tables_rows (L xc yc zc : Z) :
  1 <= L ->
  np_kernel.power_tables L xc yc zc
  = MkPow (power_rows L xc) (power_rows L yc) (power_rows L zc).
Proof.
  intros HL. unfold np_kernel.power_tables.
  rewrite power_fold_rows. cbn [xc_pow yc_pow zc_pow].
  now rewrite !power_row_fold.
Qed.

Lemma np_power_tables_rows_witness :
  1 <= 3
  /\ np_kernel.power_tables 3 2 3 5
     = MkPow (power_rows 3 2) (power_rows 3 3) (power_rows 3 5).
Proof.
  split; [lia|].
  apply (np_power_tables_rows 3 2 3 5). lia.
Defined.


(** ** The dictionary of built kernels *)
Section Cache.
Variable float_fmt : Z -> string.
Variable cartesian_order_factory : Z -> string -> list (Z * Z * Z * Z).
Variable transformation_generator : Z -> string -> string -> list cg_op.
Variable cg_repr : list cg_op -> string.
Variable ndarray : Type.
Variable bundle : Type.
Variable call_function :
  string -> ndarray -> Z -> ndarray -> ndarray -> ndarray -> Z -> bool
  -> py_exn + bundle.

Local Abbreviation generate :=
  (np_generator.numpy_generator float_fmt cartesian_order_factory
     transformation_generator cg_repr).

Lemma kernels_own_exec L cart_order built :
  kernels_own generate built ->
  kernels_own generate
    (np_generator.py_exec (lookup_key L cart_order)
       (generate L (lookup_key L cart_order) cart_order) built).
Proof.
  intros Hown L' o' v. unfold np_generator.py_exec.
  destruct (decide (lookup_key L' o' = lookup_key L cart_order)) as [E|E].
  - rewrite E, lookup_insert_eq. intros [= <-].
    apply lookup_key_eq in E as [-> ->]. reflexivity.
  - rewrite lookup_insert_ne by congruence.
    destruct (built !! "__builtins__"%string); [apply Hown|].
    rewrite lookup_insert_ne by (intros H; symmetry in H; revert H; apply lookup_key_not_builtins).
    apply Hown.
Qed.

(** X13: [compute_collocation] serves each call the kernel of its own
    degree and ordering.  When every kernel in the dictionary is the one
    generated for the degree and ordering of its key, a call with an order
    of at most 2 returns what the function generated for its own [L] and
    [cart_order] returns on its arguments; the dictionary it leaves has the
    same property and still holds every entry it held. *)
Theorem compute_collocation_serves_own_kernel
    st xyz L coeffs exponents center grad spherical cart_order :
  kernels_own generate (np_generator.__built_npcoll_functions st) ->
  grad <= 2 ->
  let out :=
    np_generator.compute_collocation float_fmt cartesian_order_factory
      transformation_generator cg_repr ndarray bundle call_function
      st xyz L coeffs exponents center grad spherical cart_order in
  snd out
  = call_function (generate L (lookup_key L cart_order) cart_order)
      xyz L coeffs exponents center grad spherical
  /\ kernels_own generate (np_generator.__built_npcoll_functions (fst out))
  /\ np_generator.__built_npcoll_functions st
       ⊆ np_generator.__built_npcoll_functions (fst out).
Proof.
  intros Hown Hgrad.
  destruct (compute_collocation_step float_fmt cartesian_order_factory
              transformation_generator cg_repr ndarray bundle call_function
              st xyz L coeffs exponents center grad spherical cart_order Hgrad)
    as (Hb & _ & _ & Hret).
  cbv zeta in *. rewrite Hret, Hb.
  destruct (np_generator.__built_npcoll_functions st !! lookup_key L cart_order)
    as [v|] eqn:Hl.
  - rewrite (Hown _ _ _ Hl). cbn [default]. auto.
  - cbn [default]. split; [reflexivity|]. split.
    + now apply kernels_own_exec.
    + apply py_exec_subseteq; [apply lookup_key_not_builtins|exact Hl].
Qed.
End Cache.

Lemma compute_collocation_serves_own_kernel_witness :
  let generate :=
    np_generator.numpy_generator sample_float_fmt sample_order
      sample_transformation (fun _ => "src"%string) in
  let call := fun (source : string) (_ : unit) (L : Z) (_ _ _ : unit) (grad : Z)
                  (_ : bool) => inr (source, L, grad) : py_exn + (string * Z * Z) in
  let st := np_generator.MkState ∅ [] in
  (kernels_own generate (np_generator.__built_npcoll_functions st) /\ 1 <= 2)
  /\ let out :=
       np_generator.compute_collocation sample_float_fmt sample_order
         sample_transformation (fun _ => "src"%string) unit (string * Z * Z) call
         st tt 1 tt tt tt 1 true "row" in
     snd out = call (generate 1 (lookup_key 1 "row") "row") tt 1 tt tt tt 1 true
     /\ kernels_own generate (np_generator.__built_npcoll_functions (fst out))
     /\ np_generator.__built_npcoll_functions st
          ⊆ np_generator.__built_npcoll_functions (fst out).
Proof.
  cbv zeta.
  assert (kernels_own
            (np_generator.numpy_generator sample_float_fmt sample_order
               sample_transformation (fun _ => "src"%string))
            (np_generator.__built_npcoll_functions (np_generator.MkState ∅ [])))
    as Hown by (intros L o v H; discriminate H).
  split; [split; [exact Hown|lia]|].
  apply (compute_collocation_serves_own_kernel sample_float_fmt sample_order
           sample_transformation (fun _ => "src"%string) unit (string * Z * Z)
           (fun (source : string) (_ : unit) (L : Z) (_ _ _ : unit) (grad : Z)
                (_ : bool) => inr (source, L, grad))
           (np_generator.MkState ∅ []) tt 1 tt tt tt 1 true "row" Hown).
  lia.
Defined.


(** ** The statements of the first and the mixed second derivatives *)
(** Settle the pieces of a body one by one, each piece once: those with no
    statement on the label, those with only such statements, and the others
    left for the end. *)
Ltac settle_segments :=
  repeat match goal with
  | |- context [List.filter ?f ?seg] =>
      lazymatch seg with
      | _ ++ _ => fail
      | _ => idtac
      end;
      first [ replace (List.filter f seg) with (@nil cg_op) by seg_solve
            | replace (List.filter f seg) with seg by seg_solve
            | let x := fresh "mixed" in set (x := List.filter f seg) ]
  end;
  repeat match goal with x := List.filter _ _ |- _ => subst x end.

Ltac statements_of_body_at grad :=
  unfold np_generator._numpy_am_build_body, c_generator._c_am_build_body,
    statements_on, gradient_statements, mixed_axis_statements;
  try change (grad =? 0) with false;
  try (change (2 =? 1) with false);
  try (change (1 =? 1) with true);
  cbv beta iota zeta;
  rewrite !List.filter_app;
  settle_segments;
  seg_cases; cbn [List.filter];
  rewrite ?on_label_term by reflexivity; reflexivity.

Section Statements.
Variable float_fmt : Z -> string.
Variables L idx l m n shift : Z.

Local Abbreviation np_body :=
  (np_generator._numpy_am_build_body float_fmt L (idx, l, m, n)).
Local Abbreviation c_body :=
  (c_generator._c_am_build_body float_fmt L 2 shift (idx, l, m, n)).
Local Abbreviation npb := (np_generator._build_xyz_pow float_fmt).
Local Abbreviation cb := (c_generator._build_xyz_pow float_fmt).

Lemma numpy_statements_value :
  statements_on "PHI" np_body = [ W ("output['PHI'][" +:+ fmt_d idx +:+ "] = S0 * A") ].
Proof. statements_of_body_at 2. Qed.

Lemma numpy_statements_X :
  statements_on "PHI_X" np_body
  = gradient_statements "PHI_X" "SX" "AX" idx
      (is_not_none (npb "AX" (l + 2 - 2) (l + 2 - 1) (m + 2) (n + 2) 2)).
Proof. statements_of_body_at 2. Qed.

Lemma numpy_statements_Y :
  statements_on "PHI_Y" np_body
  = gradient_statements "PHI_Y" "SY" "AY" idx
      (is_not_none (npb "AY" (m + 2 - 2) (l + 2) (m + 2 - 1) (n + 2) 2)).
Proof. statements_of_body_at 2. Qed.

Lemma numpy_statements_Z :
  statements_on "PHI_Z" np_body
  = gradient_statements "PHI_Z" "SZ" "AZ" idx
      (is_not_none (npb "AZ" (n + 2 - 2) (l + 2) (m + 2) (n + 2 - 1) 2)).
Proof. statements_of_body_at 2. Qed.

Lemma numpy_statements_XY :
  statements_on "PHI_XY" np_body
  = mixed_axis_statements "PHI_XY" "SXY" "SX" "SY" "AX" "AY" idx
      (is_not_none (npb "AX" (l + 2 - 2) (l + 2 - 1) (m + 2) (n + 2) 2))
      (is_not_none (npb "AY" (m + 2 - 2) (l + 2) (m + 2 - 1) (n + 2) 2))
      (npb "AXY" ((l + 2 - 2) * (m + 2 - 2)) (l + 2 - 1) (m + 2 - 1) (n + 2) 2).
Proof. statements_of_body_at 2. Qed.

Lemma numpy_statements_XZ :
  statements_on "PHI_XZ" np_body
  = mixed_axis_statements "PHI_XZ" "SXZ" "SX" "SZ" "AX" "AZ" idx
      (is_not_none (npb "AX" (l + 2 - 2) (l + 2 - 1) (m + 2) (n + 2) 2))
      (is_not_none (npb "AZ" (n + 2 - 2) (l + 2) (m + 2) (n + 2 - 1) 2))
      (npb "AXZ" ((l + 2 - 2) * (n + 2 - 2)) (l + 2 - 1) (m + 2) (n + 2 - 1) 2).
Proof. statements_of_body_at 2. Qed.

Lemma numpy_statements_YZ :
  statements_on "PHI_YZ" np_body
  = mixed_axis_statements "PHI_YZ" "SYZ" "SY" "SZ" "AY" "AZ" idx
      (is_not_none (npb "AY" (m + 2 - 2) (l + 2) (m + 2 - 1) (n + 2) 2))
      (is_not_none (npb "AZ" (n + 2 - 2) (l + 2) (m + 2) (n + 2 - 1) 2))
      (npb "AYZ" ((m + 2 - 2) * (n + 2 - 2)) (l + 2) (m + 2 - 1) (n + 2 - 1) 2).
Proof. statements_of_body_at 2. Qed.

Lemma c_statements_X :
  statements_on "PHI_X" c_body
  = gradient_statements "PHI_X" "SX" "AX" idx
      (is_not_none (cb "AX" (l + 2 - 2) (l + 2 - 1) (m + 2) (n + 2) 2)).
Proof. statements_of_body_at 2. Qed.

Lemma c_statements_Y :
  statements_on "PHI_Y" c_body
  = gradient_statements "PHI_Y" "SY" "AY" idx
      (is_not_none (cb "AY" (m + 2 - 2) (l + 2) (m + 2 - 1) (n + 2) 2)).
Proof. statements_of_body_at 2. Qed.

Lemma c_statements_Z :
  statements_on "PHI_Z" c_body
  = gradient_statements "PHI_Z" "SZ" "AZ" idx
      (is_not_none (cb "AZ" (n + 2 - 2) (l + 2) (m + 2) (n + 2 - 1) 2)).
Proof. statements_of_body_at 2. Qed.

Lemma c_statements_XY :
  statements_on "PHI_XY" c_body
  = mixed_axis_statements "PHI_XY" "SXY" "SX" "SY" "AX" "AY" idx
      (is_not_none (cb "AX" (l + 2 - 2) (l + 2 - 1) (m + 2) (n + 2) 2))
      (is_not_none (cb "AY" (m + 2 - 2) (l + 2) (m + 2 - 1) (n + 2) 2))
      (cb "AXY" ((l + 2 - 2) * (m + 2 - 2)) (l + 2 - 1) (m + 2 - 1) (n + 2) 2).
Proof. statements_of_body_at 2. Qed.

Lemma c_statements_XZ :
  statements_on "PHI_XZ" c_body
  = mixed_axis_statements "PHI_XZ" "SXZ" "SX" "SZ" "AX" "AZ" idx
      (is_not_none (cb "AX" (l + 2 - 2) (l + 2 - 1) (m + 2) (n + 2) 2))
      (is_not_none (cb "AZ" (n + 2 - 2) (l + 2) (m + 2) (n + 2 - 1) 2))
      (cb "AXZ" ((l + 2 - 2) * (n + 2 - 2)) (l + 2 - 1) (m + 2) (n + 2 - 1) 2).
Proof. statements_of_body_at 2. Qed.

Lemma c_statements_YZ :
  statements_on "PHI_YZ" c_body
  = mixed_axis_statements "PHI_YZ" "SYZ" "SY" "SZ" "AY" "AZ" idx
      (is_not_none (cb "AY" (m + 2 - 2) (l + 2) (m + 2 - 1) (n + 2) 2))
      (is_not_none (cb "AZ" (n + 2 - 2) (l + 2) (m + 2) (n + 2 - 1) 2))
      (cb "AYZ" ((m + 2 - 2) * (n + 2 - 2)) (l + 2) (m + 2 - 1) (n + 2 - 1) 2).
Proof. statements_of_body_at 2. Qed.

End Statements.

(** For exponents as the enumeration gives them, the angular first
    derivative of an axis is present exactly when the axis has a positive
    exponent. *)
Lemma gradient_flags float_fmt (l m n : Z) :
  0 <= l -> 0 <= m -> 0 <= n ->
  is_not_none
    (np_generator._build_xyz_pow float_fmt "AX" (l + 2 - 2) (l + 2 - 1) (m + 2) (n + 2) 2)
  = (1 <=? l)
  /\ is_not_none
       (np_generator._build_xyz_pow float_fmt "AY" (m + 2 - 2) (l + 2) (m + 2 - 1) (n + 2) 2)
     = (1 <=? m)
  /\ is_not_none
       (np_generator._build_xyz_pow float_fmt "AZ" (n + 2 - 2) (l + 2) (m + 2) (n + 2 - 1) 2)
     = (1 <=? n).
Proof.
  intros Hl Hm Hn. rewrite !is_not_none_build.
  split; [|split]; bool_arith.
Qed.

(** X14: the statements of the array assembler on the value and on the
    gradient of a component with exponents [l], [m], [n] (none negative).
    The value is stored by the one statement [= S0 * A].  Each gradient
    output receives [= S_a * A], and then [+= S0 * A_a] exactly when the
    exponent of its axis is at least 1; nothing else is written to it. *)
Theorem numpy_gradient_statements (float_fmt : Z -> string) (L idx l m n : Z) :
  0 <= l -> 0 <= m -> 0 <= n ->
  let body := np_generator._numpy_am_build_body float_fmt L (idx, l, m, n) in
  statements_on "PHI" body = [ W ("output['PHI'][" +:+ fmt_d idx +:+ "] = S0 * A") ]
  /\ statements_on "PHI_X" body = gradient_statements "PHI_X" "SX" "AX" idx (1 <=? l)
  /\ statements_on "PHI_Y" body = gradient_statements "PHI_Y" "SY" "AY" idx (1 <=? m)
  /\ statements_on "PHI_Z" body = gradient_statements "PHI_Z" "SZ" "AZ" idx (1 <=? n).
Proof.
  intros Hl Hm Hn. cbv zeta.
  destruct (gradient_flags float_fmt l m n Hl Hm Hn) as (Hx & Hy & Hz).
  rewrite numpy_statements_value, numpy_statements_X, numpy_statements_Y,
    numpy_statements_Z, Hx, Hy, Hz.
  auto.
Qed.

Lemma numpy_gradient_statements_witness :
  (0 <= 1 /\ 0 <= 0 /\ 0 <= 1)
  /\ let body := np_generator._numpy_am_build_body sample_float_fmt 2 (2, 1, 0, 1) in
     statements_on "PHI" body = [ W ("output['PHI'][" +:+ fmt_d 2 +:+ "] = S0 * A") ]
     /\ statements_on "PHI_X" body = gradient_statements "PHI_X" "SX" "AX" 2 (1 <=? 1)
     /\ statements_on "PHI_Y" body = gradient_statements "PHI_Y" "SY" "AY" 2 (1 <=? 0)
     /\ statements_on "PHI_Z" body = gradient_statements "PHI_Z" "SZ" "AZ" 2 (1 <=? 1).
Proof.
  split; [lia|].
  apply (numpy_gradient_statements sample_float_fmt 2 2 1 0 1); lia.
Defined.

(** X15: the statements of the array assembler on a mixed second
    derivative, for exponents [l], [m], [n] (none negative).  The output of
    the axes [a], [b] receives [= S_ab * A]; then [+= S_a * A_b] exactly when
    the exponent of [b] is at least 1; then [+= S_b * A_a] exactly when the
    exponent of [a] is at least 1; then the right-hand side of the mixed
    angular term times [S0] when that term is present.  Each cross term is
    written once. *)
Theorem numpy_mixed_hessian_statements (float_fmt : Z -> string) (L idx l m n : Z) :
  0 <= l -> 0 <= m -> 0 <= n ->
  let body := np_generator._numpy_am_build_body float_fmt L (idx, l, m, n) in
  statements_on "PHI_XY" body
  = mixed_axis_statements "PHI_XY" "SXY" "SX" "SY" "AX" "AY" idx (1 <=? l) (1 <=? m)
      (np_generator._build_xyz_pow float_fmt "AXY" (l * m) (l + 1) (m + 1) (n + 2) 2)
  /\ statements_on "PHI_XZ" body
     = mixed_axis_statements "PHI_XZ" "SXZ" "SX" "SZ" "AX" "AZ" idx (1 <=? l) (1 <=? n)
         (np_generator._build_xyz_pow float_fmt "AXZ" (l * n) (l + 1) (m + 2) (n + 1) 2)
  /\ statements_on "PHI_YZ" body
     = mixed_axis_statements "PHI_YZ" "SYZ" "SY" "SZ" "AY" "AZ" idx (1 <=? m) (1 <=? n)
         (np_generator._build_xyz_pow float_fmt "AYZ" (m * n) (l + 2) (m + 1) (n + 1) 2).
Proof.
  intros Hl Hm Hn. cbv zeta.
  destruct (gradient_flags float_fmt l m n Hl Hm Hn) as (Hx & Hy & Hz).
  rewrite numpy_statements_XY, numpy_statements_XZ, numpy_statements_YZ, Hx, Hy, Hz.
  replace (l + 2 - 2) with l by lia.
  replace (m + 2 - 2) with m by lia.
  replace (n + 2 - 2) with n by lia.
  replace (l + 2 - 1) with (l + 1) by lia.
  replace (m + 2 - 1) with (m + 1) by lia.
  replace (n + 2 - 1) with (n + 1) by lia.
  auto.
Qed.

Lemma numpy_mixed_hessian_statements_witness :
  (0 <= 1 /\ 0 <= 1 /\ 0 <= 0)
  /\ let body := np_generator._numpy_am_build_body sample_float_fmt 2 (1, 1, 1, 0) in
     statements_on "PHI_XY" body
     = mixed_axis_statements "PHI_XY" "SXY" "SX" "SY" "AX" "AY" 1 (1 <=? 1) (1 <=? 1)
         (np_generator._build_xyz_pow sample_float_fmt "AXY" (1 * 1) (1 + 1) (1 + 1) (0 + 2) 2)
     /\ statements_on "PHI_XZ" body
        = mixed_axis_statements "PHI_XZ" "SXZ" "SX" "SZ" "AX" "AZ" 1 (1 <=? 1) (1 <=? 0)
            (np_generator._build_xyz_pow sample_float_fmt "AXZ" (1 * 0) (1 + 1) (1 + 2) (0 + 1) 2)
     /\ statements_on "PHI_YZ" body
        = mixed_axis_statements "PHI_YZ" "SYZ" "SY" "SZ" "AY" "AZ" 1 (1 <=? 1) (1 <=? 0)
            (np_generator._build_xyz_pow sample_float_fmt "AYZ" (1 * 0) (1 + 2) (1 + 1) (0 + 1) 2).
Proof.
  split; [lia|].
  apply (numpy_mixed_hessian_statements sample_float_fmt 2 1 1 1 0); lia.
Defined.

(** X16: at order 2 the blocked assembler writes to each derivative output
    the statements the array assembler writes to it: for every gradient and
    Hessian label the statements on [output['label'][...]] of the two bodies
    of a component are the same, in the same order.  (The value is stored by
    the two in different places.) *)
Theorem backends_same_derivative_statements (float_fmt : Z -> string)
    (L shift idx l m n : Z) (label : string) :
  In label (py_kernel.gradient_labels ++ py_kernel.hessian_labels) ->
  statements_on label (c_generator._c_am_build_body float_fmt L 2 shift (idx, l, m, n))
  = statements_on label (np_generator._numpy_am_build_body float_fmt L (idx, l, m, n)).
Proof.
  intros Hin. simpl in Hin.
  repeat (destruct Hin as [<-|Hin]); [..|contradiction].
  - now rewrite c_statements_X, numpy_statements_X.
  - now rewrite c_statements_Y, numpy_statements_Y.
  - now rewrite c_statements_Z, numpy_statements_Z.
  - now rewrite c_statements_XX, numpy_statements_XX.
  - now rewrite c_statements_YY, numpy_statements_YY.
  - now rewrite c_statements_ZZ, numpy_statements_ZZ.
  - now rewrite c_statements_XY, numpy_statements_XY.
  - now rewrite c_statements_XZ, numpy_statements_XZ.
  - now rewrite c_statements_YZ, numpy_statements_YZ.
Qed.

Lemma backends_same_derivative_statements_witness :
  In "PHI_XY"%string (py_kernel.gradient_labels ++ py_kernel.hessian_labels)
  /\ statements_on "PHI_XY"
       (c_generator._c_am_build_body sample_float_fmt 2 2 64 (1, 1, 1, 0))
     = statements_on "PHI_XY"
         (np_generator._numpy_am_build_body sample_float_fmt 2 (1, 1, 1, 0)).
Proof.
  split; [simpl; tauto|].
  apply (backends_same_derivative_statements sample_float_fmt 2 64 1 1 1 0 "PHI_XY").
  simpl. tauto.
Defined.

(** ** The formulas the two assemblers emit *)
Lemma filter_flat_map {A B} (p : B -> bool) (f : A -> list B) (xs : list A) :
  List.filter p (flat_map f xs) = flat_map (fun x => List.filter p (f x)) xs.
Proof.
  induction xs as [|x xs IH]; [reflexivity|].
  cbn [flat_map]. now rewrite List.filter_app, IH.
Qed.

Section Formulas.
Variable float_fmt : Z -> string.

Lemma formula_order_term name (o : option Z) pref l m n shift :
  (forall rest, formula_order (W (name +:+ " =" +:+ rest)) = o) ->
  formula_order (cg_write (np_generator._build_xyz_pow float_fmt name pref l m n shift))
  = if is_not_none (np_generator._build_xyz_pow float_fmt name pref l m n shift)
    then o else None.
Proof.
  intros Ho.
  destruct (np_generator._build_xyz_pow _ _ _ _ _ _ _) as [t|] eqn:Ht; [|reflexivity].
  apply build_xyz_pow_head in Ht as [rest ->]. apply Ho.
Qed.

Lemma is_formula_upto_A k pref l m n shift :
  is_formula_upto k (cg_write (np_generator._build_xyz_pow float_fmt "A" pref l m n shift))
  = is_not_none (np_generator._build_xyz_pow float_fmt "A" pref l m n shift) && (0 <=? k).
Proof.
  unfold is_formula_upto.
  rewrite (formula_order_term "A" (Some 0)) by (intros; reflexivity).
  now destruct (is_not_none _).
Qed.

Lemma is_formula_upto_first k name pref l m n shift :
  In name ["AX"; "AY"; "AZ"]%string ->
  is_formula_upto k (cg_write (np_generator._build_xyz_pow float_fmt name pref l m n shift))
  = is_not_none (np_generator._build_xyz_pow float_fmt name pref l m n shift) && (1 <=? k).
Proof.
  intros Hname. unfold is_formula_upto.
  rewrite (formula_order_term name (Some 1)).
  - now destruct (is_not_none _).
  - intros rest. simpl in Hname.
    repeat (destruct Hname as [<-|Hname]; [reflexivity|]). contradiction.
Qed.

Lemma is_value_store_term name pref l m n shift :
  starts_with "A" name = true ->
  is_value_store (cg_write (np_generator._build_xyz_pow float_fmt name pref l m n shift))
  = false.
Proof.
  intros Hname. unfold is_value_store.
  destruct (np_generator._build_xyz_pow _ _ _ _ _ _ _) as [t|] eqn:Ht; [|reflexivity].
  apply build_xyz_pow_head in Ht as [rest ->].
  destruct name as [|c name]; [discriminate|].
  change (Ascii.eqb "A"%char c && true = true) in Hname.
  apply andb_prop in Hname as [Hc _]. apply Ascii.eqb_eq in Hc. subst c.
  reflexivity.
Qed.
End Formulas.

(** Settle the pieces of a body one by one under a filter on formula lines. *)
Ltac flag_cases :=
  repeat match goal with
  | |- context [if is_not_none ?o then _ else _] =>
      let E := fresh "E" in destruct (is_not_none o) eqn:E
  | |- context [match ?o with Some _ => _ | None => _ end] => destruct o
  end.

Ltac formula_seg :=
  flag_cases; cbn [List.filter];
  rewrite ?is_formula_upto_A;
  rewrite ?is_formula_upto_first by (simpl; tauto);
  rewrite ?is_value_store_term by reflexivity;
  repeat match goal with E : is_not_none _ = _ |- _ => rewrite ?E; clear E end;
  reflexivity.

Ltac settle_formulas :=
  repeat match goal with
  | |- context [List.filter ?f ?seg] =>
      lazymatch seg with
      | _ ++ _ => fail
      | _ => idtac
      end;
      first [ replace (List.filter f seg) with (@nil cg_op) by formula_seg
            | replace (List.filter f seg) with seg by formula_seg
            | let x := fresh "mixed" in set (x := List.filter f seg) ]
  end;
  repeat match goal with x := List.filter _ _ |- _ => subst x end;
  cbn [List.filter];
  rewrite ?is_formula_upto_A;
  rewrite ?is_value_store_term by reflexivity;
  repeat match goal with
  | |- context [is_not_none ?o && _] => destruct (is_not_none o)
  end;
  reflexivity.

Section Bodies.
Variable float_fmt : Z -> string.
Variables L grad shift : Z.

Lemma body_formulas_agree c :
  formulas_upto 2 (c_generator._c_am_build_body float_fmt L grad shift c)
  = formulas_upto (emitted_order grad) (np_generator._numpy_am_build_body float_fmt L c).
Proof.
  destruct c as [[[idx l] m] n].
  unfold formulas_upto, emitted_order, c_generator._c_am_build_body,
    np_generator._numpy_am_build_body.
  cbv beta iota zeta.
  change (c_generator._build_xyz_pow float_fmt)
    with (np_generator._build_xyz_pow float_fmt).
  destruct (grad =? 0); [|destruct (grad =? 1)];
    rewrite !List.filter_app; settle_formulas.
Qed.

Lemma numpy_body_value_store c :
  value_stores (np_generator._numpy_am_build_body float_fmt L c)
  = [ W ("output['PHI'][" +:+ fmt_d (component_index c) +:+ "] = S0 * A") ].
Proof.
  destruct c as [[[idx l] m] n].
  unfold value_stores, component_index, np_generator._numpy_am_build_body.
  cbv beta iota zeta.
  rewrite !List.filter_app; settle_formulas.
Qed.

Lemma c_body_value_store c :
  value_stores (c_generator._c_am_build_body float_fmt L grad shift c)
  = [ W ("phi_tmp[" +:+ fmt_d (component_index c * shift) +:+ " + i] = S0 * A") ].
Proof.
  destruct c as [[[idx l] m] n].
  unfold value_stores, component_index, c_generator._c_am_build_body.
  cbv beta iota zeta.
  change (c_generator._build_xyz_pow float_fmt)
    with (np_generator._build_xyz_pow float_fmt).
  destruct (grad =? 0); [|destruct (grad =? 1)];
    rewrite ?List.filter_app; settle_formulas.
Qed.
End Bodies.

Lemma flat_map_singleton {A B} (f : A -> B) (xs : list A) :
  flat_map (fun x => [f x]) xs = List.map f xs.
Proof. induction xs as [|x xs IH]; [reflexivity|]. simpl. now rewrite IH. Qed.

(** C5: for the same degree and ordering convention, the formulas the two
    assemblers emit agree line for line.  The formula lines of the blocked
    assembler (the assignments of the synthesized terms and the statements on
    the derivative outputs, each with the flat index it stores at) are, in
    the same order, the formula lines of the array assembler of derivative
    order up to the one the blocked assembler was asked for; with value,
    gradient and Hessian ([grad = 2]) they are all of them.  Hessian terms
    reach the text as the right-hand side (prefactor and factors) inside the
    statement that uses them.  Both store the value once per tuple of the
    enumeration, in its order, from the same term [A]: the array assembler at
    the flat index [idx] of [output['PHI']], the blocked one at row [idx] of
    its tile buffer, [phi_tmp[idx * shift + i]]. *)
Theorem am_build_formulas_agree (float_fmt : Z -> string)
    (cartesian_order_factory : Z -> string -> list (Z * Z * Z * Z))
    (L : Z) (cart_order : string) (grad shift : Z) :
  formulas_upto 2
    (c_generator._c_am_build float_fmt cartesian_order_factory L cart_order grad shift)
  = formulas_upto (emitted_order grad)
      (np_generator._numpy_am_build float_fmt cartesian_order_factory L cart_order)
  /\ value_stores
       (np_generator._numpy_am_build float_fmt cartesian_order_factory L cart_order)
     = List.map (fun c => W ("output['PHI'][" +:+ fmt_d (component_index c)
                               +:+ "] = S0 * A"))
         (cartesian_order_factory L cart_order)
  /\ value_stores
       (c_generator._c_am_build float_fmt cartesian_order_factory L cart_order grad shift)
     = List.map (fun c => W ("phi_tmp[" +:+ fmt_d (component_index c * shift)
                               +:+ " + i] = S0 * A"))
         (cartesian_order_factory L cart_order).
Proof.
  unfold c_generator._c_am_build, np_generator._numpy_am_build, formulas_upto, value_stores.
  rewrite !filter_flat_map. split; [|split].
  - apply flat_map_ext_In. intros c _. apply body_formulas_agree.
  - rewrite <- flat_map_singleton. apply flat_map_ext_In. intros c _.
    apply numpy_body_value_store.
  - rewrite <- flat_map_singleton. apply flat_map_ext_In. intros c _.
    apply c_body_value_store.
Qed.
